(** * Surgio: the node codec, the filter and group engine, and the Clash rule filter

    A shallow embedding of [lib/utils/index.ts] (decoders, serializers,
    the base64 codecs, [applyFilter], [generateClashProxyGroup],
    [normalizeClashProxyGroupConfig]) and of [lib/template.ts] (the filters
    [clash], [mellow], [quantumultx] and [hostname], [surgeUrlRewrite] and
    the conversion of script rules), with the properties the specification
    states about them (C1 to C10) and further properties of the code (X1
    and up): round trips between the serializers and the decoders, error
    and edge behaviour, and the shape of what is written.

    Conventions of the embedding.

    - A JavaScript string is modelled by the sequence of its UTF-8 bytes
      ([string]); the character-level operations ([toUpperCase], [trim], the
      regular expressions) are modelled on ASCII characters, bytes above 127
      are carried through unchanged.
    - A JavaScript value is a [JsVal]; an object is the list of its own
      properties in insertion order.  Numbers are integers (ports, alter ids,
      version markers) or [NaN].
    - Effects ([console.log], [fs.writeJSONSync], [throw]) are recorded by the
      monad [M]: a trace of events and an outcome. *)

From Stdlib Require Import Bool List ZArith Lia Ascii String.
From Stdlib Require Import Numbers.DecimalString.
Import ListNotations.

Open Scope string_scope.
Open Scope list_scope.

Infix "+:+" := String.append (at level 60, right associativity).

(** ** Strings *)

Definition chr (n : nat) : ascii := ascii_of_nat n.
Definition LF : ascii := chr 10.
Definition CR : ascii := chr 13.
Definition DQUOTE : ascii := chr 34.
Definition str1 (c : ascii) : string := String c "".
Definition NL : string := str1 LF.

(** [p] is a prefix of [s]. *)
Fixpoint is_prefix (p s : string) : bool :=
  match p with
  | "" => true
  | String a p' =>
      match s with
      | "" => false
      | String b s' => Ascii.eqb a b && is_prefix p' s'
      end
  end.

(** [s.startsWith(p)] *)
Definition startsWith (s p : string) : bool := is_prefix p s.

(** [s.slice(n)] *)
Fixpoint drop (n : nat) (s : string) : string :=
  match n, s with
  | O, _ => s
  | S _, "" => ""
  | S n', String _ s' => drop n' s'
  end.

(** [s.slice(0, n)] *)
Fixpoint take (n : nat) (s : string) : string :=
  match n, s with
  | O, _ => ""
  | S _, "" => ""
  | S n', String c s' => String c (take n' s')
  end.

(** [s.split(sep)] for a one-character separator. *)
Fixpoint split (sep : ascii) (s : string) : list string :=
  match s with
  | "" => [""]
  | String c s' =>
      if Ascii.eqb c sep then "" :: split sep s'
      else match split sep s' with
           | [] => [str1 c]
           | x :: xs => String c x :: xs
           end
  end.

(** [l.join(sep)] on strings. *)
Definition join (sep : string) (l : list string) : string := String.concat sep l.

(** [s.replace(pat, rep)] with a string pattern: the first occurrence only.
    None of the replacement texts used by the program contains a [$]-pattern. *)
Fixpoint replace (pat rep s : string) {struct s} : string :=
  if is_prefix pat s then rep +:+ drop (String.length pat) s
  else match s with
       | "" => ""
       | String c s' => String c (replace pat rep s')
       end.

(** [s.replace(/c/g, rep)] for a one-character pattern. *)
Fixpoint replaceAllChar (c : ascii) (rep : string) (s : string) : string :=
  match s with
  | "" => ""
  | String d s' =>
      (if Ascii.eqb d c then rep else str1 d) +:+ replaceAllChar c rep s'
  end.

(** White space of [String.prototype.trim], ASCII part: [trim] below is
    the operation of JavaScript on a text that neither starts nor ends with
    a white space character beyond ASCII (U+00A0, U+FEFF, U+2028, U+2029,
    the space separators), as is every ASCII text ([ascii_text]). *)
Definition is_ws (c : ascii) : bool :=
  let n := nat_of_ascii c in
  ((9 <=? n)%nat && (n <=? 13)%nat) || (n =? 32)%nat.

Fixpoint trimStart (s : string) : string :=
  match s with
  | "" => ""
  | String c s' => if is_ws c then trimStart s' else s
  end.

Fixpoint trimEnd (s : string) : string :=
  match s with
  | "" => ""
  | String c s' =>
      match trimEnd s' with
      | "" => if is_ws c then "" else str1 c
      | t => String c t
      end
  end.

Definition trim (s : string) : string := trimEnd (trimStart s).

Definition upper_char (c : ascii) : ascii :=
  let n := nat_of_ascii c in
  if ((97 <=? n)%nat && (n <=? 122)%nat) then chr (n - 32) else c.

Definition lower_char (c : ascii) : ascii :=
  let n := nat_of_ascii c in
  if ((65 <=? n)%nat && (n <=? 90)%nat) then chr (n + 32) else c.

Fixpoint map_string (f : ascii -> ascii) (s : string) : string :=
  match s with
  | "" => ""
  | String c s' => String (f c) (map_string f s')
  end.

(** [toUpperCase] and [toLowerCase] on the letters of ASCII; the bytes of
    other characters are left as they are, so that the two are the
    operations of JavaScript on ASCII text ([ascii_text]) and on every text
    without a letter beyond ASCII that has another case. *)
Definition toUpperCase : string -> string := map_string upper_char.
Definition toLowerCase : string -> string := map_string lower_char.

(** Position of the first (resp. last) occurrence of a character. *)
Fixpoint indexOf (c : ascii) (s : string) : option nat :=
  match s with
  | "" => None
  | String d s' =>
      if Ascii.eqb d c then Some 0
      else match indexOf c s' with Some i => Some (S i) | None => None end
  end.

Fixpoint lastIndexOf (c : ascii) (s : string) : option nat :=
  match s with
  | "" => None
  | String d s' =>
      match lastIndexOf c s' with
      | Some i => Some (S i)
      | None => if Ascii.eqb d c then Some 0 else None
      end
  end.

Fixpoint all_chars (p : ascii -> bool) (s : string) : bool :=
  match s with
  | "" => true
  | String c s' => p c && all_chars p s'
  end.

(** Line terminators, which the regular expression [.] does not match. *)
Definition is_line_terminator (c : ascii) : bool :=
  Ascii.eqb c LF || Ascii.eqb c CR.

(** Decimal rendering of an integer, as [String(n)] gives it. *)
Definition Z_to_string (z : Z) : string :=
  NilZero.string_of_int (Z.to_int z).

Definition bool_to_string (b : bool) : string :=
  if b then "true" else "false".

(** ** JavaScript values *)

#[local] Set Warnings "-register-all".

Inductive JsVal : Type :=
| JUndefined
| JNull
| JBool (b : bool)
| JNum (z : Z)
| JNaN
| JStr (s : string)
| JArr (elems : list JsVal)
| JObj (props : list (string * JsVal)).

(** An object: its own enumerable properties, in insertion order. *)
Definition Obj : Type := list (string * JsVal).

(** [o.hasOwnProperty(k)] *)
Fixpoint has (o : Obj) (k : string) : bool :=
  match o with
  | [] => false
  | (k', _) :: o' => String.eqb k' k || has o' k
  end.

(** [o[k]]: [undefined] when the property is missing. *)
Fixpoint get (o : Obj) (k : string) : JsVal :=
  match o with
  | [] => JUndefined
  | (k', v) :: o' => if String.eqb k' k then v else get o' k
  end.

(** [o[k] = v]: an existing property keeps its place. *)
Fixpoint set (o : Obj) (k : string) (v : JsVal) : Obj :=
  match o with
  | [] => [(k, v)]
  | (k', v') :: o' =>
      if String.eqb k' k then (k, v) :: o' else (k', v') :: set o' k v
  end.

(** [{...o, ...p}] *)
Definition spread (o p : Obj) : Obj :=
  fold_left (fun acc kv => set acc (fst kv) (snd kv)) p o.

(** [v?.k] and [v.k] on a value that is not [null] or [undefined]. *)
Definition getv (v : JsVal) (k : string) : JsVal :=
  match v with
  | JObj o => get o k
  | _ => JUndefined
  end.

(** [!!v] *)
Definition truthy (v : JsVal) : bool :=
  match v with
  | JUndefined | JNull | JNaN => false
  | JBool b => b
  | JNum z => negb (Z.eqb z 0)
  | JStr s => negb (String.eqb s "")
  | JArr _ | JObj _ => true
  end.

(** [a || b] *)
Definition js_or (a b : JsVal) : JsVal := if truthy a then a else b.

(** [v === s] for a string literal [s]. *)
Definition is_str (v : JsVal) (s : string) : bool :=
  match v with
  | JStr t => String.eqb t s
  | _ => false
  end.

(** [v === b] for a boolean literal [b]. *)
Definition is_bool (v : JsVal) (b : bool) : bool :=
  match v with
  | JBool c => Bool.eqb c b
  | _ => false
  end.

(** [v === n] for a number literal [n]. *)
Definition is_num (v : JsVal) (n : Z) : bool :=
  match v with
  | JNum z => Z.eqb z n
  | _ => false
  end.

(** [typeof v === 'boolean'] *)
Definition is_boolean (v : JsVal) : bool :=
  match v with
  | JBool _ => true
  | _ => false
  end.

(** [typeof v === 'string'] *)
Definition is_string (v : JsVal) : bool :=
  match v with
  | JStr _ => true
  | _ => false
  end.

(** [[s1, ..., sn].includes(v)] and [[s1, ..., sn].indexOf(v) > -1] for string
    literals. *)
Definition includes (l : list string) (v : JsVal) : bool :=
  existsb (is_str v) l.

(** [String(v)], the conversion a template literal and [+] on a string
    apply.  A number is printed with all its digits, as JavaScript prints an
    integer below 10^21 that it holds exactly; the properties that read a
    number back bound it ([plain_number]). *)
Fixpoint toString (v : JsVal) : string :=
  match v with
  | JUndefined => "undefined"
  | JNull => "null"
  | JBool b => bool_to_string b
  | JNum z => Z_to_string z
  | JNaN => "NaN"
  | JStr s => s
  | JArr l =>
      join ","
        (map (fun x => match x with
                       | JUndefined | JNull => ""
                       | _ => toString x
                       end) l)
  | JObj _ => "[object Object]"
  end.

(** [l.join(sep)]: [undefined] and [null] elements give the empty string. *)
Definition join_vals (sep : string) (l : list JsVal) : string :=
  join sep
    (map (fun x => match x with
                   | JUndefined | JNull => ""
                   | _ => toString x
                   end) l).

(** *** JSON.stringify *)

Definition hex_digit (n : nat) : ascii :=
  if (n <? 10)%nat then chr (48 + n) else chr (87 + n).

Definition json_escape_char (c : ascii) : string :=
  let n := nat_of_ascii c in
  if (n =? 34)%nat then String (chr 92) (str1 DQUOTE)
  else if (n =? 92)%nat then String (chr 92) (str1 (chr 92))
  else if (n =? 8)%nat then String (chr 92) "b"
  else if (n =? 12)%nat then String (chr 92) "f"
  else if (n =? 10)%nat then String (chr 92) "n"
  else if (n =? 13)%nat then String (chr 92) "r"
  else if (n =? 9)%nat then String (chr 92) "t"
  else if (n <? 32)%nat then
    String (chr 92) ("u00" +:+ String (hex_digit (n / 16)) (str1 (hex_digit (n mod 16))))
  else str1 c.

Fixpoint json_escape (s : string) : string :=
  match s with
  | "" => ""
  | String c s' => json_escape_char c +:+ json_escape s'
  end.

Definition json_quote (s : string) : string :=
  String DQUOTE (json_escape s +:+ str1 DQUOTE).

Definition bracket (open close gap ind : string) (items : list string) : string :=
  match items with
  | [] => open +:+ close
  | _ =>
      if String.eqb gap "" then open +:+ join "," items +:+ close
      else
        let ind' := ind +:+ gap in
        open +:+ NL +:+ ind' +:+ join ("," +:+ NL +:+ ind') items
             +:+ NL +:+ ind +:+ close
  end.

(** [JSON.stringify(v, null, gap)]; [None] is the [undefined] it returns for
    [undefined].  [ind] is the current indentation. *)
Fixpoint stringify_gap (gap ind : string) (v : JsVal) : option string :=
  match v with
  | JUndefined => None
  | JNull | JNaN => Some "null"
  | JBool b => Some (bool_to_string b)
  | JNum z => Some (Z_to_string z)
  | JStr s => Some (json_quote s)
  | JArr l =>
      Some (bracket "[" "]" gap ind
              (map (fun x => match stringify_gap gap (ind +:+ gap) x with
                             | Some t => t
                             | None => "null"
                             end) l))
  | JObj o =>
      Some (bracket "{" "}" gap ind
              (flat_map
                 (fun kv =>
                    match stringify_gap gap (ind +:+ gap) (snd kv) with
                    | Some t =>
                        [json_quote (fst kv)
                           +:+ (if String.eqb gap "" then ":" else ": ") +:+ t]
                    | None => []
                    end) o))
  end.

(** [JSON.stringify(v)] in a template literal: [undefined] prints as text. *)
Definition JSON_stringify (v : JsVal) : string :=
  match stringify_gap "" "" v with
  | Some t => t
  | None => "undefined"
  end.

(** ** Codec primitives: base64, URL-safe base64, URI components *)

Definition b64_char (n : nat) : ascii :=
  if (n <? 26)%nat then chr (65 + n)
  else if (n <? 52)%nat then chr (71 + n)
  else if (n <? 62)%nat then chr (n - 4)
  else if (n =? 62)%nat then chr 43
  else chr 47.

(** [Buffer.from(str, 'utf8').toString('base64')] *)
Fixpoint toBase64 (s : string) : string :=
  match s with
  | "" => ""
  | String a "" =>
      let x := nat_of_ascii a in
      String (b64_char (x / 4)) (String (b64_char ((x mod 4) * 16)) "==")
  | String a (String b "") =>
      let x := nat_of_ascii a in
      let y := nat_of_ascii b in
      String (b64_char (x / 4))
        (String (b64_char ((x mod 4) * 16 + y / 16))
           (String (b64_char ((y mod 16) * 4)) "="))
  | String a (String b (String c s')) =>
      let x := nat_of_ascii a in
      let y := nat_of_ascii b in
      let z := nat_of_ascii c in
      String (b64_char (x / 4))
        (String (b64_char ((x mod 4) * 16 + y / 16))
           (String (b64_char ((y mod 16) * 4 + z / 64))
              (String (b64_char (z mod 64)) (toBase64 s'))))
  end.

(** The sextet of a base64 character; Node accepts both alphabets. *)
Definition unbase64 (c : ascii) : option nat :=
  let n := nat_of_ascii c in
  if ((65 <=? n) && (n <=? 90))%nat then Some (n - 65)
  else if ((97 <=? n) && (n <=? 122))%nat then Some (n - 71)
  else if ((48 <=? n) && (n <=? 57))%nat then Some (n + 4)
  else if ((n =? 43) || (n =? 45))%nat then Some 62
  else if ((n =? 47) || (n =? 95))%nat then Some 63
  else None.

(** The sextets Node's decoder reads: characters outside the alphabets are
    skipped, the first [=] stops the decoding. *)
Fixpoint sextets (s : string) : list nat :=
  match s with
  | "" => []
  | String c s' =>
      if Ascii.eqb c (chr 61) then []
      else match unbase64 c with
           | Some n => n :: sextets s'
           | None => sextets s'
           end
  end.

Fixpoint bytes_of_sextets (l : list nat) : string :=
  match l with
  | a :: b :: c :: d :: l' =>
      String (chr (a * 4 + b / 16))
        (String (chr ((b mod 16) * 16 + c / 4))
           (String (chr ((c mod 4) * 64 + d)) (bytes_of_sextets l')))
  | [a; b; c] =>
      String (chr (a * 4 + b / 16)) (str1 (chr ((b mod 16) * 16 + c / 4)))
  | [a; b] => str1 (chr (a * 4 + b / 16))
  | _ => ""
  end.

(** [Buffer.from(str, 'base64').toString('utf8')], on payloads that are
    well-formed UTF-8. *)
Definition fromBase64 (s : string) : string := bytes_of_sextets (sextets s).

Fixpoint stripPadding (s : string) : string :=
  match s with
  | "" => ""
  | String c s' =>
      match stripPadding s' with
      | "" => if Ascii.eqb c (chr 61) then "" else str1 c
      | t => String c t
      end
  end.

(** [URLSafeBase64.encode(Buffer.from(str, 'utf8'))] *)
Definition toUrlSafeBase64 (s : string) : string :=
  stripPadding
    (replaceAllChar (chr 47) "_" (replaceAllChar (chr 43) "-" (toBase64 s))).

(** [URLSafeBase64.validate]: the pattern [^[A-Za-z0-9\-_]+$]. *)
Definition urlsafe_char (c : ascii) : bool :=
  let n := nat_of_ascii c in
  (((65 <=? n) && (n <=? 90)) || ((97 <=? n) && (n <=? 122))
   || ((48 <=? n) && (n <=? 57)) || (n =? 45) || (n =? 95))%nat.

Definition URLSafeBase64_validate (s : string) : bool :=
  negb (String.eqb s "") && all_chars urlsafe_char s.

Fixpoint repeat_string (n : nat) (s : string) : string :=
  match n with
  | O => ""
  | S n' => s +:+ repeat_string n' s
  end.

(** [URLSafeBase64.decode(str).toString()] *)
Definition URLSafeBase64_decode (s : string) : string :=
  let padded := s +:+ repeat_string (4 - String.length s mod 4) "=" in
  fromBase64
    (replaceAllChar (chr 95) "/" (replaceAllChar (chr 45) "+" padded)).

Definition fromUrlSafeBase64 (s : string) : string :=
  if URLSafeBase64_validate s then URLSafeBase64_decode s else fromBase64 s.

Definition uri_unreserved (c : ascii) : bool :=
  let n := nat_of_ascii c in
  (((65 <=? n) && (n <=? 90)) || ((97 <=? n) && (n <=? 122))
   || ((48 <=? n) && (n <=? 57))
   || (n =? 45) || (n =? 95) || (n =? 46) || (n =? 33) || (n =? 126)
   || (n =? 42) || (n =? 39) || (n =? 40) || (n =? 41))%nat.

Definition upper_hex_digit (n : nat) : ascii :=
  if (n <? 10)%nat then chr (48 + n) else chr (55 + n).

(** [encodeURIComponent(s)] *)
Fixpoint encodeURIComponent (s : string) : string :=
  match s with
  | "" => ""
  | String c s' =>
      if uri_unreserved c then String c (encodeURIComponent s')
      else
        let n := nat_of_ascii c in
        String (chr 37)
          (String (upper_hex_digit (n / 16))
             (String (upper_hex_digit (n mod 16)) (encodeURIComponent s')))
  end.

Definition hex_val (c : ascii) : option nat :=
  let n := nat_of_ascii c in
  if ((48 <=? n) && (n <=? 57))%nat then Some (n - 48)
  else if ((65 <=? n) && (n <=? 70))%nat then Some (n - 55)
  else if ((97 <=? n) && (n <=? 102))%nat then Some (n - 87)
  else None.

(** An escape [%XX] at the head of [s]: the byte and the rest. *)
Definition pct_escape (s : string) : option (nat * string) :=
  match s with
  | String p (String a (String b r)) =>
      if Ascii.eqb p (chr 37) then
        match hex_val a, hex_val b with
        | Some x, Some y => Some (16 * x + y, r)
        | _, _ => None
        end
      else None
  | _ => None
  end.

(** [k] continuation escapes [%XX] with bytes in [0x80..0xBF]: the bytes, the
    code point bits they add to [acc], and the rest. *)
Fixpoint continuation (k : nat) (acc : N) (s : string)
  : option (string * N * string) :=
  match k with
  | O => Some ("", acc, s)
  | S k' =>
      match pct_escape s with
      | Some (b, r) =>
          if ((128 <=? b) && (b <=? 191))%nat then
            match continuation k' (acc * 64 + N.of_nat (b - 128))%N r with
            | Some (bs, cp, r') => Some (String (chr b) bs, cp, r')
            | None => None
            end
          else None
      | None => None
      end
  end.

Definition valid_code_point (len : nat) (cp : N) : bool :=
  match len with
  | 2 => (128 <=? cp)%N
  | 3 => ((2048 <=? cp) && negb ((55296 <=? cp) && (cp <=? 57343)))%N
  | 4 => ((65536 <=? cp) && (cp <=? 1114111))%N
  | _ => false
  end.

(** [decodeURIComponent(s)]; [None] is the [URIError] it throws on a malformed
    escape or on escapes that are not the UTF-8 encoding of a code point. *)
Fixpoint decodeURIComponent_fuel (fuel : nat) (s : string) : option string :=
  match fuel with
  | O => match s with "" => Some "" | _ => None end
  | S fuel' =>
      match s with
      | "" => Some ""
      | String c r =>
          if Ascii.eqb c (chr 37) then
            match pct_escape s with
            | None => None
            | Some (b, r1) =>
                if (b <? 128)%nat then
                  option_map (String (chr b)) (decodeURIComponent_fuel fuel' r1)
                else
                  let len := if (b <? 192)%nat then 0
                             else if (b <? 224)%nat then 2
                             else if (b <? 240)%nat then 3
                             else if (b <? 248)%nat then 4
                             else 0 in
                  let lead := match len with
                              | 2 => b - 192
                              | 3 => b - 224
                              | _ => b - 240
                              end in
                  match len with
                  | O => None
                  | S k =>
                      match continuation k (N.of_nat lead) r1 with
                      | Some (bs, cp, r2) =>
                          if valid_code_point len cp then
                            option_map (fun t => String (chr b) (bs +:+ t))
                              (decodeURIComponent_fuel fuel' r2)
                          else None
                      | None => None
                      end
                  end
            end
          else option_map (String c) (decodeURIComponent_fuel fuel' r)
      end
  end.

Definition decodeURIComponent (s : string) : option string :=
  decodeURIComponent_fuel (String.length s) s.

(** ** Query strings and the legacy URL parser *)

(** [s] cut at the first [c]: the text before, and the text after when there
    is one. *)
Definition cut (c : ascii) (s : string) : string * option string :=
  match indexOf c s with
  | Some i => (take i s, Some (drop (S i) s))
  | None => (s, None)
  end.

(** Node's lenient [unescapeBuffer]: a malformed escape stays as it is. *)
Fixpoint unescape_lenient (s : string) : string :=
  match s with
  | "" => ""
  | String c r =>
      if Ascii.eqb c (chr 37) then
        match r with
        | String a (String b r2) =>
            match hex_val a, hex_val b with
            | Some x, Some y => String (chr (16 * x + y)) (unescape_lenient r2)
            | _, _ => String c (unescape_lenient r)
            end
        | _ => String c (unescape_lenient r)
        end
      else String c (unescape_lenient r)
  end.

(** [querystring.unescape] after [+] has been read as a space. *)
Definition qs_unescape (s : string) : string :=
  let s' := replaceAllChar (chr 43) " " s in
  match decodeURIComponent s' with
  | Some t => t
  | None => unescape_lenient s'
  end.

(** A repeated key collects its values in an array. *)
Definition qs_add (o : Obj) (k v : string) : Obj :=
  if has o k then
    set o k (match get o k with
             | JArr l => JArr (l ++ [JStr v])
             | old => JArr [old; JStr v]
             end)
  else set o k (JStr v).

(** [querystring.parse(s)] *)
Definition querystring_parse (s : string) : Obj :=
  fold_left
    (fun o seg =>
       if String.eqb seg "" then o
       else
         let '(k, v) := cut (chr 61) seg in
         qs_add o (qs_unescape k)
           (qs_unescape (match v with Some t => t | None => "" end)))
    (split (chr 38) s) [].

Fixpoint insert_sorted (k : string) (l : list string) : list string :=
  match l with
  | [] => [k]
  | x :: l' => if String.leb k x then k :: l else x :: insert_sorted k l'
  end.

(** [keys.sort()] *)
Definition sort_strings (l : list string) : list string :=
  fold_right insert_sorted [] l.

(** [queryString.stringify(o, { encode: false, sort })] of the [query-string]
    package, for values that are strings, numbers, [null] or [undefined]. *)
Definition queryString_stringify (sort : bool) (o : Obj) : string :=
  let keys := map fst o in
  let keys := if sort then sort_strings keys else keys in
  join "&"
    (filter (fun x => negb (String.eqb x ""))
       (map (fun k => match get o k with
                      | JUndefined => ""
                      | JNull => k
                      | v => k +:+ "=" +:+ toString v
                      end) keys)).

(** What the decoders read of the object [url.parse(str, true)] returns;
    [None] stands for [null]. *)
Record UrlObject : Type := mkUrl {
  url_protocol : option string;
  url_auth : option string;
  url_hostname : option string;
  url_port : option string;
  url_query : Obj;
  url_hash : option string
}.

Definition proto_char (c : ascii) : bool :=
  let n := nat_of_ascii c in
  (((65 <=? n) && (n <=? 90)) || ((97 <=? n) && (n <=? 122))
   || ((48 <=? n) && (n <=? 57)) || (n =? 46) || (n =? 43) || (n =? 45))%nat.

(** Length of the match of [^[a-z0-9.+-]+:] (case-insensitive). *)
Fixpoint protocol_length (s : string) : option nat :=
  match s with
  | "" => None
  | String c r =>
      if proto_char c then
        match r with
        | "" => None
        | String d _ =>
            if Ascii.eqb d (chr 58) then Some 2
            else option_map S (protocol_length r)
        end
      else None
  end.

(** Back slashes before the query and the fragment become slashes. *)
Fixpoint convert_backslashes (s : string) : string :=
  match s with
  | "" => ""
  | String c r =>
      if Ascii.eqb c (chr 63) || Ascii.eqb c (chr 35) then s
      else String (if Ascii.eqb c (chr 92) then chr 47 else c)
                  (convert_backslashes r)
  end.

(** Characters that are never allowed in a host name. *)
Definition non_host_char (c : ascii) : bool :=
  existsb (Nat.eqb (nat_of_ascii c))
    [9; 10; 13; 32; 34; 37; 39; 59; 60; 62; 92; 94; 96; 123; 124; 125].

Definition host_ending_char (c : ascii) : bool :=
  existsb (Nat.eqb (nat_of_ascii c)) [35; 47; 63].

(** The scan for the end of the authority: the position of the last [@]
    before the host ends, and the position where the host stops. *)
Fixpoint host_scan (s : string) (i : nat) (atSign nonHost : option nat)
  : option nat * option nat :=
  match s with
  | "" => (atSign, nonHost)
  | String c r =>
      let mark := match nonHost with None => Some i | Some _ => nonHost end in
      if non_host_char c then host_scan r (S i) atSign mark
      else if host_ending_char c then (atSign, mark)
      else if Ascii.eqb c (chr 64) then host_scan r (S i) (Some i) None
      else host_scan r (S i) atSign nonHost
  end.

Definition all_digits (s : string) : bool :=
  all_chars (fun c => let n := nat_of_ascii c in ((48 <=? n) && (n <=? 57))%nat) s.

(** [parseHost]: the port is the match of [:[0-9]*$]. *)
Definition parseHost (host : string) : string * option string :=
  match lastIndexOf (chr 58) host with
  | Some i =>
      let p := drop (S i) host in
      if all_digits p
      then (take i host, if String.eqb p "" then None else Some p)
      else (host, None)
  | None => (host, None)
  end.

Definition hostname_char (c : ascii) : bool :=
  let n := nat_of_ascii c in
  (((65 <=? n) && (n <=? 90)) || ((97 <=? n) && (n <=? 122))
   || ((48 <=? n) && (n <=? 57))
   || (n =? 46) || (n =? 45) || (n =? 43) || (n =? 95) || (127 <? n))%nat.

(** The host name up to its first invalid character, and what follows. *)
Fixpoint valid_hostname (s : string) : string * string :=
  match s with
  | "" => ("", "")
  | String c r =>
      if hostname_char c then
        let '(h, t) := valid_hostname r in (String c h, t)
      else ("", s)
  end.

Definition last_char (s : string) : option ascii :=
  match String.length s with
  | O => None
  | S n => String.get n s
  end.

Definition auto_escape_char (c : ascii) : string :=
  if existsb (Nat.eqb (nat_of_ascii c))
       [9; 10; 13; 32; 34; 39; 60; 62; 92; 94; 96; 123; 124; 125]
  then encodeURIComponent (str1 c) else str1 c.

Fixpoint autoEscapeStr (s : string) : string :=
  match s with
  | "" => ""
  | String c r =>
      (if Ascii.eqb c (chr 39) then "%27" else auto_escape_char c)
        +:+ autoEscapeStr r
  end.

Definition slashedProtocol (p : string) : bool :=
  existsb (String.eqb p)
    ["http"; "http:"; "https"; "https:"; "ftp"; "ftp:"; "gopher"; "gopher:";
     "file"; "file:"; "ws"; "ws:"; "wss"; "wss:"].

Definition hostlessProtocol (p : string) : bool :=
  existsb (String.eqb p) ["javascript"; "javascript:"].

(** [url.parse(str, true)] of Node's legacy URL module, for a string that
    carries a scheme.  [None] is the [URIError] thrown when the user
    information is not a valid escape sequence.  Conversion of international
    host names to ASCII is not modelled: an ASCII host is unchanged by it. *)
Definition url_parse (str : string) : option UrlObject :=
  let rest := convert_backslashes (trim str) in
  match protocol_length rest with
  | None =>
      let rest := autoEscapeStr rest in
      let '(before, hash) := cut (chr 35) rest in
      let '(_, q) := cut (chr 63) before in
      Some (mkUrl None None None None
              (match q with Some t => querystring_parse t | None => [] end)
              (option_map (String (chr 35)) hash))
  | Some n =>
      let proto := take n rest in
      let lowerProto := toLowerCase proto in
      let rest := drop n rest in
      let slashes := is_prefix "//" rest in
      let rest := if slashes && negb (hostlessProtocol lowerProto)
                  then drop 2 rest else rest in
      let hasHost := negb (hostlessProtocol lowerProto)
                     && (slashes || negb (slashedProtocol proto)) in
      let parsed :=
        if hasHost then
          let '(atSign, nonHost) := host_scan rest 0 None None in
          let auth := match atSign with
                      | Some a => option_map Some (decodeURIComponent (take a rest))
                      | None => Some None
                      end in
          let start := match atSign with Some a => S a | None => 0 end in
          let host := match nonHost with
                      | Some e => drop start (take e rest)
                      | None => drop start rest
                      end in
          let rest := match nonHost with Some e => drop e rest | None => "" end in
          let '(hostname, port) := parseHost host in
          let ipv6 := is_prefix "[" hostname
                      && match last_char hostname with
                         | Some c => Ascii.eqb c (chr 93)
                         | None => false
                         end in
          let '(hostname, rest) :=
            if ipv6 then (hostname, rest)
            else
              let '(h, t) := valid_hostname hostname in
              if String.eqb t "" then (hostname, rest)
              else (h, "/" +:+ t +:+ rest) in
          let hostname := if (255 <? String.length hostname)%nat then ""
                          else toLowerCase hostname in
          let hostname := if ipv6
                          then take (String.length hostname - 2) (drop 1 hostname)
                          else hostname in
          let rest := if ipv6 && negb (is_prefix "/" rest)
                      then "/" +:+ rest else rest in
          option_map (fun a => (a, Some hostname, port, rest)) auth
        else Some (None, None, None, rest) in
      match parsed with
      | None => None
      | Some (auth, hostname, port, rest) =>
          let rest := if String.eqb lowerProto "javascript:" then rest
                      else autoEscapeStr rest in
          let '(before, hash) := cut (chr 35) rest in
          let '(_, q) := cut (chr 63) before in
          Some (mkUrl (Some lowerProto) auth hostname port
                  (match q with Some t => querystring_parse t | None => [] end)
                  (option_map (String (chr 35)) hash))
      end
  end.

(** ** Effects: console output, file writes and exceptions *)

Inductive Event : Type :=
| ConsoleLog (msg : string)
| Mkdirp (dir : string)
| WriteJSON (path : string) (content : JsVal).

Inductive Outcome (A : Type) : Type :=
| Returned (a : A)
| Thrown (err : string).

Arguments Returned {A} a.
Arguments Thrown {A} err.

(** A computation: the events it performed, in order, and how it ended. *)
Definition M (A : Type) : Type := (list Event * Outcome A)%type.

Definition ret {A} (a : A) : M A := ([], Returned a).
Definition throw {A} (err : string) : M A := ([], Thrown err).
Definition tell (e : Event) : M unit := ([e], Returned tt).

Definition bind {A B} (m : M A) (k : A -> M B) : M B :=
  match m with
  | (es, Returned a) => let '(es', r) := k a in (es ++ es', r)
  | (es, Thrown err) => (es, Thrown err)
  end.

Notation "x <- m ;; k" := (bind m (fun x => k))
  (at level 61, m at next level, right associativity).
Notation "m ;;; k" := (bind m (fun _ => k))
  (at level 61, right associativity).

(** [list.map(f)] for an effectful [f]: left to right, stopping at a throw. *)
Fixpoint mapM {A B} (f : A -> M B) (l : list A) : M (list B) :=
  match l with
  | [] => ret []
  | x :: l' => y <- f x ;; ys <- mapM f l' ;; ret (y :: ys)
  end.

Definition events {A} (m : M A) : list Event := fst m.
Definition outcome {A} (m : M A) : Outcome A := snd m.

(** [console.log(); console.log(chalk.yellow(msg))]; the colour codes are
    left out of the message. *)
Definition warn (msg : string) : M unit :=
  tell (ConsoleLog "") ;;; tell (ConsoleLog msg).

(** [l.filter(item => !!item)] and [l.filter(item => item !== null)] on a
    list of strings and [null]s. *)
Definition keep_truthy (l : list (option string)) : list string :=
  flat_map (fun x => match x with
                     | Some t => if String.eqb t "" then [] else [t]
                     | None => []
                     end) l.

Definition keep_non_null {A} (l : list (option A)) : list A :=
  flat_map (fun x => match x with Some t => [t] | None => [] end) l.

(** ** The node model *)

Inductive NodeTypeEnum : Type :=
| HTTPS | Shadowsocks | Shadowsocksr | Snell | Vmess.

(** A node: the discriminant [type] and the other properties of the object. *)
Record NodeConfig : Type := mkNode {
  type : NodeTypeEnum;
  props : Obj
}.

(** [nodeConfig[k]] *)
Definition field (n : NodeConfig) (k : string) : JsVal := get (props n) k.

(** [nodeConfig.enable === false] *)
Definition disabled (n : NodeConfig) : bool := is_bool (field n "enable") false.

(** ** Filters *)

(** The value passed as a filter: a function (a predicate over a node), an
    object whose [filter] property is a function over a node sequence, or any
    other value ([undefined] when the argument is left out, [null], a
    string, ...). *)
Inductive Filter : Type :=
| FFunction (p : NodeConfig -> bool)
| FSorted (f : list NodeConfig -> list NodeConfig)
| FValue (v : JsVal).

(** [!!filter] *)
Definition filter_truthy (f : Filter) : bool :=
  match f with
  | FFunction _ | FSorted _ => true
  | FValue v => truthy v
  end.

(** [`${filter}`]; a function prints as its source text, which is not
    modelled. *)
Definition filter_toString (f : Filter) : string :=
  match f with
  | FFunction _ => "[Function]"
  | FSorted _ => "[object Object]"
  | FValue v => toString v
  end.

(** Modelled from the spec: [validateFilter] of [lib/utils/filter.ts], which
    is not part of the sources.  The specification calls a filter invalid when
    it is "neither a function nor an object exposing [filter]". *)
Definition validateFilter_spec (f : Filter) : bool :=
  match f with
  | FFunction _ | FSorted _ => true
  | FValue _ => false
  end.

(** ** Config lines *)

(** An element of the array a text serializer joins into a line: a value
    placed as it is, or a template [`key=${value}`]. *)
Inductive Seg : Type :=
| Pos (v : JsVal)
| Attr (key : string) (v : JsVal).

Definition lit (s : string) : Seg := Pos (JStr s).

Definition render_seg (g : Seg) : JsVal :=
  match g with
  | Pos v => v
  | Attr k v => JStr (k +:+ "=" +:+ toString v)
  end.

(** [segs.join(sep)] *)
Definition join_segs (sep : string) (segs : list Seg) : string :=
  join_vals sep (map render_seg segs).

(** The flag [key] is emitted among [segs]. *)
Definition emits (segs : list Seg) (key : string) : bool :=
  existsb (fun g => match g with
                    | Attr k _ => String.eqb k key
                    | Pos _ => false
                    end) segs.

(** The value the flag [key] carries among [segs]. *)
Fixpoint emitted (segs : list Seg) (key : string) : option JsVal :=
  match segs with
  | [] => None
  | Attr k v :: segs' => if String.eqb k key then Some v else emitted segs' key
  | Pos _ :: segs' => emitted segs' key
  end.

(** [...(typeof v === 'boolean' ? [`key=${v}`] : [])] *)
Definition boolean_attr (key : string) (v : JsVal) : list Seg :=
  if is_boolean v then [Attr key v] else [].

(** [...(v ? [`key=${v}`] : [])] *)
Definition truthy_attr (key : string) (v : JsVal) : list Seg :=
  if truthy v then [Attr key v] else [].

(** [pickAndFormatStringList(obj, keyList)] *)
Definition pickAndFormatStringList (obj : Obj) (keyList : list string)
  : list Seg :=
  flat_map (fun key => if has obj key then [Attr key (get obj key)] else [])
    keyList.

(** [decodeStringList(stringList)] *)
Definition decodeStringList (stringList : list string) : Obj :=
  fold_left
    (fun result item =>
       let pair := split (chr 61) item in
       set result (nth 0 pair "")
         (js_or (match nth_error pair 1 with
                 | Some t => JStr t
                 | None => JUndefined
                 end) (JBool true)))
    stringList [].

(** [...(cond ? { ... } : null)] spread into an object literal. *)
Definition spread_if (cond : bool) (o p : Obj) : Obj :=
  if cond then spread o p else o.

(** ** A JSON reader and a number conversion for running the decoders

    The decoders below are stated for any behaviour of [JSON.parse] and
    [Number].  To run them on concrete payloads, [JSON_read] reads the JSON
    texts whose numbers are integers and whose strings use no [\u] escape
    above 127, and [Number_int] converts the values whose conversion is
    decided by integer text. *)

Definition json_ws (c : ascii) : bool :=
  existsb (Nat.eqb (nat_of_ascii c)) [9; 10; 13; 32].

Fixpoint skip_ws (s : string) : string :=
  match s with
  | "" => ""
  | String c r => if json_ws c then skip_ws r else s
  end.

(** The digits at the head of [s], as a number, and the rest. *)
Fixpoint read_digits (acc : Z) (s : string) : Z * string :=
  match s with
  | "" => (acc, "")
  | String c r =>
      let n := nat_of_ascii c in
      if ((48 <=? n) && (n <=? 57))%nat
      then read_digits (acc * 10 + Z.of_nat (n - 48))%Z r
      else (acc, s)
  end.

Definition is_digit (c : ascii) : bool :=
  let n := nat_of_ascii c in ((48 <=? n) && (n <=? 57))%nat.

(** The text of a JSON string after its opening quote, and the rest. *)
Fixpoint read_string (s : string) : option (string * string) :=
  match s with
  | "" => None
  | String c r =>
      let n := nat_of_ascii c in
      if (n =? 34)%nat then Some ("", r)
      else if (n <? 32)%nat then None
      else if (n =? 92)%nat then
        match r with
        | String e r' =>
            let m := nat_of_ascii e in
            let simple (d : ascii) :=
              option_map (fun p => (String d (fst p), snd p)) (read_string r') in
            if (m =? 34)%nat then simple DQUOTE
            else if (m =? 92)%nat then simple (chr 92)
            else if (m =? 47)%nat then simple (chr 47)
            else if (m =? 98)%nat then simple (chr 8)
            else if (m =? 102)%nat then simple (chr 12)
            else if (m =? 110)%nat then simple LF
            else if (m =? 114)%nat then simple CR
            else if (m =? 116)%nat then simple (chr 9)
            else if (m =? 117)%nat then
              match r' with
              | String a (String b (String c1 (String d r''))) =>
                  match hex_val a, hex_val b, hex_val c1, hex_val d with
                  | Some 0, Some 0, Some x, Some y =>
                      if (x <? 8)%nat then
                        option_map
                          (fun p => (String (chr (16 * x + y)) (fst p), snd p))
                          (read_string r'')
                      else None
                  | _, _, _, _ => None
                  end
              | _ => None
              end
            else None
        | "" => None
        end
      else option_map (fun p => (String c (fst p), snd p)) (read_string r)
  end.

Fixpoint read_value (fuel : nat) (s : string) : option (JsVal * string) :=
  match fuel with
  | O => None
  | S fuel' =>
      match skip_ws s with
      | "" => None
      | String c r =>
          let n := nat_of_ascii c in
          if (n =? 123)%nat then
            match skip_ws r with
            | String d r' =>
                if Ascii.eqb d (chr 125) then Some (JObj [], r')
                else read_members fuel' r []
            | "" => None
            end
          else if (n =? 91)%nat then
            match skip_ws r with
            | String d r' =>
                if Ascii.eqb d (chr 93) then Some (JArr [], r')
                else read_elements fuel' r []
            | "" => None
            end
          else if (n =? 34)%nat then
            option_map (fun p => (JStr (fst p), snd p)) (read_string r)
          else if is_prefix "true" (String c r) then
            Some (JBool true, drop 4 (String c r))
          else if is_prefix "false" (String c r) then
            Some (JBool false, drop 5 (String c r))
          else if is_prefix "null" (String c r) then
            Some (JNull, drop 4 (String c r))
          else
            let '(neg, ds) := if (n =? 45)%nat then (true, r)
                              else (false, String c r) in
            match ds with
            | String d _ =>
                if is_digit d then
                  let '(z, rest) := read_digits 0 ds in
                  let plain :=
                    match rest with
                    | String e _ =>
                        negb (existsb (Nat.eqb (nat_of_ascii e)) [46; 69; 101])
                    | "" => true
                    end in
                  let no_leading_zero :=
                    negb (Ascii.eqb d (chr 48))
                    || (String.length ds - String.length rest =? 1)%nat in
                  if plain && no_leading_zero
                  then Some (JNum (if neg then - z else z)%Z, rest)
                  else None
                else None
            | "" => None
            end
      end
  end

with read_members (fuel : nat) (s : string) (acc : Obj)
  : option (JsVal * string) :=
  match fuel with
  | O => None
  | S fuel' =>
      match skip_ws s with
      | String q r =>
          if Ascii.eqb q DQUOTE then
            match read_string r with
            | Some (k, r1) =>
                match skip_ws r1 with
                | String colon r2 =>
                    if Ascii.eqb colon (chr 58) then
                      match read_value fuel' r2 with
                      | Some (v, r3) =>
                          match skip_ws r3 with
                          | String d r4 =>
                              if Ascii.eqb d (chr 44)
                              then read_members fuel' r4 (set acc k v)
                              else if Ascii.eqb d (chr 125)
                              then Some (JObj (set acc k v), r4)
                              else None
                          | "" => None
                          end
                      | None => None
                      end
                    else None
                | "" => None
                end
            | None => None
            end
          else None
      | "" => None
      end
  end

with read_elements (fuel : nat) (s : string) (acc : list JsVal)
  : option (JsVal * string) :=
  match fuel with
  | O => None
  | S fuel' =>
      match read_value fuel' s with
      | Some (v, r) =>
          match skip_ws r with
          | String d r' =>
              if Ascii.eqb d (chr 44) then read_elements fuel' r' (acc ++ [v])
              else if Ascii.eqb d (chr 93) then Some (JArr (acc ++ [v]), r')
              else None
          | "" => None
          end
      | None => None
      end
  end.

(** The value of a JSON text; [None] when the text is not JSON, or is outside
    the fragment read here. *)
Definition JSON_read (s : string) : option JsVal :=
  match read_value (S (String.length s)) s with
  | Some (v, r) => if String.eqb (skip_ws r) "" then Some v else None
  | None => None
  end.

(** [Number(v)] on integers, booleans, [null], [undefined] and decimal
    integer text; other text reads as [NaN] here. *)
Definition Number_int (v : JsVal) : JsVal :=
  match v with
  | JNum z => JNum z
  | JBool b => JNum (if b then 1 else 0)
  | JNull => JNum 0
  | JStr t =>
      match trim t with
      | "" => JNum 0
      | String c r =>
          let '(neg, ds) :=
            if Ascii.eqb c (chr 45) then (true, r)
            else if Ascii.eqb c (chr 43) then (false, r)
            else (false, String c r) in
          if negb (String.eqb ds "") && all_digits ds
          then JNum (if neg then - fst (read_digits 0 ds) else fst (read_digits 0 ds))%Z
          else JNaN
      end
  | _ => JNaN
  end.

(** ** The serializers, decoders and the group builder of [lib/utils/index.ts] *)

Section Utils.

(** Declared outside the sources at hand: the values of the members of
    [NodeTypeEnum] ([lib/types.ts]), the constants of [lib/utils/constant.ts],
    the VMess URI encoder of [lib/utils/v2ray.ts]; and what Node provides:
    [JSON.parse] ([None] when it throws), [Number], [path.join], the home
    directory, whether it is writable, and [process.env.NODE_ENV]. *)
Variable NodeTypeEnum_value : NodeTypeEnum -> string.
Variable OBFS_UA : string.
Variable PROXY_TEST_URL : string.
Variable PROXY_TEST_INTERVAL : Z.
Variable formatVmessUri : NodeConfig -> string.
Variable JSON_parse : string -> option JsVal.
Variable js_Number : JsVal -> JsVal.
Variable path_join : string -> string -> string.
Variable homedir : string.
Variable home_writable : bool.
Variable NODE_ENV : JsVal.

(** [validateFilter] of [lib/utils/filter.ts], which is not part of the
    sources at hand either: the properties below hold for any behaviour of
    it, or name what they need of it. *)
Variable validateFilter : Filter -> bool.

(** [applyFilter(nodeList, filter)] *)
Definition applyFilter (nodeList : list NodeConfig) (filter : Filter)
  : M (list NodeConfig) :=
  if filter_truthy filter && negb (validateFilter filter) then
    throw ("使用了无效的过滤器 " +:+ filter_toString filter)
  else
    let nodes :=
      List.filter
        (fun item =>
           let result := negb (disabled item) in
           match filter with
           | FFunction p => p item && result
           | _ => result
           end) nodeList in
    let nodes := match filter with
                 | FSorted f => f nodes
                 | _ => nodes
                 end in
    ret nodes.

(** [`${nodeConfig.type}`] *)
Definition type_string (n : NodeConfig) : string := NodeTypeEnum_value (type n).

(** [[config.nodeName, segs.join(', ')].join(' = ')] *)
Definition surge_line (n : NodeConfig) (segs : list Seg) : string :=
  join_vals " = " [field n "nodeName"; JStr (join_segs ", " segs)].

(** [config.hostnameIp.map(item => `addresses = ${item}`)], when
    [config.hostnameIp] is set. *)
Definition hostnameIp_segs (n : NodeConfig) : M (list Seg) :=
  let ips := field n "hostnameIp" in
  if truthy ips then
    match ips with
    | JArr l => ret (map (fun item => lit ("addresses = " +:+ toString item)) l)
    | _ => throw "TypeError: config.hostnameIp.map is not a function"
    end
  else ret [].

(** [ensureConfigFolder()] *)
Definition ensureConfigFolder : M string :=
  let baseDir := if home_writable then homedir else "/tmp" in
  let configDir := path_join baseDir ".config/surgio" in
  tell (Mkdirp configDir) ;;; ret configDir.

(** [formatV2rayConfig(localPort, nodeConfig)] *)
Definition formatV2rayConfig (localPort : JsVal) (n : NodeConfig) : JsVal :=
  let streamSettings : Obj := [("security", JStr "none")] in
  let streamSettings :=
    if truthy (field n "tls") then
      spread streamSettings
        [("security", JStr "tls");
         ("tlsSettings",
          JObj (spread_if (is_boolean (field n "tls13"))
                  (spread_if (is_boolean (field n "skipCertVerify"))
                     [("serverName", js_or (field n "host") (field n "hostname"))]
                     [("allowInsecure", field n "skipCertVerify")])
                  [("allowInsecureCiphers",
                    JBool (negb (truthy (field n "tls13"))))]))]
    else streamSettings in
  let streamSettings :=
    if is_str (field n "network") "ws" then
      spread streamSettings
        [("network", field n "network");
         ("wsSettings",
          JObj [("path", field n "path");
                ("headers", JObj [("Host", field n "host");
                                  ("User-Agent", JStr OBFS_UA)])])]
    else streamSettings in
  JObj
    [("log", JObj [("loglevel", JStr "warning")]);
     ("inbound",
      JObj [("port", localPort);
            ("listen", JStr "127.0.0.1");
            ("protocol", JStr "socks");
            ("settings",
             JObj (spread_if (is_boolean (field n "udp"))
                     [("auth", JStr "noauth")]
                     [("udp", field n "udp")]))]);
     ("outbound",
      JObj [("protocol", JStr "vmess");
            ("settings",
             JObj [("vnext",
                    JArr [JObj [("address", field n "hostname");
                                ("port", field n "port");
                                ("users",
                                 JArr [JObj [("id", field n "uuid");
                                             ("alterId", js_Number (field n "alterId"));
                                             ("security", field n "method");
                                             ("level", JNum 0)]])]])]);
            ("streamSettings", JObj streamSettings)])].

(** The [external] form shared by ShadowsocksR and V2Ray nodes. *)
Definition external_segs (n : NodeConfig) (args : list JsVal) : M (list Seg) :=
  ips <- hostnameIp_segs n ;;
  ret ([lit "external";
        lit ("exec = " +:+ JSON_stringify (field n "binPath"))]
         ++ map (fun arg => lit ("args = " +:+ JSON_stringify arg)) args
         ++ [lit ("local-port = " +:+ toString (field n "localPort"))]
         ++ ips
         ++ [lit ("addresses = " +:+ toString (field n "hostname"))]).

(** The elements of the line [getSurgeNodes] writes for one node; [None] when
    the node is left out. *)
Definition surgeSegs (n : NodeConfig) : M (option (list Seg)) :=
  match type n with
  | Shadowsocks =>
      if includes ["ws"; "wss"] (field n "obfs") then
        warn ("不支持为 Surge 生成 v2ray-plugin 的 Shadowsocks 节点，节点 "
                +:+ toString (field n "nodeName") +:+ " 会被省略") ;;;
        ret None
      else if is_str (getv (field n "surgeConfig") "shadowsocksFormat") "ss" then
        ret (Some ([lit "ss"; Pos (field n "hostname"); Pos (field n "port");
                    Attr "encrypt-method" (field n "method")]
                     ++ pickAndFormatStringList (props n)
                          ["password"; "udp-relay"; "obfs"; "obfs-host"; "tfo"]
                     ++ boolean_attr "mptcp" (field n "mptcp")))
      else
        ret (Some ([lit "custom"; Pos (field n "hostname"); Pos (field n "port");
                    Pos (field n "method"); Pos (field n "password");
                    lit "https://raw.githubusercontent.com/ConnersHua/SSEncrypt/master/SSEncrypt.module"]
                     ++ pickAndFormatStringList (props n)
                          ["udp-relay"; "obfs"; "obfs-host"; "tfo"]
                     ++ boolean_attr "mptcp" (field n "mptcp")))
  | HTTPS =>
      ret (Some ([lit "https"; Pos (field n "hostname"); Pos (field n "port");
                  Pos (field n "username"); Pos (field n "password")]
                   ++ boolean_attr "tls13" (field n "tls13")
                   ++ boolean_attr "skip-cert-verify" (field n "skipCertVerify")
                   ++ boolean_attr "tfo" (field n "tfo")
                   ++ boolean_attr "mptcp" (field n "mptcp")))
  | Snell =>
      ret (Some ([lit "snell"; Pos (field n "hostname"); Pos (field n "port")]
                   ++ pickAndFormatStringList (props n) ["psk"; "obfs"]
                   ++ boolean_attr "tfo" (field n "tfo")
                   ++ boolean_attr "mptcp" (field n "mptcp")))
  | Shadowsocksr =>
      if negb (truthy (field n "binPath")) then
        throw "You must specify a binary file path for Shadowsocksr."
      else
        let args :=
          [JStr "-s"; field n "hostname";
           JStr "-p"; JStr (toString (field n "port"));
           JStr "-m"; field n "method";
           JStr "-o"; field n "obfs";
           JStr "-O"; field n "protocol";
           JStr "-k"; field n "password";
           JStr "-l"; JStr (toString (field n "localPort"));
           JStr "-b"; JStr "127.0.0.1"]
            ++ (if truthy (field n "protoparam")
                then [JStr "-G"; field n "protoparam"] else [])
            ++ (if truthy (field n "obfsparam")
                then [JStr "-g"; field n "obfsparam"] else []) in
        segs <- external_segs n args ;;
        ret (Some segs)
  | Vmess =>
      if is_str (getv (field n "surgeConfig") "v2ray") "native" then
        let getHeader (host : JsVal) : string :=
          join "|" ["Host:" +:+ toString host;
                    "User-Agent:" +:+ JSON_stringify (JStr OBFS_UA)] in
        ret (Some ([lit "vmess"; Pos (field n "hostname"); Pos (field n "port");
                    Attr "username" (field n "uuid")]
                     ++ (if is_str (field n "network") "ws" then
                           [lit "ws=true";
                            Attr "ws-path" (field n "path");
                            Attr "ws-headers"
                              (JStr (getHeader (js_or (field n "host")
                                                  (field n "hostname"))))]
                         else [])
                     ++ (if truthy (field n "tls") then
                           [lit "tls=true"]
                             ++ boolean_attr "tls13" (field n "tls13")
                             ++ boolean_attr "skip-cert-verify"
                                  (field n "skipCertVerify")
                         else [])
                     ++ boolean_attr "udp-relay" (field n "udp-relay")
                     ++ boolean_attr "tfo" (field n "tfo")
                     ++ boolean_attr "mptcp" (field n "mptcp")))
      else if negb (truthy (field n "binPath")) then
        throw "You must specify a binary file path for V2Ray."
      else
        let jsonFileName :=
          "v2ray_" +:+ toString (field n "localPort") +:+ "_"
            +:+ toString (field n "hostname") +:+ "_"
            +:+ toString (field n "port") +:+ ".json" in
        configDir <- ensureConfigFolder ;;
        let jsonFilePath := path_join configDir jsonFileName in
        let jsonFile := formatV2rayConfig (field n "localPort") n in
        let args := [JStr "--config";
                     JStr (replace homedir "$HOME" jsonFilePath)] in
        segs <- external_segs n args ;;
        (if is_str NODE_ENV "test" then ret tt
         else tell (WriteJSON jsonFilePath jsonFile)) ;;;
        ret (Some segs)
  end.

(** [getSurgeNodes(list, filter)] *)
Definition getSurgeNodes (nodeList : list NodeConfig) (filter : Filter) : M string :=
  nodes <- applyFilter nodeList filter ;;
  result <- mapM (fun nodeConfig =>
                    segs <- surgeSegs nodeConfig ;;
                    ret (option_map (surge_line nodeConfig) segs)) nodes ;;
  ret (join NL (keep_non_null result)).

(** The object [getClashNodes] builds for one node; [None] when the node is
    left out. *)
Definition clashNode (n : NodeConfig) : M (option Obj) :=
  if disabled n then ret None
  else
    match type n with
    | Shadowsocks =>
        let o : Obj :=
          [("type", JStr "ss");
           ("cipher", field n "method");
           ("name", field n "nodeName");
           ("password", field n "password");
           ("port", field n "port");
           ("server", field n "hostname");
           ("udp", js_or (field n "udp-relay") (JBool false))] in
        let o :=
          spread_if (includes ["tls"; "http"] (field n "obfs")) o
            [("plugin", JStr "obfs");
             ("plugin-opts",
              JObj [("mode", field n "obfs");
                    ("host", field n "obfs-host")])] in
        let o :=
          spread_if (includes ["ws"; "wss"] (field n "obfs")) o
            [("plugin", JStr "v2ray-plugin");
             ("plugin-opts",
              JObj (spread
                      (spread_if
                         (is_boolean (field n "skipCertVerify")
                          && is_str (field n "obfs") "wss")
                         [("mode", JStr "websocket");
                          ("tls", JBool (is_str (field n "obfs") "wss"))]
                         [("skip-cert-verify", field n "skipCertVerify")])
                      [("host", field n "obfs-host");
                       ("path", js_or (field n "obfs-uri") (JStr "/"));
                       ("mux", JBool false)]))] in
        ret (Some o)
    | Vmess =>
        let o : Obj :=
          [("type", JStr "vmess");
           ("cipher", field n "method");
           ("name", field n "nodeName");
           ("server", field n "hostname");
           ("port", field n "port");
           ("uuid", field n "uuid");
           ("alterId", field n "alterId")] in
        let o := spread_if (is_boolean (field n "udp")) o
                   [("udp", field n "udp")] in
        let o := spread_if (negb (is_str (field n "network") "tcp")) o
                   [("network", field n "network")] in
        let o := spread o [("tls", field n "tls")] in
        let o := spread_if (is_boolean (field n "skipCertVerify")
                            && truthy (field n "tls")) o
                   [("skip-cert-verify", field n "skipCertVerify")] in
        let o := spread_if (is_str (field n "network") "ws") o
                   [("ws-path", field n "path");
                    ("ws-headers",
                     JObj (spread_if (truthy (field n "host")) []
                             [("Host", field n "host")]))] in
        ret (Some o)
    | Shadowsocksr =>
        let o : Obj :=
          [("type", JStr "ssr");
           ("name", field n "nodeName");
           ("server", field n "hostname")] in
        let o := spread_if (is_boolean (field n "udp-relay")) o
                   [("udp", field n "udp-relay")] in
        ret (Some (spread o
                     [("port", field n "port");
                      ("password", field n "password");
                      ("obfs", field n "obfs");
                      ("obfsparam", field n "obfsparam");
                      ("protocol", field n "protocol");
                      ("protocolparam", field n "protoparam");
                      ("cipher", field n "method")]))
    | Snell =>
        ret (Some [("type", JStr "snell");
                   ("name", field n "nodeName");
                   ("server", field n "hostname");
                   ("port", field n "port");
                   ("psk", field n "psk");
                   ("obfs-opts", JObj [("mode", field n "obfs")])])
    | HTTPS =>
        warn ("不支持为 Clash 生成 " +:+ type_string n +:+ " 的节点，节点 "
                +:+ toString (field n "nodeName") +:+ " 会被省略") ;;;
        ret None
    end.

(** [getClashNodes(list, filter)] *)
Definition getClashNodes (nodeList : list NodeConfig) (filter : Filter)
  : M (list Obj) :=
  nodes <- applyFilter nodeList filter ;;
  result <- mapM clashNode nodes ;;
  ret (keep_non_null result).

(** The line [getMellowNodes] writes for one node. *)
Definition mellowNode (n : NodeConfig) : M (option string) :=
  match type n with
  | Vmess =>
      let uri := formatVmessUri n in
      ret (Some (join_vals ", "
                   [field n "nodeName"; JStr "vmess1";
                    JStr (replace "vmess://" "vmess1://" (trim uri))]))
  | _ =>
      warn ("不支持为 Mellow 生成 " +:+ type_string n +:+ " 的节点，节点 "
              +:+ toString (field n "nodeName") +:+ " 会被省略") ;;;
      ret None
  end.

(** [getMellowNodes(list, filter)] *)
Definition getMellowNodes (nodeList : list NodeConfig) (filter : Filter) : M string :=
  nodes <- applyFilter nodeList filter ;;
  result <- mapM mellowNode nodes ;;
  ret (join NL (keep_truthy result)).

(** A group name argument with the default ['Surgio']: [None] when the
    argument is left out. *)
Definition groupName_default (groupName : option string) : string :=
  match groupName with
  | Some g => g
  | None => "Surgio"
  end.

(** The URI [getShadowsocksNodes] writes for one node. *)
Definition shadowsocksNode (groupName : string) (n : NodeConfig)
  : M (option string) :=
  if disabled n then ret None
  else
    match type n with
    | Shadowsocks =>
        let query : Obj :=
          spread_if (negb (String.eqb groupName ""))
            (spread_if (truthy (field n "obfs")) []
               [("plugin",
                 JStr (encodeURIComponent
                         ("obfs-local;obfs=" +:+ toString (field n "obfs")
                            +:+ ";obfs-host="
                            +:+ toString (field n "obfs-host"))))])
            [("group", JStr (encodeURIComponent groupName))] in
        ret (Some (join_vals ""
                     [JStr "ss://";
                      JStr (toUrlSafeBase64
                              (toString (field n "method") +:+ ":"
                                 +:+ toString (field n "password")));
                      JStr "@";
                      field n "hostname";
                      JStr ":";
                      field n "port";
                      JStr "/?";
                      JStr (queryString_stringify false query);
                      JStr "#";
                      JStr (encodeURIComponent (toString (field n "nodeName")))]))
    | _ =>
        warn ("在生成 Shadowsocks 节点时出现了 " +:+ type_string n
                +:+ " 节点，节点 " +:+ toString (field n "nodeName")
                +:+ " 会被省略") ;;;
        ret None
    end.

(** [getShadowsocksNodes(list, groupName)] *)
Definition getShadowsocksNodes (nodeList : list NodeConfig)
  (groupName : option string) : M string :=
  result <- mapM (shadowsocksNode (groupName_default groupName)) nodeList ;;
  ret (join NL (keep_truthy result)).

(** [toUrlSafeBase64(v)] on a field: [Buffer.from] rejects a value that is
    not text. *)
Definition toUrlSafeBase64_of (v : JsVal) : M string :=
  match v with
  | JStr t => ret (toUrlSafeBase64 t)
  | _ => throw "TypeError [ERR_INVALID_ARG_TYPE]: The first argument must be of type string"
  end.

(** The URI [getShadowsocksrNodes] writes for one node. *)
Definition shadowsocksrNode (groupName : string) (n : NodeConfig)
  : M (option string) :=
  if disabled n then ret None
  else
    match type n with
    | Shadowsocksr =>
        password <- toUrlSafeBase64_of (field n "password") ;;
        let baseUri :=
          join_vals ":"
            [field n "hostname"; field n "port"; field n "protocol";
             field n "method"; field n "obfs"; JStr password] in
        obfsparam <- toUrlSafeBase64_of (field n "obfsparam") ;;
        protoparam <- toUrlSafeBase64_of (field n "protoparam") ;;
        remarks <- toUrlSafeBase64_of (field n "nodeName") ;;
        let query : Obj :=
          [("obfsparam", JStr obfsparam);
           ("protoparam", JStr protoparam);
           ("remarks", JStr remarks);
           ("group", JStr (toUrlSafeBase64 groupName));
           ("udpport", JNum 0);
           ("uot", JNum 0)] in
        ret (Some ("ssr://"
                     +:+ toUrlSafeBase64
                           (join "" [baseUri; "/?";
                                     queryString_stringify true query])))
    | _ =>
        warn ("在生成 Shadowsocksr 节点时出现了 " +:+ type_string n
                +:+ " 节点，节点 " +:+ toString (field n "nodeName")
                +:+ " 会被省略") ;;;
        ret None
    end.

(** [getShadowsocksrNodes(list, groupName)] *)
Definition getShadowsocksrNodes (nodeList : list NodeConfig) (groupName : string)
  : M string :=
  result <- mapM (shadowsocksrNode groupName) nodeList ;;
  ret (join NL (keep_non_null result)).

(** The URI [getV2rayNNodes] writes for one node. *)
Definition v2rayNNode (n : NodeConfig) : M (option string) :=
  if disabled n then ret None
  else
    match type n with
    | Vmess =>
        let json :=
          JObj [("v", JStr "2");
                ("ps", field n "nodeName");
                ("add", field n "hostname");
                ("port", JStr (toString (field n "port")));
                ("id", field n "uuid");
                ("aid", field n "alterId");
                ("net", field n "network");
                ("type", JStr "none");
                ("host", field n "host");
                ("path", field n "path");
                ("tls", JStr (if truthy (field n "tls") then "tls" else ""))] in
        ret (Some ("vmess://" +:+ toBase64 (JSON_stringify json)))
    | _ =>
        warn ("在生成 V2Ray 节点时出现了 " +:+ type_string n
                +:+ " 节点，节点 " +:+ toString (field n "nodeName")
                +:+ " 会被省略") ;;;
        ret None
    end.

(** [getV2rayNNodes(list)] *)
Definition getV2rayNNodes (nodeList : list NodeConfig) : M string :=
  result <- mapM v2rayNNode nodeList ;;
  ret (join NL (keep_truthy result)).

(** [JSON.stringify(v)] as a value: [undefined] for [undefined]. *)
Definition JSON_stringify_val (v : JsVal) : JsVal :=
  match stringify_gap "" "" v with
  | Some t => JStr t
  | None => JUndefined
  end.

(** The line [getQuantumultNodes] writes for one node. *)
Definition quantumultNode (groupName : string) (n : NodeConfig)
  : M (option string) :=
  let getHeader (host : JsVal) : string :=
    join "[Rr][Nn]" ["Host:" +:+ toString host; "User-Agent:" +:+ OBFS_UA] in
  match type n with
  | Vmess =>
      let config :=
        join_vals ","
          (List.filter truthy
             [JStr "vmess"; field n "hostname"; field n "port";
              (if is_str (field n "method") "auto"
               then JStr "chacha20-ietf-poly1305" else field n "method");
              JSON_stringify_val (field n "uuid"); field n "alterId";
              JStr ("group=" +:+ groupName);
              JStr ("over-tls="
                      +:+ (if is_bool (field n "tls") true then "true" else "false"));
              JStr "certificate=1";
              JStr ("obfs=" +:+ toString (field n "network"));
              JStr ("obfs-path="
                      +:+ JSON_stringify (js_or (field n "path") (JStr "/")));
              JStr ("obfs-header="
                      +:+ JSON_stringify
                            (JStr (getHeader (js_or (field n "host")
                                                (field n "hostname")))))]) in
      ret (Some ("vmess://"
                   +:+ toBase64 (join_vals " = " [field n "nodeName"; JStr config])))
  | Shadowsocks =>
      uri <- getShadowsocksNodes [n] (Some groupName) ;; ret (Some uri)
  | Shadowsocksr =>
      uri <- getShadowsocksrNodes [n] groupName ;; ret (Some uri)
  | HTTPS =>
      let config :=
        join_vals " = "
          [field n "nodeName";
           JStr (join ", "
                   ["http";
                    "upstream-proxy-address=" +:+ toString (field n "hostname");
                    "upstream-proxy-port=" +:+ toString (field n "port");
                    "upstream-proxy-auth=true";
                    "upstream-proxy-username=" +:+ toString (field n "username");
                    "upstream-proxy-password=" +:+ toString (field n "password");
                    "over-tls=true";
                    "certificate=1"])] in
      ret (Some ("http://" +:+ toBase64 config))
  | Snell =>
      warn ("不支持为 Quantumult 生成 " +:+ type_string n +:+ " 的节点，节点 "
              +:+ toString (field n "nodeName") +:+ " 会被省略") ;;;
      ret None
  end.

(** [getQuantumultNodes(list, groupName, filter)] *)
Definition getQuantumultNodes (nodeList : list NodeConfig)
  (groupName : option string) (filter : Filter) : M string :=
  nodes <- applyFilter nodeList filter ;;
  result <- mapM (quantumultNode (groupName_default groupName)) nodes ;;
  ret (join NL (keep_truthy result)).

(** The elements of the line [getQuantumultXNodes] writes for one node, after
    its prefix ([vmess=], [shadowsocks=], [http=]). *)
Definition quantumultXSegs (n : NodeConfig) : M (option (string * list Seg)) :=
  let address :=
    lit (toString (field n "hostname") +:+ ":" +:+ toString (field n "port")) in
  match type n with
  | Vmess =>
      let config :=
        [address;
         (if is_str (field n "method") "auto"
          then lit "method=chacha20-ietf-poly1305"
          else Attr "method" (field n "method"));
         Attr "password" (field n "uuid");
         Attr "udp-relay" (js_or (field n "udp") (JBool true))]
          ++ truthy_attr "fast-open" (field n "tfo") in
      let config :=
        config ++
          (if is_str (field n "network") "ws" then
             [(if truthy (field n "tls") then lit "obfs=wss" else lit "obfs=ws");
              Attr "obfs-uri" (js_or (field n "path") (JStr "/"));
              Attr "obfs-host" (js_or (field n "host") (field n "hostname"))]
           else if is_str (field n "network") "tcp" then
             (if truthy (field n "tls") then [lit "obfs=over-tls"] else [])
           else []) in
      ret (Some ("vmess", config ++ [Attr "tag" (field n "nodeName")]))
  | Shadowsocks =>
      ret (Some ("shadowsocks",
                 [address]
                   ++ pickAndFormatStringList (props n) ["method"; "password"]
                   ++ (if includes ["http"; "tls"] (field n "obfs") then
                         [Attr "obfs" (field n "obfs");
                          Attr "obfs-host" (field n "obfs-host")]
                       else [])
                   ++ (if includes ["ws"; "wss"] (field n "obfs") then
                         [Attr "obfs" (field n "obfs");
                          Attr "obfs-host"
                            (js_or (field n "obfs-host") (field n "hostname"));
                          Attr "obfs-uri" (js_or (field n "obfs-uri") (JStr "/"))]
                       else [])
                   ++ truthy_attr "udp-relay" (field n "udp-relay")
                   ++ truthy_attr "fast-open" (field n "tfo")
                   ++ [Attr "tag" (field n "nodeName")]))
  | Shadowsocksr =>
      ret (Some ("shadowsocks",
                 [address]
                   ++ pickAndFormatStringList (props n) ["method"; "password"]
                   ++ [Attr "ssr-protocol" (field n "protocol");
                       Attr "ssr-protocol-param" (field n "protoparam");
                       Attr "obfs" (field n "obfs");
                       Attr "obfs-host" (field n "obfsparam")]
                   ++ truthy_attr "udp-relay" (field n "udp-relay")
                   ++ truthy_attr "fast-open" (field n "tfo")
                   ++ [Attr "tag" (field n "nodeName")]))
  | HTTPS =>
      ret (Some ("http",
                 [address]
                   ++ pickAndFormatStringList (props n) ["username"; "password"]
                   ++ [lit "over-tls=true"]
                   ++ truthy_attr "fast-open" (field n "tfo")
                   ++ [Attr "tag" (field n "nodeName")]))
  | Snell =>
      warn ("不支持为 QuantumultX 生成 " +:+ type_string n +:+ " 的节点，节点 "
              +:+ toString (field n "nodeName") +:+ " 会被省略") ;;;
      ret None
  end.

(** [`${prefix}=${config.join(', ')}`] *)
Definition quantumultX_line (r : string * list Seg) : string :=
  fst r +:+ "=" +:+ join_segs ", " (snd r).

(** [getQuantumultXNodes(list, filter)] *)
Definition getQuantumultXNodes (nodeList : list NodeConfig) (filter : Filter)
  : M string :=
  nodes <- applyFilter nodeList filter ;;
  result <- mapM (fun nodeConfig =>
                    r <- quantumultXSegs nodeConfig ;;
                    ret (option_map quantumultX_line r)) nodes ;;
  ret (join NL (keep_truthy result)).

(** The object [getShadowsocksNodesJSON] builds for one node. *)
Definition shadowsocksJSONNode (n : NodeConfig) : M (option JsVal) :=
  if disabled n then ret None
  else
    match type n with
    | Shadowsocks =>
        let useObfs :=
          truthy (field n "obfs") && truthy (field n "obfs-host") in
        remarks_base64 <- toUrlSafeBase64_of (field n "nodeName") ;;
        ret (Some (JObj
                     (spread_if useObfs
                        [("remarks", field n "nodeName");
                         ("server", field n "hostname");
                         ("server_port", field n "port");
                         ("method", field n "method");
                         ("remarks_base64", JStr remarks_base64);
                         ("password", field n "password");
                         ("tcp_over_udp", JBool false);
                         ("udp_over_tcp", JBool false);
                         ("enable", JBool true)]
                        [("plugin", JStr "obfs-local");
                         ("plugin-opts",
                          JStr ("obfs=" +:+ toString (field n "obfs")
                                  +:+ ";obfs-host="
                                  +:+ toString (field n "obfs-host")))])))
    | _ =>
        warn ("在生成 Shadowsocks 节点时出现了 " +:+ type_string n
                +:+ " 节点，节点 " +:+ toString (field n "nodeName")
                +:+ " 会被省略") ;;;
        ret None
    end.

(** [getShadowsocksNodesJSON(list)] *)
Definition getShadowsocksNodesJSON (nodeList : list NodeConfig) : M string :=
  nodes <- mapM shadowsocksJSONNode nodeList ;;
  ret (match stringify_gap "  " "" (JArr (keep_non_null nodes)) with
       | Some t => t
       | None => "undefined"
       end).

(** [getNodeNames(list, filter, separator)] *)
Definition getNodeNames (nodeList : list NodeConfig) (filter : Filter)
  (separator : string) : M string :=
  nodes <- applyFilter nodeList filter ;;
  ret (join_vals (if String.eqb separator "" then ", " else separator)
         (map (fun item => field item "nodeName") nodes)).

(** [getClashNodeNames(list, filter, existingProxies)] *)
Definition getClashNodeNames (nodeList : list NodeConfig) (filter : Filter)
  (existingProxies : option (list JsVal)) : M (list JsVal) :=
  let result := match existingProxies with
                | Some e => [] ++ e
                | None => []
                end in
  nodes <- applyFilter nodeList filter ;;
  ret (result ++ map (fun item => field item "nodeName") nodes).

(** The [options] argument of [generateClashProxyGroup]; [None] for a
    property that is left out. *)
Record GroupOptions : Type := mkGroupOptions {
  opt_filter : Filter;
  opt_existingProxies : option (list JsVal);
  opt_proxyTestUrl : JsVal;
  opt_proxyTestInterval : JsVal
}.

(** The default value of the [options] parameter. *)
Definition default_options : GroupOptions :=
  mkGroupOptions (FValue JUndefined) None
    (JStr PROXY_TEST_URL) (JNum PROXY_TEST_INTERVAL).

(** [generateClashProxyGroup(ruleName, ruleType, nodeNameList, options)];
    [options] is [None] when the argument is left out. *)
Definition generateClashProxyGroup (ruleName ruleType : string)
  (nodeNameList : list NodeConfig) (options : option GroupOptions) : M Obj :=
  let options := match options with
                 | Some o => o
                 | None => default_options
                 end in
  proxies <-
    match opt_existingProxies options with
    | Some existingProxies =>
        if filter_truthy (opt_filter options) then
          nodes <- applyFilter nodeNameList (opt_filter options) ;;
          ret (existingProxies ++ map (fun item => field item "nodeName") nodes)
        else ret existingProxies
    | None =>
        nodes <- applyFilter nodeNameList (opt_filter options) ;;
        ret (map (fun item => field item "nodeName") nodes)
    end ;;
  ret (spread_if (includes ["url-test"; "fallback"; "load-balance"] (JStr ruleType))
         [("type", JStr ruleType);
          ("name", JStr ruleName);
          ("proxies", JArr proxies)]
         [("url", opt_proxyTestUrl options);
          ("interval", opt_proxyTestInterval options)]).

(** An entry a [proxyGroupModifier] returns; [None] for a property the
    entry does not have. *)
Record GroupItem : Type := mkGroupItem {
  item_name : string;
  item_type : string;
  item_filter : option Filter;
  item_proxies : option (list JsVal)
}.

(** [normalizeClashProxyGroupConfig(nodeList, customFilters,
    proxyGroupModifier, options)], with the two properties of [options]. *)
Definition normalizeClashProxyGroupConfig (nodeList : list NodeConfig)
  (customFilters : list (string * Filter))
  (proxyGroupModifier :
     list NodeConfig -> list (string * Filter) -> list GroupItem)
  (proxyTestUrl proxyTestInterval : JsVal) : M (list Obj) :=
  let proxyGroup := proxyGroupModifier nodeList customFilters in
  mapM
    (fun item =>
       match item_filter item with
       | Some filter =>
           if negb (filter_truthy filter) || negb (validateFilter filter) then
             throw ("过滤器 " +:+ filter_toString filter
                      +:+ " 无效，请检查 proxyGroupModifier")
           else
             generateClashProxyGroup (item_name item) (item_type item) nodeList
               (Some (mkGroupOptions filter (item_proxies item)
                        proxyTestUrl proxyTestInterval))
       | None =>
           generateClashProxyGroup (item_name item) (item_type item) nodeList
             (Some (mkGroupOptions (FValue JUndefined) (item_proxies item)
                      proxyTestUrl proxyTestInterval))
       end) proxyGroup.

(** *** Subscription decoders

    The decoders take the response body as an argument: the text the cache
    or the network returned for [url]. *)

(** The node [getV2rayNSubscription] reads from one [vmess://] line; [None]
    when the node is left out. *)
Definition v2rayNLine (url : string) (item : string) : M (option NodeConfig) :=
  match JSON_parse (fromBase64 (replace "vmess://" "" item)) with
  | None => throw "SyntaxError: Unexpected token in JSON"
  | Some JNull => throw "TypeError: Cannot read property 'v' of null"
  | Some json =>
      if negb (truthy (getv json "v"))
         || negb (is_num (js_Number (getv json "v")) 2) then
        throw ("该订阅 " +:+ url
                 +:+ " 可能不是一个有效的 V2rayN 订阅。请参考 http://bit.ly/2N4lZ8X 进行排查")
      else if includes ["kcp"; "http"] (getv json "net") then
        warn ("不支持读取 network 类型为 " +:+ toString (getv json "net")
                +:+ " 的 Vmess 节点，节点 " +:+ toString (getv json "ps")
                +:+ " 会被省略") ;;;
        ret None
      else
        ret (Some (mkNode Vmess
                     [("nodeName", getv json "ps");
                      ("hostname", getv json "add");
                      ("port", getv json "port");
                      ("method", JStr "auto");
                      ("uuid", getv json "id");
                      ("alterId", js_or (getv json "aid") (JStr "0"));
                      ("network", getv json "net");
                      ("tls", JBool (is_str (getv json "tls") "tls"));
                      ("host", js_or (getv json "host") (JStr ""));
                      ("path", js_or (getv json "path") (JStr "/"))]))
  end.

(** The [vmess://] lines of a response body. *)
Definition v2rayN_configList (response : string) : list string :=
  List.filter (fun item => startsWith item "vmess://")
    (List.filter (fun item => negb (String.eqb item ""))
       (split LF (fromBase64 response))).

(** [getV2rayNSubscription(url)], from the response body on. *)
Definition getV2rayNSubscription (url : string) (response : string)
  : M (list NodeConfig) :=
  if String.eqb url "" then throw "AssertionError: 未指定订阅地址 url"
  else
    result <- mapM (v2rayNLine url) (v2rayN_configList response) ;;
    ret (keep_non_null result).

(** The node [getShadowsocksSubscription] reads from one [ss://] line. *)
Definition shadowsocksLine (udpRelay : JsVal) (item : string) : M NodeConfig :=
  match url_parse item with
  | None => throw "URIError: URI malformed"
  | Some scheme =>
      match url_auth scheme with
      | None => throw "TypeError: Cannot read property 'length' of null"
      | Some auth =>
          let userInfo := split (chr 58) (fromUrlSafeBase64 auth) in
          let pluginInfo : Obj :=
            match get (url_query scheme) "plugin" with
            | JStr plugin => decodeStringList (split (chr 59) plugin)
            | _ => []
            end in
          match url_hash scheme with
          | None => throw "TypeError: Cannot read property 'replace' of null"
          | Some hash =>
              match decodeURIComponent (replace "#" "" hash) with
              | None => throw "URIError: URI malformed"
              | Some nodeName =>
                  let o : Obj :=
                    [("nodeName", JStr nodeName);
                     ("hostname", match url_hostname scheme with
                                  | Some h => JStr h
                                  | None => JNull
                                  end);
                     ("port", match url_port scheme with
                              | Some p => JStr p
                              | None => JNull
                              end);
                     ("method", JStr (nth 0 userInfo ""));
                     ("password", match nth_error userInfo 1 with
                                  | Some p => JStr p
                                  | None => JUndefined
                                  end)] in
                  let o := spread_if (is_boolean udpRelay) o
                             [("udp-relay", udpRelay)] in
                  let o := spread_if (truthy (get pluginInfo "obfs-local")) o
                             [("obfs", get pluginInfo "obfs");
                              ("obfs-host", get pluginInfo "obfs-host")] in
                  let o := spread_if (truthy (get pluginInfo "v2ray-plugin")) o
                             [("obfs", JStr (if truthy (get pluginInfo "tls")
                                             then "wss" else "ws"));
                              ("obfs-host", get pluginInfo "host")] in
                  ret (mkNode Shadowsocks o)
              end
          end
      end
  end.

(** The [ss://] lines of a response body. *)
Definition shadowsocks_configList (response : string) : list string :=
  List.filter (fun item => negb (String.eqb item "") && startsWith item "ss://")
    (split LF (fromBase64 response)).

(** [getShadowsocksSubscription(url, udpRelay)], from the response body on. *)
Definition getShadowsocksSubscription (url : string) (udpRelay : JsVal)
  (response : string) : M (list NodeConfig) :=
  if String.eqb url "" then throw "AssertionError: 未指定订阅地址 url"
  else mapM (shadowsocksLine udpRelay) (shadowsocks_configList response).

(** ** The Clash rule filter of [lib/template.ts] *)

(** The rule prefixes Clash does not support ([lib/utils/constant.ts]). *)
Variable CLASH_UNSUPPORTED_RULE : list string.

(** [(!!item && item.trim() !== '') ? item.toUpperCase() : ''] *)
Definition testString (item : string) : string :=
  if negb (String.eqb item "") && negb (String.eqb (trim item) "")
  then toUpperCase item else "".

(** The lines [clashFilter] keeps. *)
Definition clashKeep (item : string) : bool :=
  forallb (fun s => negb (startsWith (testString item) s)) CLASH_UNSUPPORTED_RULE.

(** A line terminator occurs in [s]: a line feed, a carriage return, or the
    UTF-8 encoding of U+2028 or U+2029. *)
Fixpoint has_line_terminator (s : string) : bool :=
  match s with
  | "" => false
  | String c r =>
      is_line_terminator c
      || (Ascii.eqb c (chr 226)
          && (is_prefix (String (chr 128) (str1 (chr 168))) r
              || is_prefix (String (chr 128) (str1 (chr 169))) r))
      || has_line_terminator r
  end.

(** [s.replace(/\/\/.*$/, '')]: the leftmost [//] that only characters other
    than line terminators follow, up to the end of [s], is cut with what
    follows it. *)
Fixpoint strip_comment (s : string) : string :=
  match s with
  | "" => ""
  | String c r =>
      if is_prefix "//" s && negb (has_line_terminator (drop 2 s)) then ""
      else String c (strip_comment r)
  end.

(** What [clashFilter] writes for a line it keeps. *)
Definition clashLine (item : string) : string :=
  if startsWith item "#" || String.eqb (trim item) "" then item
  else trim (strip_comment (replace ",no-resolve" "" ("- " +:+ item))).

(** [clashFilter(str)] *)
Definition clashFilter (str : string) : string :=
  join NL (map clashLine (List.filter clashKeep (split LF str))).

(** ** The other filters of the template engine ([lib/template.ts]) *)

(** The rule prefixes Mellow does not support and the rule prefixes
    Quantumult X supports ([lib/utils/constant.ts]). *)
Variable MELLOW_UNSUPPORTED_RULE : list string.
Variable QUANTUMULT_X_SUPPORTED_RULE : list string.

(** *** The [URL] class ([new URL], [pathname], [searchParams], [toString]) *)

(** What a [URL] object holds (URL standard, 4.1, and [lib/internal/url.js]
    of Node): the scheme without its colon, the host and the port as they
    are printed ([None] for [null]), the segments of the path (the whole
    path as one segment when the URL cannot be a base, as [mailto:] URLs),
    the query and the fragment without [?] and [#], and the pairs of
    [searchParams], which the constructor reads from the query. *)
Record URLObject : Type := mkURL_object {
  URL_scheme : string;
  URL_username : string;
  URL_password : string;
  URL_host : option string;
  URL_port : option string;
  URL_path : list string;
  URL_cannot_be_a_base : bool;
  URL_query : option string;
  URL_fragment : option string;
  URL_searchParams : list (string * string)
}.

(** [new URL(input)]: the URL parser, which Node provides; [None] when the
    parser fails and the constructor throws. *)
Variable new_URL : string -> option URLObject.

(** [url.pathname = value] for a value that the path parser reads as the
    segments [segments]; a URL that cannot be a base keeps its path. *)
Definition URL_set_pathname (u : URLObject) (segments : list string)
  : URLObject :=
  if URL_cannot_be_a_base u then u
  else
    mkURL_object (URL_scheme u) (URL_username u) (URL_password u) (URL_host u)
      (URL_port u) segments (URL_cannot_be_a_base u) (URL_query u)
      (URL_fragment u) (URL_searchParams u).

(** The bytes the serializer of [application/x-www-form-urlencoded] leaves
    as they are: letters, digits, [*], [-], [.] and [_]. *)
Definition urlencoded_kept (c : ascii) : bool :=
  let n := nat_of_ascii c in
  (((65 <=? n) && (n <=? 90)) || ((97 <=? n) && (n <=? 122))
   || ((48 <=? n) && (n <=? 57))
   || (n =? 42) || (n =? 45) || (n =? 46) || (n =? 95))%nat.

(** A name or a value as the serializer writes it: a space as [+], any
    other byte that is not kept as [%XX]. *)
Fixpoint urlencoded_text (s : string) : string :=
  match s with
  | "" => ""
  | String c s' =>
      if urlencoded_kept c then String c (urlencoded_text s')
      else if Ascii.eqb c " " then String "+" (urlencoded_text s')
      else
        let n := nat_of_ascii c in
        String (chr 37)
          (String (upper_hex_digit (n / 16))
             (String (upper_hex_digit (n mod 16)) (urlencoded_text s')))
  end.

(** [searchParams.toString()] *)
Definition urlencoded_serialize (l : list (string * string)) : string :=
  join "&"
    (map (fun p => urlencoded_text (fst p) +:+ "=" +:+ urlencoded_text (snd p))
       l).

(** The pairs after [searchParams.set(name, value)]: the first pair named
    [name] takes the value and the other pairs named [name] are removed; a
    new pair is appended when there is none. *)
Fixpoint URLSearchParams_set (name value : string)
  (l : list (string * string)) : list (string * string) :=
  match l with
  | [] => [(name, value)]
  | (k, v) :: r =>
      if String.eqb k name then
        (k, value)
          :: List.filter (fun p => negb (String.eqb (fst p) name)) r
      else (k, v) :: URLSearchParams_set name value r
  end.

(** [url.searchParams.set(name, value)]: the query of the URL becomes the
    pairs as they are printed, [null] when that is the empty text. *)
Definition URL_searchParams_set (u : URLObject) (name value : string)
  : URLObject :=
  let l := URLSearchParams_set name value (URL_searchParams u) in
  let q := urlencoded_serialize l in
  mkURL_object (URL_scheme u) (URL_username u) (URL_password u) (URL_host u)
    (URL_port u) (URL_path u) (URL_cannot_be_a_base u)
    (if String.eqb q "" then None else Some q) (URL_fragment u) l.

(** What [url.toString()] prints before the path: the scheme and, for a URL
    with a host, [//], the credentials, the host and the port. *)
Definition URL_before_path (u : URLObject) : string :=
  URL_scheme u +:+ ":"
    +:+ match URL_host u with
        | Some host =>
            "//"
              +:+ (if negb (String.eqb (URL_username u) "")
                      || negb (String.eqb (URL_password u) "")
                   then URL_username u
                          +:+ (if String.eqb (URL_password u) "" then ""
                               else ":" +:+ URL_password u)
                          +:+ "@"
                   else "")
              +:+ host
              +:+ match URL_port u with
                  | Some port => ":" +:+ port
                  | None => ""
                  end
        | None => if String.eqb (URL_scheme u) "file" then "//" else ""
        end.

(** [url.toString()], the serializer of the URL standard. *)
Definition URL_toString (u : URLObject) : string :=
  URL_before_path u
    +:+ (if URL_cannot_be_a_base u then nth 0 (URL_path u) ""
         else String.concat "" (map (fun seg => "/" +:+ seg) (URL_path u)))
    +:+ match URL_query u with
        | Some q => "?" +:+ q
        | None => ""
        end
    +:+ match URL_fragment u with
        | Some f => "#" +:+ f
        | None => ""
        end.

(** What the filter [mellow] writes for a line it keeps; the test for a
    blank line reads the whole text [str]. *)
Definition mellowLine (str item : string) : string :=
  if startsWith item "#" || String.eqb (trim str) "" then item
  else trim (strip_comment (replace ",no-resolve" "" item)).

(** The filter [mellow]. *)
Definition mellowFilter (str : string) : string :=
  join NL
    (map (mellowLine str)
       (List.filter
          (fun item =>
             forallb (fun s => negb (startsWith (testString item) s))
               MELLOW_UNSUPPORTED_RULE)
          (split LF str))).

(** [convertSurgeScriptRuleToQuantumultXRewriteRule(str, publicUrl)] *)
Definition convertSurgeScriptRuleToQuantumultXRewriteRule
  (str publicUrl : string) : M string :=
  let parts := split " " str in
  if String.eqb (nth 0 parts "") "http-response" then
    let params := decodeStringList (split "," (join "" (skipn 2 parts))) in
    let scriptPath := get params "script-path" in
    match new_URL publicUrl with
    | None => throw "TypeError [ERR_INVALID_URL]: Invalid URL"
    | Some apiEndpoint =>
        let apiEndpoint := URL_set_pathname apiEndpoint ["qx-script"] in
        let apiEndpoint :=
          URL_searchParams_set apiEndpoint "url" (toString scriptPath) in
        ret (join_vals " "
               [match nth_error parts 1 with
                | Some t => JStr t
                | None => JUndefined
                end;
                JStr "url"; JStr "script-response-body";
                JStr (URL_toString apiEndpoint)])
    end
  else ret "".

(** The lines the filter [quantumultx] keeps: its callback returns the line
    itself for a comment and for a blank line, so that an empty line is
    dropped. *)
Definition quantumultxKeep (item : string) : bool :=
  let t := testString item in
  if startsWith t "#" || String.eqb t "" then negb (String.eqb item "")
  else existsb (fun s => startsWith t s) QUANTUMULT_X_SUPPORTED_RULE.

(** The filter [quantumultx]. *)
Definition quantumultxFilter (publicUrl str : string) : M string :=
  lines <- mapM (fun item =>
                   if startsWith item "http-response"
                   then convertSurgeScriptRuleToQuantumultXRewriteRule item publicUrl
                   else ret item)
             (List.filter quantumultxKeep (split LF str)) ;;
  ret (join NL lines).

(** [(!!item && item.trim() !== '') ? item : ''] *)
Definition testString_plain (item : string) : string :=
  if negb (String.eqb item "") && negb (String.eqb (trim item) "")
  then item else "".

(** The filter [hostname]: the first [hostname] line, [None] for the
    [undefined] it gives when there is none. *)
Definition hostnameFilter (str : string) : option string :=
  hd_error
    (List.filter (fun item => startsWith (testString_plain item) "hostname")
       (split LF str)).

(** [convertUrlRewriteSnippet(str)] *)
Definition convertUrlRewriteSnippet (str : string) : list (list string) :=
  map (fun item =>
         List.filter
           (fun part => negb (String.eqb part "")
                        && negb (String.eqb (trim part) ""))
           (split " " (trim item)))
    (List.filter
       (fun item => negb (startsWith (testString_plain item) "hostname"))
       (split LF str)).

(** The filter [surgeUrlRewrite]. *)
Definition surgeUrlRewrite (str : string) : string :=
  join NL
    (map (fun parts => join " " [nth 0 parts ""; nth 3 parts ""; nth 2 parts ""])
       (List.filter
          (fun parts =>
             (List.length parts =? 4)%nat
             && String.eqb (nth 1 parts "") "url"
             && (String.eqb (nth 2 parts "") "302"
                 || String.eqb (nth 2 parts "") "307"))
          (convertUrlRewriteSnippet str))).

(** ** The decoder of Shadowsocks JSON subscriptions *)

(** [\w] of a regular expression without the [u] flag. *)
Definition word_char (c : ascii) : bool :=
  let n := nat_of_ascii c in
  (((65 <=? n) && (n <=? 90)) || ((97 <=? n) && (n <=? 122))
   || ((48 <=? n) && (n <=? 57)) || (n =? 95))%nat.

(** The longest prefix of [s] whose characters satisfy [p]. *)
Fixpoint take_while (p : ascii -> bool) (s : string) : string :=
  match s with
  | "" => ""
  | String c r => if p c then String c (take_while p r) else ""
  end.

(** [s.match(/obfs=(\w+)/)]: the group of the leftmost match. *)
Fixpoint match_obfs (s : string) : option string :=
  match s with
  | "" => None
  | String _ r =>
      let w := take_while word_char (drop 5 s) in
      if is_prefix "obfs=" s && negb (String.eqb w "") then Some w
      else match_obfs r
  end.

(** [s.match(/obfs-host=(.+)$/)]: the group of the leftmost match; [.] takes
    no line terminator and [$] is the end of [s]. *)
Fixpoint match_obfs_host (s : string) : option string :=
  match s with
  | "" => None
  | String _ r =>
      let h := drop 10 s in
      if is_prefix "obfs-host=" s && negb (String.eqb h "")
         && negb (has_line_terminator h)
      then Some h
      else match_obfs_host r
  end.

(** The node [getShadowsocksJSONConfig] reads from one entry of [configs]. *)
Definition shadowsocksJSONItem (udpRelay : JsVal) (item : JsVal) : M NodeConfig :=
  match item with
  | JUndefined | JNull =>
      throw ("TypeError: Cannot read property 'remarks' of " +:+ toString item)
  | _ =>
      let nodeConfig : Obj :=
        [("nodeName", getv item "remarks");
         ("hostname", getv item "server");
         ("port", getv item "server_port");
         ("method", getv item "method");
         ("password", getv item "password")] in
      let nodeConfig :=
        if is_boolean udpRelay then set nodeConfig "udp-relay" udpRelay
        else nodeConfig in
      if is_str (getv item "plugin") "obfs-local" then
        match getv item "plugin_opts" with
        | JStr plugin_opts =>
            let obfs := match_obfs plugin_opts in
            let obfsHost := match_obfs_host plugin_opts in
            match obfs with
            | Some o =>
                ret (mkNode Shadowsocks
                       (set (set nodeConfig "obfs" (JStr o)) "obfs-host"
                          (JStr (match obfsHost with
                                 | Some h => h
                                 | None => "www.bing.com"
                                 end))))
            | None => ret (mkNode Shadowsocks nodeConfig)
            end
        | JUndefined | JNull =>
            throw ("TypeError: Cannot read property 'match' of "
                     +:+ toString (getv item "plugin_opts"))
        | _ => throw "TypeError: item.plugin_opts.match is not a function"
        end
      else ret (mkNode Shadowsocks nodeConfig)
  end.

(** [getShadowsocksJSONConfig(url, udpRelay)], from the response body on. *)
Definition getShadowsocksJSONConfig (url : string) (udpRelay : JsVal)
  (response : string) : M (list NodeConfig) :=
  if String.eqb url "" then throw "AssertionError: 未指定订阅地址 url"
  else
    match JSON_parse response with
    | None => throw "SyntaxError: Unexpected token in JSON"
    | Some (JUndefined | JNull) =>
        throw "TypeError: Cannot read property 'configs' of null"
    | Some r =>
        match getv r "configs" with
        | JArr configs => mapM (shadowsocksJSONItem udpRelay) configs
        | JUndefined | JNull =>
            throw "TypeError: Cannot read property 'map' of undefined"
        | _ => throw "TypeError: response.configs.map is not a function"
        end
    end.

(** ** Notions the properties are stated with *)

(** [nodeConfig.enable !== false] *)
Definition enabled (n : NodeConfig) : bool := negb (disabled n).

(** [l1] is [l2] with some elements left out: the order is kept and no
    element is repeated more often than in [l2]. *)
Inductive Subseq {A : Type} : list A -> list A -> Prop :=
| Subseq_nil : Subseq [] []
| Subseq_skip : forall x l1 l2, Subseq l1 l2 -> Subseq l1 (x :: l2)
| Subseq_keep : forall x l1 l2, Subseq l1 l2 -> Subseq (x :: l1) (x :: l2).

(** A composite filter that only selects and reorders the nodes it is given. *)
Definition selects (filter : Filter) : Prop :=
  match filter with
  | FSorted f => forall l x, In x (f l) -> In x l
  | _ => True
  end.

(** The names of a node sequence. *)
Definition nodeNames (nodes : list NodeConfig) : list JsVal :=
  map (fun item => field item "nodeName") nodes.

(** The JSON value a [vmess://] line carries. *)
Definition v2rayN_json (item : string) : option JsVal :=
  JSON_parse (fromBase64 (replace "vmess://" "" item)).

(** The line carries an object that passes the version check. *)
Definition v2rayN_versioned (item : string) : bool :=
  match v2rayN_json item with
  | Some JNull | None => false
  | Some json =>
      truthy (getv json "v") && is_num (js_Number (getv json "v")) 2
  end.

(** The line's [net] is one of the unsupported networks. *)
Definition v2rayN_unsupported (item : string) : bool :=
  match v2rayN_json item with
  | Some json => includes ["kcp"; "http"] (getv json "net")
  | None => false
  end.

(** The warning printed for a line whose network is unsupported. *)
Definition v2rayN_warning (item : string) : list Event :=
  match v2rayN_json item with
  | Some json =>
      [ConsoleLog "";
       ConsoleLog ("不支持读取 network 类型为 " +:+ toString (getv json "net")
                     +:+ " 的 Vmess 节点，节点 " +:+ toString (getv json "ps")
                     +:+ " 会被省略")]
  | None => []
  end.

(** The group types that carry a health check. *)
Definition health_checked (ruleType : string) : bool :=
  includes ["url-test"; "fallback"; "load-balance"] (JStr ruleType).



(** [pat] occurs in [s]. *)
Fixpoint occurs (pat s : string) : bool :=
  is_prefix pat s
  || match s with
     | "" => false
     | String _ r => occurs pat r
     end.

(** [pat] matches at no position of [a] in the text [a] followed by [b]. *)
Fixpoint unmatched (pat a b : string) : bool :=
  match a with
  | "" => true
  | String _ a' => negb (is_prefix pat (a +:+ b)) && unmatched pat a' b
  end.

(** The event writes a file. *)
Definition writes_file (e : Event) : bool :=
  match e with
  | WriteJSON _ _ => true
  | _ => false
  end.

(** The object [getV2rayNNodes] serializes for a node. *)
Definition v2rayN_payload (n : NodeConfig) : JsVal :=
  JObj [("v", JStr "2");
        ("ps", field n "nodeName");
        ("add", field n "hostname");
        ("port", JStr (toString (field n "port")));
        ("id", field n "uuid");
        ("aid", field n "alterId");
        ("net", field n "network");
        ("type", JStr "none");
        ("host", field n "host");
        ("path", field n "path");
        ("tls", JStr (if truthy (field n "tls") then "tls" else ""))].

(** [JSON.parse] reads the text of [v] back as a value with the properties
    of [v]. *)
Definition json_reads_back (v : JsVal) : Prop :=
  exists json,
    JSON_parse (JSON_stringify v) = Some json
    /\ forall k, getv json k = getv v k.

(** The node [getV2rayNSubscription] reads from the line [getV2rayNNodes]
    writes for [n]: the port as text, the method [auto], [tls] as a boolean,
    and the defaults of [alterId], [host] and [path]. *)
Definition v2rayN_read_back (n : NodeConfig) : NodeConfig :=
  mkNode Vmess
    [("nodeName", field n "nodeName");
     ("hostname", field n "hostname");
     ("port", JStr (toString (field n "port")));
     ("method", JStr "auto");
     ("uuid", field n "uuid");
     ("alterId", js_or (field n "alterId") (JStr "0"));
     ("network", field n "network");
     ("tls", JBool (truthy (field n "tls")));
     ("host", js_or (field n "host") (JStr ""));
     ("path", js_or (field n "path") (JStr "/"))].


(** The node [getShadowsocksJSONConfig] reads from the entry
    [getShadowsocksNodesJSON] writes for a node without plugin. *)
Definition shadowsocksJSON_read_back (udpRelay : JsVal) (n : NodeConfig)
  : NodeConfig :=
  mkNode Shadowsocks
    ([("nodeName", field n "nodeName");
      ("hostname", field n "hostname");
      ("port", field n "port");
      ("method", field n "method");
      ("password", field n "password")]
       ++ (if is_boolean udpRelay then [("udp-relay", udpRelay)] else [])).

(** [getShadowsocksNodesJSON] writes the plugin of the node. *)
Definition useObfs (n : NodeConfig) : bool :=
  truthy (field n "obfs") && truthy (field n "obfs-host").

(** ASCII text: every byte is below 128.  On such a text [trim] and
    [toUpperCase] are the operations of JavaScript: the white space and the
    letters they know beyond ASCII do not occur. *)
Definition ascii_text (s : string) : bool :=
  all_chars (fun c => (nat_of_ascii c <? 128)%nat) s.

(** A token: a text that is not empty and holds no white space. *)
Definition token (t : string) : Prop :=
  t <> "" /\ all_chars (fun c => negb (is_ws c)) t = true.

(** A continuation byte of UTF-8. *)
Definition utf8_tail (c : ascii) : bool :=
  let n := nat_of_ascii c in ((128 <=? n) && (n <=? 191))%nat.

(** Well-formed UTF-8 (the Unicode standard, table 3-7): the bytes of the
    text of a JavaScript string without lone surrogates. *)
Fixpoint utf8_valid (s : string) : bool :=
  match s with
  | "" => true
  | String a r =>
      let x := nat_of_ascii a in
      if (x <? 128)%nat then utf8_valid r
      else
        match r with
        | "" => false
        | String b r2 =>
            let y := nat_of_ascii b in
            if ((194 <=? x) && (x <=? 223))%nat then utf8_tail b && utf8_valid r2
            else
              match r2 with
              | "" => false
              | String c r3 =>
                  if ((224 <=? x) && (x <=? 239))%nat then
                    (if (x =? 224)%nat then ((160 <=? y) && (y <=? 191))%nat
                     else if (x =? 237)%nat then ((128 <=? y) && (y <=? 159))%nat
                     else utf8_tail b)
                    && utf8_tail c && utf8_valid r3
                  else
                    match r3 with
                    | "" => false
                    | String d r4 =>
                        if ((240 <=? x) && (x <=? 244))%nat then
                          (if (x =? 240)%nat then ((144 <=? y) && (y <=? 191))%nat
                           else if (x =? 244)%nat then ((128 <=? y) && (y <=? 143))%nat
                           else utf8_tail b)
                          && utf8_tail c && utf8_tail d && utf8_valid r4
                        else false
                    end
              end
        end
  end.

(** Percent-encoding of the bytes that [keep] does not keep. *)
Fixpoint percent_encode (keep : ascii -> bool) (s : string) : string :=
  match s with
  | "" => ""
  | String c s' =>
      if keep c then String c (percent_encode keep s')
      else
        let n := nat_of_ascii c in
        String (chr 37)
          (String (upper_hex_digit (n / 16))
             (String (upper_hex_digit (n mod 16)) (percent_encode keep s')))
  end.

(** The escape [%XX] of the byte [n], before [r]. *)
Definition pct (n : nat) (r : string) : string :=
  String (chr 37)
    (String (upper_hex_digit (n / 16)) (String (upper_hex_digit (n mod 16)) r)).

(** A character of a host name the legacy parser leaves as it is. *)
Definition dns_char (c : ascii) : bool :=
  let n := nat_of_ascii c in
  (((97 <=? n) && (n <=? 122)) || ((48 <=? n) && (n <=? 57))
   || (n =? 46) || (n =? 45) || (n =? 95))%nat.

(** A host name in lower case, of at most 255 characters. *)
Definition plain_host (h : string) : bool :=
  all_chars dns_char h && (String.length h <=? 255)%nat.

(** A port: digits, at least one. *)
Definition plain_port (p : string) : bool :=
  all_digits p && negb (String.eqb p "").

(** The characters [encodeURIComponent] writes. *)
Definition enc_char (c : ascii) : bool :=
  uri_unreserved c || Ascii.eqb c "%".

(** The characters of the pieces of a SIP002 URI. *)
Definition uri_piece_char (c : ascii) : bool :=
  urlsafe_char c || dns_char c || enc_char c
  || Ascii.eqb c "=" || Ascii.eqb c "&".

(** A character the scan for the authority steps over. *)
Definition scan_plain (c : ascii) : bool :=
  negb (non_host_char c) && negb (host_ending_char c)
  && negb (Ascii.eqb c (chr 64)).

(** What [encodeURIComponent] keeps and the legacy parser does not escape. *)
Definition kept_by_parser (c : ascii) : bool :=
  uri_unreserved c && negb (Ascii.eqb c (chr 39)).

(** A value of a plugin option the decoder reads back: well-formed text
    that is not empty and holds neither [;] nor [=]. *)
Definition plugin_value (v : string) : Prop :=
  v <> "" /\ utf8_valid v = true
  /\ indexOf ";" v = None /\ indexOf "=" v = None.

(** The plugin options [getShadowsocksNodes] writes for a node. *)
Definition sip002_plugin (n : NodeConfig) : string :=
  "obfs-local;obfs=" +:+ toString (field n "obfs")
    +:+ ";obfs-host=" +:+ toString (field n "obfs-host").

(** The query [getShadowsocksNodes] writes for a node. *)
Definition sip002_query (groupName : string) (n : NodeConfig) : string :=
  match truthy (field n "obfs"), String.eqb groupName "" with
  | true, true => "plugin=" +:+ encodeURIComponent (sip002_plugin n)
  | true, false =>
      "plugin=" +:+ encodeURIComponent (sip002_plugin n)
        +:+ "&group=" +:+ encodeURIComponent groupName
  | false, true => ""
  | false, false => "group=" +:+ encodeURIComponent groupName
  end.


(** A node [getShadowsocksNodes] writes as a URI the legacy parser takes
    apart as it was put together: an enabled Shadowsocks node whose name is
    well-formed text, whose host is a plain host name, whose port is a
    number or digits, whose method is a text without [:], whose password
    is a text, and which has no [obfs], or an [obfs] and an [obfs-host] the
    decoder reads back. *)
Definition sip002_shape (n : NodeConfig) : Prop :=
  type n = Shadowsocks
  /\ disabled n = false
  /\ (truthy (field n "obfs") = false
      \/ exists obfs obfsHost,
           field n "obfs" = JStr obfs /\ field n "obfs-host" = JStr obfsHost
           /\ plugin_value obfs /\ plugin_value obfsHost)
  /\ (exists name, field n "nodeName" = JStr name /\ utf8_valid name = true)
  /\ (exists host, field n "hostname" = JStr host /\ plain_host host = true)
  /\ (is_string (field n "port") = true
      \/ exists z, field n "port" = JNum z)
  /\ plain_port (toString (field n "port")) = true
  /\ (exists method, field n "method" = JStr method
                     /\ indexOf ":" method = None)
  /\ is_string (field n "password") = true.



(** A ShadowsocksR node [getShadowsocksrNodes] writes: an enabled node
    whose password, parameters and name are texts. *)
Definition ssr_node (n : NodeConfig) : Prop :=
  disabled n = false
  /\ type n = Shadowsocksr
  /\ is_string (field n "password") = true
  /\ is_string (field n "obfsparam") = true
  /\ is_string (field n "protoparam") = true
  /\ is_string (field n "nodeName") = true.

(** What a ShadowsocksR URI holds for a node, before it is put in base64:
    the colon-separated server part and the parameters in alphabetical
    order. *)
Definition ssr_payload (groupName : string) (n : NodeConfig) : string :=
  join_vals ":"
    [field n "hostname"; field n "port"; field n "protocol";
     field n "method"; field n "obfs";
     JStr (toUrlSafeBase64 (toString (field n "password")))]
    +:+ "/?group=" +:+ toUrlSafeBase64 groupName
    +:+ "&obfsparam=" +:+ toUrlSafeBase64 (toString (field n "obfsparam"))
    +:+ "&protoparam=" +:+ toUrlSafeBase64 (toString (field n "protoparam"))
    +:+ "&remarks=" +:+ toUrlSafeBase64 (toString (field n "nodeName"))
    +:+ "&udpport=0&uot=0".






(** ** Sample data *)

Definition sample_url : string := "https://example.com/subscription".

(** The SIP002 URI [ss://<urlsafe_b64("aes-256-gcm:pwd")>@1.2.3.4:8388#Test]. *)
Definition sip002_sample : string :=
  "ss://" +:+ toUrlSafeBase64 "aes-256-gcm:pwd" +:+ "@1.2.3.4:8388#Test".

Definition sample_ss : NodeConfig :=
  mkNode Shadowsocks
    [("nodeName", JStr "HK"); ("hostname", JStr "hk.example.com");
     ("port", JNum 8443); ("method", JStr "chacha20-ietf-poly1305");
     ("password", JStr "secret")].

Definition sample_ss_disabled : NodeConfig :=
  mkNode Shadowsocks
    [("nodeName", JStr "JP"); ("enable", JBool false);
     ("hostname", JStr "jp.example.com"); ("port", JNum 8443);
     ("method", JStr "chacha20-ietf-poly1305"); ("password", JStr "secret")].

(** A VMess node whose [udp] is set to [false]. *)
Definition sample_vmess_udp_false : NodeConfig :=
  mkNode Vmess
    [("nodeName", JStr "US"); ("hostname", JStr "1.2.3.4"); ("port", JNum 443);
     ("method", JStr "auto");
     ("uuid", JStr "1386f85e-657b-4d6e-9d56-78badb75e1fd");
     ("alterId", JStr "64"); ("network", JStr "tcp"); ("tls", JBool false);
     ("host", JStr ""); ("path", JStr "/"); ("udp", JBool false)].

(** The JSON of a [vmess://] line that leaves out [aid], [host] and [path]. *)
Definition sample_vmess_json (name net : string) : JsVal :=
  JObj [("v", JStr "2"); ("ps", JStr name); ("add", JStr "1.2.3.4");
        ("port", JNum 443);
        ("id", JStr "1386f85e-657b-4d6e-9d56-78badb75e1fd");
        ("net", JStr net); ("tls", JStr "tls")].

Definition sample_vmess_uri (name net : string) : string :=
  "vmess://" +:+ toBase64 (JSON_stringify (sample_vmess_json name net)).

(** A V2RayN payload of three lines, the second one over [kcp]. *)
Definition sample_v2rayN_response : string :=
  toBase64 (join NL [sample_vmess_uri "A" "ws"; sample_vmess_uri "B" "kcp";
                     sample_vmess_uri "C" "tcp"]).

(** A sample of the rule prefixes Clash does not support. *)
Definition sample_unsupported_rules : list string :=
  ["USER-AGENT"; "PROCESS-NAME"; "URL-REGEX"].

(** Sample values of the members of [NodeTypeEnum]. *)
Definition NodeTypeEnum_sample (t : NodeTypeEnum) : string :=
  match t with
  | HTTPS => "https"
  | Shadowsocks => "shadowsocks"
  | Shadowsocksr => "shadowsocksr"
  | Snell => "snell"
  | Vmess => "vmess"
  end.

Definition sample_nodes : list NodeConfig :=
  [sample_ss; sample_ss_disabled; sample_vmess_udp_false].


(** The predicate that keeps the nodes named [US]. *)
Definition only_US (n : NodeConfig) : bool := is_str (field n "nodeName") "US".

(** Group options with two existing proxies and the filter [only_US]. *)
Definition sample_group_options : GroupOptions :=
  mkGroupOptions (FFunction only_US) (Some [JStr "A"; JStr "B"])
    (JStr "http://www.qualcomm.cn/generate_204") (JNum 1200).

(** Rule text with Windows line ends and a domain that starts with
    [no-resolve]. *)
Definition sample_rules : string :=
  "# rules" +:+ str1 CR +:+ NL
  +:+ "DOMAIN,a.com,Proxy // note" +:+ str1 CR +:+ NL
  +:+ "DOMAIN-SUFFIX,no-resolve.example.com,Proxy" +:+ NL
  +:+ "IP-CIDR,1.1.1.1/32,DIRECT,no-resolve // dns" +:+ NL
  +:+ "USER-AGENT,Line*,DIRECT".

(** A V2RayN payload whose only line carries the version marker [1]. *)
Definition sample_v1_response : string :=
  toBase64
    ("vmess://"
       +:+ toBase64
             (JSON_stringify
                (JObj [("v", JStr "1"); ("ps", JStr "old");
                       ("add", JStr "1.2.3.4"); ("port", JNum 443);
                       ("net", JStr "tcp")]))).

(** A Shadowsocks node behind a secure WebSocket. *)
Definition sample_ss_wss : NodeConfig :=
  mkNode Shadowsocks
    [("nodeName", JStr "SG"); ("hostname", JStr "sg.example.com");
     ("port", JNum 443); ("method", JStr "chacha20-ietf-poly1305");
     ("password", JStr "secret"); ("obfs", JStr "wss");
     ("obfs-host", JStr "sg.example.com")].


(** A text of comments and blank lines. *)
Definition sample_comments : string :=
  "# Proxy rules" +:+ NL +:+ NL +:+ "   " +:+ NL +:+ "# end".

(** The predicate that keeps the VMess nodes. *)
Definition is_vmess (n : NodeConfig) : bool :=
  match type n with
  | Vmess => true
  | _ => false
  end.

(** The entries of a proxy group modifier: a [select] group with a filter
    and a [url-test] group with proxies of its own. *)
Definition sample_groups (_ : list NodeConfig) (_ : list (string * Filter))
  : list GroupItem :=
  [mkGroupItem "Proxy" "select" (Some (FFunction only_US)) None;
   mkGroupItem "Auto" "url-test" None (Some [JStr "A"])].

(** A ShadowsocksR node without [binPath]. *)
Definition sample_ssr : NodeConfig :=
  mkNode Shadowsocksr
    [("nodeName", JStr "TW"); ("hostname", JStr "tw.example.com");
     ("port", JNum 8443); ("method", JStr "chacha20"); ("obfs", JStr "plain");
     ("protocol", JStr "origin"); ("password", JStr "secret");
     ("localPort", JNum 1080)].

(** A VMess node that is run by an external V2Ray program. *)
Definition sample_vmess_external : NodeConfig :=
  mkNode Vmess
    [("nodeName", JStr "US"); ("hostname", JStr "1.2.3.4"); ("port", JNum 443);
     ("method", JStr "auto");
     ("uuid", JStr "1386f85e-657b-4d6e-9d56-78badb75e1fd");
     ("alterId", JStr "64"); ("network", JStr "tcp"); ("tls", JBool false);
     ("host", JStr ""); ("path", JStr "/");
     ("binPath", JStr "/usr/local/bin/v2ray"); ("localPort", JNum 61100)].

Definition sample_path_join (a b : string) : string := a +:+ "/" +:+ b.

(** A Shadowsocks node with the [obfs] plugin. *)
Definition sample_ss_obfs : NodeConfig :=
  mkNode Shadowsocks
    [("nodeName", JStr "HK"); ("hostname", JStr "hk.example.com");
     ("port", JNum 8443); ("method", JStr "chacha20-ietf-poly1305");
     ("password", JStr "secret"); ("obfs", JStr "http");
     ("obfs-host", JStr "example.com")].

(** The entry [getShadowsocksNodesJSON] writes for [sample_ss_obfs], and a
    response whose [configs] hold it. *)
Definition sample_ss_obfs_entry : JsVal :=
  JObj [("remarks", JStr "HK"); ("server", JStr "hk.example.com");
        ("server_port", JNum 8443);
        ("method", JStr "chacha20-ietf-poly1305");
        ("remarks_base64", JStr (toUrlSafeBase64 "HK"));
        ("password", JStr "secret"); ("tcp_over_udp", JBool false);
        ("udp_over_tcp", JBool false); ("enable", JBool true);
        ("plugin", JStr "obfs-local");
        ("plugin-opts", JStr "obfs=http;obfs-host=example.com")].

Definition sample_ss_obfs_response : string :=
  JSON_stringify (JObj [("configs", JArr [sample_ss_obfs_entry])]).

(** An entry as the Shadowsocks clients write it. *)
Definition sample_plugin_entry : Obj :=
  [("remarks", JStr "HK"); ("server", JStr "hk.example.com");
   ("server_port", JNum 8443); ("method", JStr "chacha20-ietf-poly1305");
   ("password", JStr "secret"); ("plugin", JStr "obfs-local");
   ("plugin_opts", JStr "obfs=http;obfs-host=example.com")].

(** [new URL] on the public URLs of the samples, [https://<host>/] with a
    host name in lower case: the object of such a URL has the scheme
    [https], the host, the path of one empty segment, and neither
    credentials, port, query nor fragment.  No other text is read. *)
Definition new_URL_https_origin (input : string) : option URLObject :=
  if is_prefix "https://" input then
    match indexOf "/" (drop 8 input) with
    | Some i =>
        let host := take i (drop 8 input) in
        if plain_host host && negb (String.eqb host "")
           && String.eqb (drop (S i) (drop 8 input)) ""
        then Some (mkURL_object "https" "" "" (Some host) None [""] false
                     None None [])
        else None
    | None => None
    end
  else None.

(** A Shadowsocks node whose password holds a [:]. *)
Definition sample_ss_colon : NodeConfig :=
  mkNode Shadowsocks
    [("nodeName", JStr "HK"); ("hostname", JStr "hk.example.com");
     ("port", JNum 8443); ("method", JStr "chacha20-ietf-poly1305");
     ("password", JStr "pass:word")].

(** A ShadowsocksR node with its parameters. *)
Definition sample_ssr_params : NodeConfig :=
  mkNode Shadowsocksr
    [("nodeName", JStr "TW"); ("hostname", JStr "tw.example.com");
     ("port", JNum 8443); ("method", JStr "chacha20"); ("obfs", JStr "plain");
     ("protocol", JStr "origin"); ("password", JStr "secret");
     ("obfsparam", JStr "example.com"); ("protoparam", JStr "")].

(** * Properties *)

(** ** The monad *)

Lemma bind_ret_l : forall {A B} (a : A) (k : A -> M B), bind (ret a) k = k a.
Proof.
  intros A B a k. unfold bind, ret. destruct (k a) as [es r]. reflexivity.
Qed.

Lemma bind_ret_r : forall {A} (m : M A), bind m ret = m.
Proof.
  intros A [es [a | err]]; simpl; [rewrite app_nil_r |]; reflexivity.
Qed.

Lemma bind_assoc : forall {A B C} (m : M A) (k : A -> M B) (h : B -> M C),
  bind (bind m k) h = bind m (fun a => bind (k a) h).
Proof.
  intros A B C [es [a | err]] k h; simpl; [| reflexivity].
  destruct (k a) as [es1 [b | err1]]; simpl; [| reflexivity].
  destruct (h b) as [es2 r]. rewrite app_assoc. reflexivity.
Qed.

Lemma bind_ext : forall {A B} (m : M A) (k1 k2 : A -> M B),
  (forall a, k1 a = k2 a) -> bind m k1 = bind m k2.
Proof.
  intros A B [es [a | err]] k1 k2 H; simpl; [rewrite H |]; reflexivity.
Qed.

Lemma bind_throw : forall {A B} (err : string) (k : A -> M B),
  bind (throw err) k = throw err.
Proof. reflexivity. Qed.

(** ** Filtering *)

Lemma filter_and_enabled : forall (p : NodeConfig -> bool) l,
  List.filter (fun item => p item && negb (disabled item))
    (List.filter enabled l)
  = List.filter (fun item => p item && negb (disabled item)) l.
Proof.
  intros p l. induction l as [| x l IH]; simpl; [reflexivity |].
  unfold enabled at 1. destruct (disabled x) eqn:E; simpl.
  - rewrite andb_false_r. exact IH.
  - rewrite E. simpl. destruct (p x); simpl; rewrite IH; reflexivity.
Qed.

Lemma filter_enabled_idem : forall l,
  List.filter (fun item => negb (disabled item)) (List.filter enabled l)
  = List.filter (fun item => negb (disabled item)) l.
Proof.
  intros l. induction l as [| x l IH]; simpl; [reflexivity |].
  unfold enabled at 1. destruct (disabled x) eqn:E; simpl.
  - exact IH.
  - rewrite E. simpl. rewrite IH. reflexivity.
Qed.

Lemma filter_filter_andb : forall {A} (p q : A -> bool) l,
  List.filter p (List.filter q l) = List.filter (fun x => p x && q x) l.
Proof.
  intros A p q l. induction l as [| x l IH]; simpl; [reflexivity |].
  destruct (q x); simpl.
  - rewrite andb_true_r. destruct (p x); rewrite IH; reflexivity.
  - rewrite andb_false_r. exact IH.
Qed.

Lemma Subseq_filter : forall {A} (p : A -> bool) l, Subseq (List.filter p l) l.
Proof.
  intros A p l. induction l as [| x l IH]; simpl.
  - constructor.
  - destruct (p x); constructor; exact IH.
Qed.

Lemma Subseq_trans : forall {A} (l1 l2 l3 : list A),
  Subseq l1 l2 -> Subseq l2 l3 -> Subseq l1 l3.
Proof.
  intros A l1 l2 l3 H12 H23. revert l1 H12.
  induction H23 as [| x l2 l3 H IH | x l2 l3 H IH]; intros l1 H12.
  - exact H12.
  - apply Subseq_skip. apply IH. exact H12.
  - inversion H12; subst.
    + apply Subseq_skip. apply IH. assumption.
    + apply Subseq_keep. apply IH. assumption.
Qed.

(** Leaving the disabled nodes out of the input changes nothing of what
    [applyFilter] does, whatever the filter. *)
Lemma applyFilter_enabled : forall nodeList filter,
  applyFilter (List.filter enabled nodeList) filter = applyFilter nodeList filter.
Proof.
  intros nodeList filter. unfold applyFilter.
  destruct (filter_truthy filter && negb (validateFilter filter)); [reflexivity |].
  destruct filter as [p | f | v].
  - rewrite filter_and_enabled. reflexivity.
  - rewrite filter_enabled_idem. reflexivity.
  - rewrite filter_enabled_idem. reflexivity.
Qed.

(** X1.  Every node [applyFilter] hands to a serializer is a node of the
    input whose [enable] is not [false], for a predicate, for no filter, and
    for a composite filter that only selects among the nodes it is given. *)
Theorem applyFilter_all_enabled : forall nodeList filter es nodes,
  selects filter ->
  applyFilter nodeList filter = (es, Returned nodes) ->
  Forall (fun n => disabled n = false) nodes
  /\ (forall n, In n nodes -> In n nodeList).
Proof.
  intros nodeList filter es nodes Hsel H. unfold applyFilter in H.
  destruct (filter_truthy filter && negb (validateFilter filter));
    [discriminate |].
  unfold ret in H. injection H as _ Hn. subst nodes.
  destruct filter as [p | f | v]; simpl in Hsel.
  - split.
    + apply Forall_forall. intros n Hin. apply filter_In in Hin.
      destruct Hin as [_ Hp]. apply andb_true_iff in Hp.
      destruct Hp as [_ Hp]. apply negb_true_iff in Hp. exact Hp.
    + intros n Hin. apply filter_In in Hin. destruct Hin as [Hin _]. exact Hin.
  - split.
    + apply Forall_forall. intros n Hin. apply Hsel in Hin.
      apply filter_In in Hin. destruct Hin as [_ Hp].
      apply negb_true_iff in Hp. exact Hp.
    + intros n Hin. apply Hsel in Hin. apply filter_In in Hin.
      destruct Hin as [Hin _]. exact Hin.
  - split.
    + apply Forall_forall. intros n Hin. apply filter_In in Hin.
      destruct Hin as [_ Hp]. apply negb_true_iff in Hp. exact Hp.
    + intros n Hin. apply filter_In in Hin. destruct Hin as [Hin _]. exact Hin.
Qed.

(** [mapM] over a list from which the nodes a function skips silently have
    been removed. *)
Lemma mapM_skip_disabled :
  forall {B C} (f : NodeConfig -> M (option B)) (h : option B -> list C) l,
    (forall n, disabled n = true -> f n = ret None) ->
    h None = [] ->
    bind (mapM f l) (fun r => ret (flat_map h r))
    = bind (mapM f (List.filter enabled l)) (fun r => ret (flat_map h r)).
Proof.
  intros B C f h l Hf Hh. induction l as [| x l IH]; simpl; [reflexivity |].
  unfold enabled at 1. destruct (disabled x) eqn:E; simpl.
  - rewrite (Hf x E). rewrite bind_ret_l. rewrite bind_assoc.
    rewrite <- IH. apply bind_ext. intros ys. rewrite bind_ret_l.
    simpl. rewrite Hh. reflexivity.
  - rewrite !bind_assoc. apply bind_ext. intros y.
    rewrite !bind_assoc.
    transitivity (bind (bind (mapM f l) (fun r => ret (flat_map h r)))
                    (fun ks => ret (h y ++ ks))).
    + rewrite bind_assoc. apply bind_ext. intros ys.
      rewrite !bind_ret_l. reflexivity.
    + rewrite IH. rewrite bind_assoc. apply bind_ext. intros ys.
      rewrite !bind_ret_l. reflexivity.
Qed.

Lemma mapM_skip_then :
  forall {B C D} (f : NodeConfig -> M (option B)) (h : option B -> list C)
         (g : list C -> D) l,
    (forall n, disabled n = true -> f n = ret None) ->
    h None = [] ->
    bind (mapM f l) (fun r => ret (g (flat_map h r)))
    = bind (mapM f (List.filter enabled l)) (fun r => ret (g (flat_map h r))).
Proof.
  intros B C D f h g l Hf Hh.
  transitivity (bind (bind (mapM f l) (fun r => ret (flat_map h r)))
                  (fun ks => ret (g ks))).
  - rewrite bind_assoc. apply bind_ext. intros r. rewrite bind_ret_l.
    reflexivity.
  - rewrite (mapM_skip_disabled f h l Hf Hh). rewrite bind_assoc.
    apply bind_ext. intros r. rewrite bind_ret_l. reflexivity.
Qed.

(** ** C1: what is written is written for enabled nodes *)

Lemma shadowsocksNode_disabled : forall g n,
  disabled n = true -> shadowsocksNode g n = ret None.
Proof. intros g n H. unfold shadowsocksNode. rewrite H. reflexivity. Qed.

Lemma shadowsocksrNode_disabled : forall g n,
  disabled n = true -> shadowsocksrNode g n = ret None.
Proof. intros g n H. unfold shadowsocksrNode. rewrite H. reflexivity. Qed.

Lemma v2rayNNode_disabled : forall n,
  disabled n = true -> v2rayNNode n = ret None.
Proof. intros n H. unfold v2rayNNode. rewrite H. reflexivity. Qed.

Lemma shadowsocksJSONNode_disabled : forall n,
  disabled n = true -> shadowsocksJSONNode n = ret None.
Proof. intros n H. unfold shadowsocksJSONNode. rewrite H. reflexivity. Qed.

(** For every node list and every filter (a predicate, a composite filter,
    no filter, or any other value), each of the nine serializers gives the
    same result (text or objects, warnings, errors) as on the list from which
    every node with [enable === false] has been removed. *)
Lemma serializers_skip_disabled_nodes :
  forall (nodeList : list NodeConfig) (filter : Filter)
         (groupName : option string) (ssrGroupName : string),
    getSurgeNodes nodeList filter
    = getSurgeNodes (List.filter enabled nodeList) filter
    /\ getClashNodes nodeList filter
       = getClashNodes (List.filter enabled nodeList) filter
    /\ getMellowNodes nodeList filter
       = getMellowNodes (List.filter enabled nodeList) filter
    /\ getQuantumultNodes nodeList groupName filter
       = getQuantumultNodes (List.filter enabled nodeList) groupName filter
    /\ getQuantumultXNodes nodeList filter
       = getQuantumultXNodes (List.filter enabled nodeList) filter
    /\ getV2rayNNodes nodeList
       = getV2rayNNodes (List.filter enabled nodeList)
    /\ getShadowsocksNodes nodeList groupName
       = getShadowsocksNodes (List.filter enabled nodeList) groupName
    /\ getShadowsocksrNodes nodeList ssrGroupName
       = getShadowsocksrNodes (List.filter enabled nodeList) ssrGroupName
    /\ getShadowsocksNodesJSON nodeList
       = getShadowsocksNodesJSON (List.filter enabled nodeList).
Proof.
  intros nodeList filter groupName ssrGroupName.
  repeat split.
  - unfold getSurgeNodes. rewrite applyFilter_enabled. reflexivity.
  - unfold getClashNodes. rewrite applyFilter_enabled. reflexivity.
  - unfold getMellowNodes. rewrite applyFilter_enabled. reflexivity.
  - unfold getQuantumultNodes. rewrite applyFilter_enabled. reflexivity.
  - unfold getQuantumultXNodes. rewrite applyFilter_enabled. reflexivity.
  - unfold getV2rayNNodes, keep_truthy.
    apply (mapM_skip_then v2rayNNode _ (join NL));
      [apply v2rayNNode_disabled | reflexivity].
  - unfold getShadowsocksNodes, keep_truthy.
    apply (mapM_skip_then (shadowsocksNode _) _ (join NL));
      [apply shadowsocksNode_disabled | reflexivity].
  - unfold getShadowsocksrNodes, keep_non_null.
    apply (mapM_skip_then (shadowsocksrNode _) _ (join NL));
      [apply shadowsocksrNode_disabled | reflexivity].
  - unfold getShadowsocksNodesJSON, keep_non_null.
    apply (mapM_skip_then shadowsocksJSONNode _
             (fun ks => match stringify_gap "  " "" (JArr ks) with
                        | Some t => t
                        | None => "undefined"
                        end));
      [apply shadowsocksJSONNode_disabled | reflexivity].
Qed.



Lemma keep_non_null_pieces :
  forall {A} (l : list (option A)),
    keep_non_null l
    = flat_map (fun x => match x with Some t => [t] | None => [] end) l.
Proof. reflexivity. Qed.







(** ** C2: [applyFilter] with a predicate *)

(** C2.  For every input and every predicate [p] (accepted by
    [validateFilter]), [applyFilter(input, p)] returns the input filtered to
    the nodes with [enable !== false] and then filtered by [p]; the result
    is the input with elements left out: same relative order, no element
    more often than in the input. *)
Theorem applyFilter_predicate :
  forall (input : list NodeConfig) (p : NodeConfig -> bool),
    validateFilter (FFunction p) = true ->
    applyFilter input (FFunction p)
    = ret (List.filter p (List.filter enabled input))
    /\ Subseq (List.filter p (List.filter enabled input)) input.
Proof.
  intros input p Hvalid. split.
  - unfold applyFilter. rewrite Hvalid. simpl.
    rewrite filter_filter_andb. reflexivity.
  - apply Subseq_trans with (l2 := List.filter enabled input);
      apply Subseq_filter.
Qed.

(** ** C3: invalid filters *)

(** C3, as the code has it.  A value that is neither a function nor an
    object exposing [filter], and that [validateFilter] rejects: when it is
    truthy (a string, a number, an object), [applyFilter] throws before it
    looks at any node, with the value in the message; when it is falsy
    ([undefined], [null], [0], the empty string, [false]), the filter counts
    as left out and [applyFilter] returns the enabled nodes. *)
Theorem applyFilter_invalid_filter :
  forall (nodeList : list NodeConfig) (v : JsVal),
    validateFilter (FValue v) = false ->
    applyFilter nodeList (FValue v)
    = if truthy v
      then ([], Thrown ("使用了无效的过滤器 " +:+ toString v))
      else ([], Returned (List.filter enabled nodeList)).
Proof.
  intros nodeList v Hinvalid. unfold applyFilter. rewrite Hinvalid. simpl.
  destruct (truthy v); reflexivity.
Qed.

(** ** C7: the members and the health check of a proxy group *)

Lemma is_str_true : forall v s, is_str v s = true <-> v = JStr s.
Proof.
  intros v s. split.
  - destruct v; simpl; try discriminate. intros H.
    apply String.eqb_eq in H. subst. reflexivity.
  - intros ->. simpl. apply String.eqb_refl.
Qed.

(** C7.  For every call of the group builder whose filter [applyFilter]
    accepts, with [options] given or left out, the member list is
    [existingProxies] followed by the names of the filtered candidates when
    both [existingProxies] and a filter are supplied, [existingProxies] alone
    when it is supplied without a filter, and the names of the filtered
    candidates alone otherwise; [url] and [interval] are attached exactly
    when the type is [url-test], [fallback] or [load-balance], and a
    [select] group never carries them. *)
Theorem generateClashProxyGroup_members_and_health_check :
  forall (ruleName ruleType : string) (nodeNameList : list NodeConfig)
         (options : option GroupOptions) (filtered : list NodeConfig),
    let given := match options with
                 | Some o => o
                 | None => default_options
                 end in
    applyFilter nodeNameList (opt_filter given) = ret filtered ->
    exists group : Obj,
      generateClashProxyGroup ruleName ruleType nodeNameList options
      = ret group
      /\ get group "type" = JStr ruleType
      /\ get group "name" = JStr ruleName
      /\ get group "proxies"
         = JArr (match opt_existingProxies given with
                 | Some existingProxies =>
                     if filter_truthy (opt_filter given)
                     then existingProxies ++ nodeNames filtered
                     else existingProxies
                 | None => nodeNames filtered
                 end)
      /\ has group "url" = health_checked ruleType
      /\ has group "interval" = health_checked ruleType
      /\ (health_checked ruleType = true ->
          get group "url" = opt_proxyTestUrl given
          /\ get group "interval" = opt_proxyTestInterval given)
      /\ (ruleType = "select" ->
          has group "url" = false /\ has group "interval" = false).
Proof.
  intros ruleName ruleType nodeNameList options filtered given Hfilter.
  unfold generateClashProxyGroup. fold given.
  assert (Hselect : ruleType = "select" -> health_checked ruleType = false).
  { intros ->. reflexivity. }
  fold (health_checked ruleType).
  destruct (opt_existingProxies given) as [existingProxies |];
    [destruct (filter_truthy (opt_filter given)) |];
    try rewrite Hfilter; rewrite ?bind_ret_l;
    destruct (health_checked ruleType) eqn:Hhc; simpl;
    (eexists; split; [reflexivity |]);
    simpl; repeat split; try reflexivity.
  all: try (intros _; split; reflexivity).
  all: try discriminate.
  all: apply Hselect; assumption.
Qed.

(** ** C10: defaults of the V2RayN decoder *)

(** The node of a line that passes the version check and names a supported
    network. *)
Lemma v2rayNLine_accepted : forall url item json,
  v2rayN_json item = Some json ->
  v2rayN_versioned item = true ->
  v2rayN_unsupported item = false ->
  v2rayNLine url item
  = ret (Some (mkNode Vmess
                 [("nodeName", getv json "ps");
                  ("hostname", getv json "add");
                  ("port", getv json "port");
                  ("method", JStr "auto");
                  ("uuid", getv json "id");
                  ("alterId", js_or (getv json "aid") (JStr "0"));
                  ("network", getv json "net");
                  ("tls", JBool (is_str (getv json "tls") "tls"));
                  ("host", js_or (getv json "host") (JStr ""));
                  ("path", js_or (getv json "path") (JStr "/"))])).
Proof.
  intros url item json Hjson Hversion Hnet.
  unfold v2rayN_versioned in Hversion. unfold v2rayN_unsupported in Hnet.
  rewrite Hjson in Hversion, Hnet.
  unfold v2rayNLine. fold (v2rayN_json item). rewrite Hjson.
  destruct json as [| | b | z | | t | elems | o]; try discriminate;
    apply andb_true_iff in Hversion; destruct Hversion as [H1 H2];
    rewrite H1, H2, Hnet; reflexivity.
Qed.

(** C10.  A [vmess://] line whose JSON passes the version check and names a
    supported network gives a VMess node in which [alterId] is the string
    ['0'] when [aid] is missing or falsy, [host] is the empty string and
    [path] is ['/'] when they are missing (or falsy), and [tls] is [true]
    exactly when the JSON [tls] is the string ['tls']. *)
Theorem v2rayNLine_defaults :
  forall (url item : string) (json : JsVal),
    v2rayN_json item = Some json ->
    v2rayN_versioned item = true ->
    v2rayN_unsupported item = false ->
    exists node : NodeConfig,
      v2rayNLine url item = ret (Some node)
      /\ type node = Vmess
      /\ field node "alterId"
         = (if truthy (getv json "aid") then getv json "aid" else JStr "0")
      /\ field node "host"
         = (if truthy (getv json "host") then getv json "host" else JStr "")
      /\ field node "path"
         = (if truthy (getv json "path") then getv json "path" else JStr "/")
      /\ (getv json "aid" = JUndefined -> field node "alterId" = JStr "0")
      /\ (getv json "host" = JUndefined -> field node "host" = JStr "")
      /\ (getv json "path" = JUndefined -> field node "path" = JStr "/")
      /\ (field node "tls" = JBool true <-> getv json "tls" = JStr "tls")
      /\ (field node "tls" = JBool false <-> getv json "tls" <> JStr "tls").
Proof.
  intros url item json Hjson Hversion Hnet.
  eexists. split; [exact (v2rayNLine_accepted url item json Hjson Hversion Hnet) |].
  unfold field, js_or. simpl.
  split; [reflexivity |]. split; [reflexivity |].
  split; [reflexivity |]. split; [reflexivity |].
  split; [intros H; rewrite H; reflexivity |].
  split; [intros H; rewrite H; reflexivity |].
  split; [intros H; rewrite H; reflexivity |].
  split; split.
  - intros H. injection H as H. apply is_str_true in H. exact H.
  - intros H. rewrite H. reflexivity.
  - intros H E. rewrite E in H. discriminate.
  - intros H. destruct (is_str (getv json "tls") "tls") eqn:E;
      [apply is_str_true in E; contradiction | reflexivity].
Qed.

(** ** C6: unsupported networks in a V2RayN subscription *)

Lemma v2rayNLine_unsupported : forall url item,
  v2rayN_versioned item = true ->
  v2rayN_unsupported item = true ->
  v2rayNLine url item = (v2rayN_warning item, Returned None).
Proof.
  intros url item Hversion Hnet.
  unfold v2rayN_versioned in Hversion. unfold v2rayN_unsupported in Hnet.
  unfold v2rayN_warning, v2rayNLine. fold (v2rayN_json item).
  destruct (v2rayN_json item) as [json |]; [| discriminate].
  destruct json as [| | b | z | | t | elems | o]; try discriminate;
    apply andb_true_iff in Hversion; destruct Hversion as [H1 H2];
    rewrite H1, H2, Hnet; reflexivity.
Qed.

Lemma v2rayNLine_supported : forall url item,
  v2rayN_versioned item = true ->
  v2rayN_unsupported item = false ->
  exists node, v2rayNLine url item = ([], Returned (Some node)).
Proof.
  intros url item Hversion Hnet.
  destruct (v2rayN_json item) as [json |] eqn:Hjson.
  - eexists. exact (v2rayNLine_accepted url item json Hjson Hversion Hnet).
  - unfold v2rayN_versioned in Hversion. rewrite Hjson in Hversion.
    discriminate.
Qed.

(** Decoding a list of lines that all pass the version check: the warnings
    are those of the unsupported lines, the nodes are those of the other
    lines, decoded as if the unsupported lines were not there. *)
Lemma v2rayN_lines : forall url lines,
  (forall item, In item lines -> v2rayN_versioned item = true) ->
  exists nodes : list NodeConfig, exists result : list (option NodeConfig),
    mapM (v2rayNLine url) lines
    = (flat_map v2rayN_warning (List.filter v2rayN_unsupported lines),
       Returned result)
    /\ keep_non_null result = nodes
    /\ mapM (v2rayNLine url)
         (List.filter (fun item => negb (v2rayN_unsupported item)) lines)
       = ([], Returned (map Some nodes))
    /\ (List.length nodes + List.length (List.filter v2rayN_unsupported lines)
        = List.length lines)%nat.
Proof.
  intros url lines. induction lines as [| item lines IH]; intros Hall.
  - exists [], []. repeat split; reflexivity.
  - destruct IH as [nodes [result [Hmap [Hkeep [Hkept Hlen]]]]].
    { intros i Hi. apply Hall. right. exact Hi. }
    assert (Hitem : v2rayN_versioned item = true)
      by (apply Hall; left; reflexivity).
    simpl. destruct (v2rayN_unsupported item) eqn:Hnet; simpl.
    + rewrite (v2rayNLine_unsupported url item Hitem Hnet).
      rewrite Hmap. exists nodes, (None :: result). simpl.
      rewrite app_nil_r.
      repeat split; [exact Hkeep | exact Hkept | lia].
    + destruct (v2rayNLine_supported url item Hitem Hnet) as [node Hnode].
      rewrite Hnode, Hmap, Hkept. exists (node :: nodes), (Some node :: result).
      simpl. rewrite app_nil_r.
      repeat split; [rewrite Hkeep; reflexivity | lia].
Qed.

(** C6.  In a V2RayN payload whose [vmess://] lines all pass the version
    check, each line whose [net] is [kcp] or [http] is dropped with a warning
    on the console and the decoding goes on: the decoder returns the nodes of
    the other lines, exactly as it decodes them when the unsupported lines
    are not there; there are as many nodes fewer than lines as there are
    unsupported lines, so strictly fewer as soon as there is one. *)
Theorem getV2rayNSubscription_drops_unsupported_networks :
  forall (url response : string),
    url <> "" ->
    (forall item, In item (v2rayN_configList response) ->
                  v2rayN_versioned item = true) ->
    exists nodes : list NodeConfig,
      getV2rayNSubscription url response
      = (flat_map v2rayN_warning
           (List.filter v2rayN_unsupported (v2rayN_configList response)),
         Returned nodes)
      /\ mapM (v2rayNLine url)
           (List.filter (fun item => negb (v2rayN_unsupported item))
              (v2rayN_configList response))
         = ([], Returned (map Some nodes))
      /\ (List.length nodes
          + List.length (List.filter v2rayN_unsupported (v2rayN_configList response))
          = List.length (v2rayN_configList response))%nat
      /\ (forall item,
             In item (v2rayN_configList response) ->
             v2rayN_unsupported item = true ->
             (List.length nodes < List.length (v2rayN_configList response))%nat
             /\ v2rayN_warning item <> []
             /\ (forall e, In e (v2rayN_warning item) ->
                           In e (events (getV2rayNSubscription url response)))).
Proof.
  intros url response Hurl Hall.
  destruct (v2rayN_lines url (v2rayN_configList response) Hall)
    as [nodes [result [Hmap [Hkeep [Hkept Hlen]]]]].
  assert (Hrun : getV2rayNSubscription url response
                 = (flat_map v2rayN_warning
                      (List.filter v2rayN_unsupported
                         (v2rayN_configList response)),
                    Returned nodes)).
  { unfold getV2rayNSubscription.
    destruct (String.eqb url "") eqn:E;
      [apply String.eqb_eq in E; contradiction |].
    rewrite Hmap. simpl. rewrite app_nil_r. rewrite Hkeep. reflexivity. }
  exists nodes.
  split; [exact Hrun |]. split; [exact Hkept |]. split; [exact Hlen |].
  intros item Hitem Hnet.
  assert (Hin : In item (List.filter v2rayN_unsupported
                           (v2rayN_configList response)))
    by (apply filter_In; split; assumption).
  split; [| split].
  - destruct (List.filter v2rayN_unsupported (v2rayN_configList response));
      [contradiction | simpl in Hlen; lia].
  - unfold v2rayN_warning. unfold v2rayN_unsupported in Hnet.
    destruct (v2rayN_json item); discriminate.
  - intros e He. rewrite Hrun. simpl. apply in_flat_map.
    exists item. split; [exact Hin | exact He].
Qed.

(** ** C8: the SIP002 round trip *)

(** C8.  Decoding a subscription that holds the URI
    [ss://<urlsafe_b64("aes-256-gcm:pwd")>@1.2.3.4:8388#Test], encoding the
    node with the Shadowsocks URI encoder and decoding the URI it writes
    gives a node with the original method, password, host name, port and
    node name. *)
Theorem sip002_round_trip :
  exists (n1 n2 : NodeConfig) (uri : string),
    getShadowsocksSubscription sample_url JUndefined (toBase64 sip002_sample)
    = ret [n1]
    /\ getShadowsocksNodes [n1] None = ret uri
    /\ getShadowsocksSubscription sample_url JUndefined (toBase64 uri)
       = ret [n2]
    /\ (field n1 "method" = JStr "aes-256-gcm"
        /\ field n1 "password" = JStr "pwd"
        /\ field n1 "hostname" = JStr "1.2.3.4"
        /\ field n1 "port" = JStr "8388"
        /\ field n1 "nodeName" = JStr "Test")
    /\ (field n2 "method" = field n1 "method"
        /\ field n2 "password" = field n1 "password"
        /\ field n2 "hostname" = field n1 "hostname"
        /\ field n2 "port" = field n1 "port"
        /\ field n2 "nodeName" = field n1 "nodeName")
    /\ uri = "ss://YWVzLTI1Ni1nY206cHdk@1.2.3.4:8388/?group=Surgio#Test".
Proof.
  eexists. eexists. eexists.
  split; [vm_compute; reflexivity |].
  split; [vm_compute; reflexivity |].
  split; [vm_compute; reflexivity |].
  vm_compute. repeat split.
Qed.

(** ** C5: [udp-relay] in Quantumult X *)

(** C5, at a VMess node whose [udp] is [false]: the line says
    [udp-relay=true]. *)
Theorem quantumultX_vmess_udp_false :
  getQuantumultXNodes [sample_vmess_udp_false] (FValue JUndefined)
  = ret "vmess=1.2.3.4:443, method=chacha20-ietf-poly1305, password=1386f85e-657b-4d6e-9d56-78badb75e1fd, udp-relay=true, tag=US".
Proof. vm_compute. reflexivity. Qed.

(** ** C4: optional boolean flags *)


















(** ** Further properties of the decoders and serializers *)

Lemma mapM_throws :
  forall {A B} (f : A -> M B) (l : list A) (x : A) es err,
    In x l -> f x = (es, Thrown err) ->
    exists es' err', mapM f l = (es', Thrown err').
Proof.
  intros A B f l x es err. induction l as [| y l IH]; intros Hin Hx.
  - contradiction.
  - simpl. destruct (f y) as [es1 [b | err1]] eqn:Hy.
    + destruct Hin as [-> | Hin]; [rewrite Hx in Hy; discriminate |].
      destruct (IH Hin Hx) as [es2 [err2 H2]]. rewrite H2.
      exists (es1 ++ es2), err2. reflexivity.
    + exists es1, err1. reflexivity.
Qed.

(** X2.  A [vmess://] line that fails the version check (its payload is not
    JSON, is [null], or has a [v] that is missing or not [2]) is fatal for
    the whole decode: no node of the payload is returned. *)
Theorem getV2rayNSubscription_version_check_is_fatal :
  forall (url response item : string),
    In item (v2rayN_configList response) ->
    v2rayN_versioned item = false ->
    exists es err, getV2rayNSubscription url response = (es, Thrown err).
Proof.
  intros url response item Hin Hversion.
  unfold getV2rayNSubscription.
  destruct (String.eqb url ""); [eexists; eexists; reflexivity |].
  assert (Hline : exists es err, v2rayNLine url item = (es, Thrown err)).
  { unfold v2rayN_versioned in Hversion. unfold v2rayNLine.
    fold (v2rayN_json item).
    destruct (v2rayN_json item) as [json |];
      [| eexists; eexists; reflexivity].
    destruct json as [| | b | z | | t | elems | o];
      try (eexists; eexists; reflexivity);
      apply andb_false_iff in Hversion;
      (destruct Hversion as [H | H]; rewrite H; simpl;
       [| rewrite orb_true_r]; eexists; eexists; reflexivity). }
  destruct Hline as [es [err Hline]].
  destruct (mapM_throws (v2rayNLine url) _ item es err Hin Hline)
    as [es' [err' Hmap]].
  rewrite Hmap. exists es', err'. reflexivity.
Qed.

(** X3.  The Clash object of an enabled Shadowsocks node whose [obfs] is
    [wss] or [ws] uses the plugin [v2ray-plugin], with [plugin-opts.tls] set
    to [true] for [wss] and to [false] for [ws]. *)
Theorem clash_shadowsocks_websocket_tls :
  forall (n : NodeConfig) (secure : bool),
    type n = Shadowsocks ->
    disabled n = false ->
    field n "obfs" = JStr (if secure then "wss" else "ws") ->
    exists (o opts : Obj),
      clashNode n = ret (Some o)
      /\ get o "plugin" = JStr "v2ray-plugin"
      /\ get o "plugin-opts" = JObj opts
      /\ get opts "mode" = JStr "websocket"
      /\ get opts "tls" = JBool secure.
Proof.
  intros n secure Htype Henabled Hobfs.
  unfold clashNode. rewrite Henabled, Htype. unfold field in *.
  rewrite Hobfs.
  destruct secure; unfold spread_if; simpl;
    destruct (is_boolean (get (props n) "skipCertVerify")); simpl;
    (eexists; eexists; split; [reflexivity |]); simpl;
    repeat split.
Qed.

(** X4.  [normalizeClashProxyGroupConfig] throws as soon as an entry of the
    proxy group modifier has a [filter] property that is falsy ([null],
    [undefined]) or that [validateFilter] rejects: the check for a [null]
    filter is made here, before [applyFilter] is reached. *)
Theorem normalizeClashProxyGroupConfig_rejects_filter :
  forall nodeList customFilters proxyGroupModifier proxyTestUrl
         proxyTestInterval (item : GroupItem) (filter : Filter),
    In item (proxyGroupModifier nodeList customFilters) ->
    item_filter item = Some filter ->
    filter_truthy filter = false \/ validateFilter filter = false ->
    exists es err,
      normalizeClashProxyGroupConfig nodeList customFilters proxyGroupModifier
        proxyTestUrl proxyTestInterval
      = (es, Thrown err).
Proof.
  intros nodeList customFilters proxyGroupModifier proxyTestUrl
    proxyTestInterval item filter Hin Hfilter Hbad.
  unfold normalizeClashProxyGroupConfig.
  apply (mapM_throws _ _ item []
           ("过滤器 " +:+ filter_toString filter
              +:+ " 无效，请检查 proxyGroupModifier") Hin).
  rewrite Hfilter.
  destruct Hbad as [H | H]; rewrite H; simpl;
    [| rewrite orb_true_r]; reflexivity.
Qed.

(** ** The Clash rule filter on well-formed rule lines *)

Lemma append_nil_r : forall s : string, s +:+ "" = s.
Proof.
  induction s as [| c s IH]; simpl; [reflexivity | rewrite IH; reflexivity].
Qed.

Lemma replace_unfold : forall pat rep s,
  replace pat rep s
  = if is_prefix pat s then rep +:+ drop (String.length pat) s
    else match s with
         | "" => ""
         | String c s' => String c (replace pat rep s')
         end.
Proof. intros pat rep s. destruct s; reflexivity. Qed.

(** A pattern without the character [c] that matches at the head of
    [s ++ c ++ rest] matches inside [s]. *)
Lemma prefix_app_stop : forall q s c rest,
  all_chars (fun y => negb (Ascii.eqb y c)) q = true ->
  is_prefix q (s +:+ String c rest) = true ->
  is_prefix q s = true.
Proof.
  induction q as [| x q IH]; intros s c rest Hq Hp; [reflexivity |].
  simpl in Hq. apply andb_true_iff in Hq. destruct Hq as [Hx Hq].
  destruct s as [| y s]; simpl in *.
  - apply andb_true_iff in Hp. destruct Hp as [Hp _].
    rewrite Hp in Hx. discriminate.
  - apply andb_true_iff in Hp. destruct Hp as [Hxy Hp].
    rewrite Hxy. exact (IH s c rest Hq Hp).
Qed.

Lemma occurs_cons_false : forall pat c s,
  occurs pat (String c s) = false ->
  is_prefix pat (String c s) = false /\ occurs pat s = false.
Proof.
  intros pat c s H. cbn [occurs] in H. apply orb_false_iff in H. exact H.
Qed.

Lemma unmatched_stop : forall pat a c rest,
  all_chars (fun y => negb (Ascii.eqb y c)) pat = true ->
  occurs pat a = false ->
  unmatched pat a (String c rest) = true.
Proof.
  intros pat a c rest Hpat. induction a as [| x a IH]; intros Hocc;
    [reflexivity |].
  apply occurs_cons_false in Hocc. destruct Hocc as [Hp Hocc].
  cbn [unmatched]. rewrite (IH Hocc), andb_true_r.
  destruct (is_prefix pat (String x a +:+ String c rest)) eqn:E;
    [| reflexivity].
  apply (prefix_app_stop pat (String x a) c rest Hpat) in E.
  rewrite E in Hp. discriminate.
Qed.

Lemma unmatched_nil : forall pat a,
  occurs pat a = false -> unmatched pat a "" = true.
Proof.
  intros pat a. induction a as [| x a IH]; intros Hocc; [reflexivity |].
  apply occurs_cons_false in Hocc. destruct Hocc as [Hp Hocc].
  cbn [unmatched]. rewrite (IH Hocc), andb_true_r, append_nil_r.
  rewrite Hp. reflexivity.
Qed.

(** The pattern [,no-resolve] does not overlap itself. *)
Lemma unmatched_no_resolve : forall a rest,
  occurs ",no-resolve" a = false ->
  unmatched ",no-resolve" a (",no-resolve" +:+ rest) = true.
Proof.
  intros a rest. induction a as [| x a IH]; intros Hocc; [reflexivity |].
  apply occurs_cons_false in Hocc. destruct Hocc as [Hp Hocc].
  cbn [unmatched]. rewrite (IH Hocc), andb_true_r.
  destruct (is_prefix ",no-resolve"
              (String x a +:+ ",no-resolve" +:+ rest)) eqn:E; [| reflexivity].
  exfalso.
  cbn [is_prefix String.append] in E, Hp.
  apply andb_true_iff in E. destruct E as [Hx E]. rewrite Hx in Hp.
  change (",no-resolve" +:+ rest) with (String "," ("no-resolve" +:+ rest)) in E.
  apply (prefix_app_stop "no-resolve" a "," ("no-resolve" +:+ rest) eq_refl)
    in E.
  cbn [is_prefix] in E. rewrite E in Hp. discriminate.
Qed.

Lemma replace_app : forall pat rep a b,
  unmatched pat a b = true ->
  replace pat rep (a +:+ b) = a +:+ replace pat rep b.
Proof.
  intros pat rep a b. induction a as [| x a IH]; intros H; [reflexivity |].
  cbn [unmatched] in H. apply andb_true_iff in H. destruct H as [Hp H].
  apply negb_true_iff in Hp.
  rewrite replace_unfold. rewrite Hp. cbn [String.append].
  rewrite (IH H). reflexivity.
Qed.

Lemma replace_absent : forall pat rep s,
  occurs pat s = false -> replace pat rep s = s.
Proof.
  intros pat rep s H.
  rewrite <- (append_nil_r s) at 1.
  rewrite (replace_app pat rep s "" (unmatched_nil pat s H)).
  rewrite replace_unfold.
  destruct s as [| c s].
  - simpl in H. apply orb_false_iff in H. destruct H as [H _]. rewrite H.
    reflexivity.
  - destruct pat as [| p pat]; [discriminate H |].
    simpl. rewrite append_nil_r. reflexivity.
Qed.

Lemma strip_comment_app : forall a b,
  unmatched "//" a b = true ->
  strip_comment (a +:+ b) = a +:+ strip_comment b.
Proof.
  intros a b. induction a as [| x a IH]; intros H; [reflexivity |].
  cbn [unmatched] in H. apply andb_true_iff in H. destruct H as [Hp H].
  apply negb_true_iff in Hp.
  cbn [String.append strip_comment]. cbn [String.append] in Hp.
  rewrite Hp. cbn [andb]. rewrite (IH H). reflexivity.
Qed.

Lemma trimEnd_cons : forall c s,
  trimEnd s <> "" -> trimEnd (String c s) = String c (trimEnd s).
Proof.
  intros c s H. cbn [trimEnd]. destruct (trimEnd s); [contradiction |].
  reflexivity.
Qed.

Lemma trimEnd_app_space : forall s, trimEnd (s +:+ " ") = trimEnd s.
Proof.
  induction s as [| c s IH]; [reflexivity |].
  cbn [String.append trimEnd]. rewrite IH. reflexivity.
Qed.

Lemma trimEnd_head : forall c s,
  is_ws c = false -> trimEnd (String c s) <> "".
Proof.
  intros c s H. cbn [trimEnd]. destruct (trimEnd s); [rewrite H |];
    discriminate.
Qed.

Lemma unmatched_dash : forall p pat rule b,
  Ascii.eqb p "-" = false ->
  Ascii.eqb p " " = false ->
  unmatched (String p pat) rule b = true ->
  unmatched (String p pat) ("- " +:+ rule) b = true.
Proof.
  intros p pat rule b H1 H2 H.
  cbn [String.append unmatched is_prefix]. rewrite H1, H2, H. reflexivity.
Qed.

Lemma trim_dash_rule : forall rule,
  rule <> "" -> trimEnd rule = rule -> trim ("- " +:+ rule) = "- " +:+ rule.
Proof.
  intros rule Hne Htrim. unfold trim. cbn [String.append trimStart].
  change (is_ws "-") with false. cbv iota.
  rewrite trimEnd_cons.
  - rewrite trimEnd_cons; rewrite Htrim; [reflexivity | exact Hne].
  - rewrite trimEnd_cons; rewrite Htrim; [discriminate | exact Hne].
Qed.

Lemma trim_dash_rule_space : forall rule,
  rule <> "" -> trimEnd rule = rule ->
  trim (("- " +:+ rule) +:+ " ") = "- " +:+ rule.
Proof.
  intros rule Hne Htrim. unfold trim. cbn [String.append trimStart].
  change (is_ws "-") with false. cbv iota.
  change (String "-" (String " " (rule +:+ " ")))
    with (String "-" (String " " rule) +:+ " ").
  rewrite trimEnd_app_space.
  rewrite trimEnd_cons.
  - rewrite trimEnd_cons; rewrite Htrim; [reflexivity | exact Hne].
  - rewrite trimEnd_cons; rewrite Htrim; [discriminate | exact Hne].
Qed.

(** X5.  A rule line made of a rule, an optional [,no-resolve] suffix and an
    optional trailing comment [ //...] is written as ['- '] followed by the
    rule alone, when the rule is ASCII text, is not empty, starts neither
    with [#] nor with white space, ends with no white space and holds
    neither [,no-resolve] nor [//], and the comment holds no line terminator
    and no [,no-resolve]. *)
Theorem clashLine_rule_line :
  forall (rule comment : string) (no_resolve commented : bool),
    rule <> "" ->
    ascii_text rule = true ->
    startsWith rule "#" = false ->
    trim rule = rule ->
    occurs ",no-resolve" rule = false ->
    occurs "//" rule = false ->
    has_line_terminator comment = false ->
    occurs ",no-resolve" comment = false ->
    clashLine (rule +:+ (if no_resolve then ",no-resolve" else "")
                 +:+ (if commented then " //" +:+ comment else ""))
    = "- " +:+ rule.
Proof.
  intros rule comment no_resolve commented Hne _ Hhash Htrim Hnr Hsl Hlt Hcnr.
  (* the rule starts with a character that is not white space *)
  destruct rule as [| c r]; [contradiction |].
  assert (Hws : is_ws c = false).
  { destruct (is_ws c) eqn:E; [| reflexivity].
    exfalso. unfold trim in Htrim. cbn [trimStart] in Htrim.
    rewrite E in Htrim.
    assert (Hlen : forall s, String.length (trimStart s) <= String.length s).
    { induction s as [| x s IH]; simpl; [lia |].
      destruct (is_ws x); simpl; lia. }
    assert (Hlen' : forall s, String.length (trimEnd s) <= String.length s).
    { induction s as [| x s IH]; simpl; [lia |].
      destruct (trimEnd s); [destruct (is_ws x) |]; simpl in *; lia. }
    pose proof (Hlen r) as H1. pose proof (Hlen' (trimStart r)) as H2.
    rewrite Htrim in H2. simpl in H2. lia. }
  assert (HtrimEnd : trimEnd (String c r) = String c r).
  { unfold trim in Htrim. cbn [trimStart] in Htrim. rewrite Hws in Htrim.
    exact Htrim. }
  remember (String c r) as rule eqn:Hrule.
  remember (if no_resolve then ",no-resolve" else "") as nr eqn:Hnrdef.
  remember (if commented then " //" +:+ comment else "") as cm eqn:Hcm.
  unfold clashLine.
  (* the line is neither a comment nor blank *)
  assert (Hstart : startsWith (rule +:+ nr +:+ cm) "#" = false).
  { subst rule. unfold startsWith in *. cbn [String.append is_prefix] in *.
    destruct (Ascii.eqb "#" c); [discriminate | reflexivity]. }
  assert (Hblank : String.eqb (trim (rule +:+ nr +:+ cm)) "" = false).
  { subst rule. unfold trim. cbn [String.append trimStart]. rewrite Hws.
    pose proof (trimEnd_head c (r +:+ nr +:+ cm) Hws) as H.
    destruct (trimEnd (String c (r +:+ nr +:+ cm)));
      [contradiction | reflexivity]. }
  rewrite Hstart, Hblank. cbn [orb].
  (* facts about the prefixed rule *)
  assert (HAnr : occurs ",no-resolve" ("- " +:+ rule) = false).
  { cbn [String.append occurs is_prefix]. rewrite Hnr. reflexivity. }
  assert (HAsl : occurs "//" ("- " +:+ rule) = false).
  { cbn [String.append occurs is_prefix]. rewrite Hsl. reflexivity. }
  assert (Hcut : strip_comment (("- " +:+ rule) +:+ cm)
                 = ("- " +:+ rule) +:+ (if commented then " " else "")).
  { subst cm. destruct commented.
    - rewrite strip_comment_app
        by (apply unmatched_stop; [reflexivity | exact HAsl]).
      cbn [String.append strip_comment is_prefix drop].
      rewrite Hlt. reflexivity.
    - rewrite strip_comment_app by (apply unmatched_nil; exact HAsl).
      reflexivity. }
  assert (Hrep : replace ",no-resolve" "" ("- " +:+ rule +:+ nr +:+ cm)
                 = ("- " +:+ rule) +:+ cm).
  { change ("- " +:+ rule +:+ nr +:+ cm)
      with (("- " +:+ rule) +:+ nr +:+ cm).
    subst nr. destruct no_resolve.
    - rewrite replace_app.
      + rewrite replace_unfold. reflexivity.
      + apply unmatched_dash; [reflexivity | reflexivity |].
        apply unmatched_no_resolve. exact Hnr.
    - change ("" +:+ cm) with cm. subst cm. destruct commented.
      + rewrite replace_app
          by (apply unmatched_stop; [reflexivity | exact HAnr]).
        rewrite replace_absent; [reflexivity |].
        cbn [String.append occurs is_prefix]. rewrite Hcnr. reflexivity.
      + rewrite append_nil_r. rewrite replace_absent by exact HAnr.
        reflexivity. }
  rewrite Hrep, Hcut.
  destruct commented.
  - apply trim_dash_rule_space; [subst rule; discriminate | exact HtrimEnd].
  - rewrite append_nil_r.
    apply trim_dash_rule; [subst rule; discriminate | exact HtrimEnd].
Qed.

(** A line that starts with [#] and a blank line are written as they
    are. *)
Lemma clashLine_comment_or_blank :
  forall item : string,
    startsWith item "#" = true \/ trim item = "" ->
    clashLine item = item.
Proof.
  intros item [H | H]; unfold clashLine; rewrite H; [reflexivity |].
  rewrite orb_true_r. reflexivity.
Qed.

(** ** The codec primitives *)

(** Arithmetic on bytes: the quotients and remainders of the goal are
    named by their defining equations. *)
Ltac pose_div_mod :=
  repeat match goal with
         | |- context [Nat.div ?a ?b] =>
             lazymatch goal with
             | _ : a = (b * (a / b) + a mod b)%nat |- _ => fail
             | _ => pose proof (Nat.div_mod_eq a b);
                    pose proof (Nat.mod_upper_bound a b ltac:(discriminate))
             end
         | |- context [Nat.modulo ?a ?b] =>
             lazymatch goal with
             | _ : a = (b * (a / b) + a mod b)%nat |- _ => fail
             | _ => pose proof (Nat.div_mod_eq a b);
                    pose proof (Nat.mod_upper_bound a b ltac:(discriminate))
             end
         end.

Ltac byte_arith := intros; pose_div_mod; lia.

Lemma string_ind3 :
  forall P : string -> Prop,
    P "" ->
    (forall a, P (String a "")) ->
    (forall a b, P (String a (String b ""))) ->
    (forall a b c s, P s -> P (String a (String b (String c s)))) ->
    forall s, P s.
Proof.
  intros P H0 H1 H2 H3.
  assert (H : forall s,
             P s /\ (forall a, P (String a s))
             /\ (forall a b, P (String a (String b s)))).
  { induction s as [| c s [IH0 [IH1 IH2]]].
    - split; [exact H0 | split; [exact H1 | exact H2]].
    - split; [apply IH1 | split; [intros a; apply IH2 |]].
      intros a b. apply H3. exact IH0. }
  intros s. apply H.
Qed.

Lemma chr_nat_of_ascii : forall a, chr (nat_of_ascii a) = a.
Proof. intros a. unfold chr. apply ascii_nat_embedding. Qed.

Lemma byte_bound : forall a, (nat_of_ascii a < 256)%nat.
Proof. intros a. apply nat_ascii_bounded. Qed.

(** A property of characters holds when it holds of the 256 of them. *)
Lemma for_all_bytes :
  forall p q : ascii -> bool,
    forallb (fun n => implb (p (chr n)) (q (chr n))) (seq 0 256) = true ->
    forall c, p c = true -> q c = true.
Proof.
  intros p q H c Hp. rewrite forallb_forall in H.
  specialize (H (nat_of_ascii c)). rewrite chr_nat_of_ascii, Hp in H.
  apply H. apply in_seq. pose proof (byte_bound c). lia.
Qed.

Ltac all_bytes p q :=
  apply (for_all_bytes p q); vm_compute; reflexivity.

Lemma unbase64_b64_char :
  forall n, (n < 64)%nat ->
    unbase64 (b64_char n) = Some n /\ Ascii.eqb (b64_char n) (chr 61) = false.
Proof.
  intros n Hn.
  do 64 (destruct n as [| n]; [split; vm_compute; reflexivity |]).
  lia.
Qed.

Lemma sextets_b64_char :
  forall n r, (n < 64)%nat -> sextets (String (b64_char n) r) = n :: sextets r.
Proof.
  intros n r Hn. destruct (unbase64_b64_char n Hn) as [Hu He].
  cbn [sextets]. rewrite He, Hu. reflexivity.
Qed.

Lemma sextets_pad : forall r, sextets (String (chr 61) r) = [].
Proof. reflexivity. Qed.

Lemma fromBase64_of_toBase64 : forall s : string, fromBase64 (toBase64 s) = s.
Proof.
  unfold fromBase64.
  induction s as [| a | a b | a b c s IH] using string_ind3.
  - reflexivity.
  - pose proof (byte_bound a) as Ha.
    cbn [toBase64]. cbv zeta.
    rewrite !sextets_b64_char by byte_arith.
    change "==" with (String (chr 61) "="). rewrite sextets_pad.
    cbn [bytes_of_sextets]. unfold str1.
    replace (nat_of_ascii a / 4 * 4 + nat_of_ascii a mod 4 * 16 / 16)%nat
      with (nat_of_ascii a) by byte_arith.
    rewrite chr_nat_of_ascii. reflexivity.
  - pose proof (byte_bound a) as Ha. pose proof (byte_bound b) as Hb.
    cbn [toBase64]. cbv zeta.
    rewrite !sextets_b64_char by byte_arith.
    change "=" with (String (chr 61) ""). rewrite sextets_pad.
    cbn [bytes_of_sextets]. unfold str1.
    replace (nat_of_ascii a / 4 * 4
             + (nat_of_ascii a mod 4 * 16 + nat_of_ascii b / 16) / 16)%nat
      with (nat_of_ascii a) by byte_arith.
    replace ((nat_of_ascii a mod 4 * 16 + nat_of_ascii b / 16) mod 16 * 16
             + nat_of_ascii b mod 16 * 4 / 4)%nat
      with (nat_of_ascii b) by byte_arith.
    rewrite !chr_nat_of_ascii. reflexivity.
  - pose proof (byte_bound a) as Ha. pose proof (byte_bound b) as Hb.
    pose proof (byte_bound c) as Hc.
    cbn [toBase64]. cbv zeta.
    rewrite !sextets_b64_char by byte_arith.
    cbn [bytes_of_sextets].
    replace (nat_of_ascii a / 4 * 4
             + (nat_of_ascii a mod 4 * 16 + nat_of_ascii b / 16) / 16)%nat
      with (nat_of_ascii a) by byte_arith.
    replace ((nat_of_ascii a mod 4 * 16 + nat_of_ascii b / 16) mod 16 * 16
             + (nat_of_ascii b mod 16 * 4 + nat_of_ascii c / 64) / 4)%nat
      with (nat_of_ascii b) by byte_arith.
    replace ((nat_of_ascii b mod 16 * 4 + nat_of_ascii c / 64) mod 4 * 64
             + nat_of_ascii c mod 64)%nat
      with (nat_of_ascii c) by byte_arith.
    rewrite !chr_nat_of_ascii, IH. reflexivity.
Qed.

Lemma sextets_String :
  forall c r,
    sextets (String c r)
    = if Ascii.eqb c (chr 61) then []
      else match unbase64 c with
           | Some n => n :: sextets r
           | None => sextets r
           end.
Proof. reflexivity. Qed.

Lemma replaceAllChar_String :
  forall c rep d s,
    replaceAllChar c rep (String d s)
    = (if Ascii.eqb d c then rep else str1 d) +:+ replaceAllChar c rep s.
Proof. reflexivity. Qed.

Lemma sextets_replaceAllChar :
  forall c d t,
    unbase64 c = unbase64 d ->
    Ascii.eqb c (chr 61) = false ->
    Ascii.eqb d (chr 61) = false ->
    sextets (replaceAllChar c (str1 d) t) = sextets t.
Proof.
  intros c d t Hu Hc Hd. induction t as [| a t IH]; [reflexivity |].
  rewrite replaceAllChar_String. destruct (Ascii.eqb a c) eqn:E.
  - apply Ascii.eqb_eq in E. subst a.
    unfold str1 at 1. cbn [String.append].
    rewrite !sextets_String, Hc, Hd, IH, Hu. reflexivity.
  - unfold str1 at 1. cbn [String.append].
    rewrite !sextets_String, IH. reflexivity.
Qed.

Lemma sextets_repeat_pad : forall k, sextets (repeat_string k "=") = [].
Proof. intros [| k]; reflexivity. Qed.

Lemma sextets_stripPadding :
  forall t k, sextets (stripPadding t +:+ repeat_string k "=") = sextets t.
Proof.
  induction t as [| c t IH]; intros k.
  - apply sextets_repeat_pad.
  - cbn [stripPadding]. destruct (stripPadding t) as [| d r] eqn:E.
    + pose proof (IH 0%nat) as H0. cbn in H0.
      destruct (Ascii.eqb c (chr 61)) eqn:Ec.
      * cbn [String.append]. rewrite sextets_String, Ec.
        apply sextets_repeat_pad.
      * unfold str1. cbn [String.append]. rewrite !sextets_String, Ec.
        rewrite sextets_repeat_pad, <- H0. reflexivity.
    + cbn [String.append]. rewrite (sextets_String c), (sextets_String c t).
      specialize (IH k). cbn [String.append] in IH. rewrite IH. reflexivity.
Qed.

Lemma fromUrlSafeBase64_of_toUrlSafeBase64 :
  forall s : string, fromUrlSafeBase64 (toUrlSafeBase64 s) = s.
Proof.
  intros s.
  assert (Hstrip : forall k,
             sextets (toUrlSafeBase64 s +:+ repeat_string k "=")
             = sextets (toBase64 s)).
  { intros k. unfold toUrlSafeBase64. rewrite sextets_stripPadding.
    rewrite (sextets_replaceAllChar (chr 47) (chr 95)) by reflexivity.
    apply (sextets_replaceAllChar (chr 43) (chr 45)); reflexivity. }
  unfold fromUrlSafeBase64.
  destruct (URLSafeBase64_validate (toUrlSafeBase64 s)).
  - unfold URLSafeBase64_decode, fromBase64.
    rewrite (sextets_replaceAllChar (chr 95) (chr 47)) by reflexivity.
    rewrite (sextets_replaceAllChar (chr 45) (chr 43)) by reflexivity.
    rewrite Hstrip. apply fromBase64_of_toBase64.
  - unfold fromBase64. specialize (Hstrip 0%nat). cbn [repeat_string] in Hstrip.
    rewrite append_nil_r in Hstrip. rewrite Hstrip. apply fromBase64_of_toBase64.
Qed.

Lemma stripPadding_String :
  forall c t,
    stripPadding (String c t)
    = match stripPadding t with
      | "" => if Ascii.eqb c (chr 61) then "" else str1 c
      | r => String c r
      end.
Proof. reflexivity. Qed.

Lemma all_chars_stripPadding_cons :
  forall p c t,
    all_chars p (stripPadding t) = true ->
    p c = true ->
    all_chars p (stripPadding (String c t)) = true.
Proof.
  intros p c t Ht Hc. rewrite stripPadding_String.
  destruct (stripPadding t) as [| d r].
  - destruct (Ascii.eqb c (chr 61)); [reflexivity |].
    unfold str1. cbn [all_chars]. rewrite Hc. reflexivity.
  - cbn [all_chars] in *. rewrite Hc, Ht. reflexivity.
Qed.

(** The two replacements of the URL-safe alphabet. *)
Lemma urlsafe_b64_char :
  forall n t, (n < 64)%nat ->
    exists c,
      replaceAllChar (chr 47) "_" (replaceAllChar (chr 43) "-" (String (b64_char n) t))
      = String c (replaceAllChar (chr 47) "_" (replaceAllChar (chr 43) "-" t))
      /\ urlsafe_char c = true.
Proof.
  intros n t Hn.
  do 64 (destruct n as [| n]; [eexists; split; reflexivity |]).
  lia.
Qed.

Lemma toUrlSafeBase64_chars :
  forall s : string, all_chars urlsafe_char (toUrlSafeBase64 s) = true.
Proof.
  unfold toUrlSafeBase64.
  assert (Hstep : forall n t,
             (n < 64)%nat ->
             all_chars urlsafe_char
               (stripPadding
                  (replaceAllChar (chr 47) "_" (replaceAllChar (chr 43) "-" t)))
             = true ->
             all_chars urlsafe_char
               (stripPadding
                  (replaceAllChar (chr 47) "_"
                     (replaceAllChar (chr 43) "-" (String (b64_char n) t))))
             = true).
  { intros n t Hn Ht. destruct (urlsafe_b64_char n t Hn) as [c [-> Hc]].
    apply all_chars_stripPadding_cons; assumption. }
  induction s as [| a | a b | a b c s IH] using string_ind3.
  - reflexivity.
  - pose proof (byte_bound a).
    cbn [toBase64]. cbv zeta.
    repeat (apply Hstep; [byte_arith |]). reflexivity.
  - pose proof (byte_bound a). pose proof (byte_bound b).
    cbn [toBase64]. cbv zeta.
    repeat (apply Hstep; [byte_arith |]). reflexivity.
  - pose proof (byte_bound a). pose proof (byte_bound b).
    pose proof (byte_bound c).
    cbn [toBase64]. cbv zeta.
    repeat (apply Hstep; [byte_arith |]). exact IH.
Qed.

(** X6.  [fromBase64] gives back every text [toBase64] was given (a text
    is the sequence of the bytes of its UTF-8 form). *)
Theorem fromBase64_toBase64 : forall s : string, fromBase64 (toBase64 s) = s.
Proof. exact fromBase64_of_toBase64. Qed.

(** X7.  [fromUrlSafeBase64] gives back every text [toUrlSafeBase64] was
    given: the padding [toUrlSafeBase64] removes and the two characters it
    replaces are restored. *)
Theorem fromUrlSafeBase64_toUrlSafeBase64 :
  forall s : string, fromUrlSafeBase64 (toUrlSafeBase64 s) = s.
Proof. exact fromUrlSafeBase64_of_toUrlSafeBase64. Qed.

(** X8.  The text [toUrlSafeBase64] returns holds only letters, digits,
    [-] and [_]: no [+], no [/] and no padding [=]. *)
Theorem toUrlSafeBase64_alphabet :
  forall s : string, all_chars urlsafe_char (toUrlSafeBase64 s) = true.
Proof. exact toUrlSafeBase64_chars. Qed.

(** ** Lines: [split] and [join] *)

Lemma split_String :
  forall sep c s,
    split sep (String c s)
    = if Ascii.eqb c sep then "" :: split sep s
      else match split sep s with
           | [] => [str1 c]
           | x :: xs => String c x :: xs
           end.
Proof. reflexivity. Qed.

Lemma split_not_nil : forall sep s, split sep s <> [].
Proof.
  intros sep s. destruct s as [| c s]; [discriminate |].
  rewrite split_String. destruct (Ascii.eqb c sep); [discriminate |].
  destruct (split sep s); discriminate.
Qed.

(** Splitting a text at one of its separators. *)
Lemma split_app :
  forall sep a b,
    split sep (a +:+ String sep b) = split sep a ++ split sep b.
Proof.
  intros sep a b. induction a as [| c a IH].
  - cbn [String.append]. rewrite split_String, Ascii.eqb_refl. reflexivity.
  - cbn [String.append]. rewrite !split_String, IH.
    destruct (Ascii.eqb c sep); [reflexivity |].
    pose proof (split_not_nil sep a) as Hne.
    destruct (split sep a) as [| x xs]; [contradiction | reflexivity].
Qed.

Lemma split_without_separator :
  forall sep s, indexOf sep s = None -> split sep s = [s].
Proof.
  intros sep s. induction s as [| c s IH]; intros H; [reflexivity |].
  cbn [indexOf] in H. rewrite split_String.
  destruct (Ascii.eqb c sep); [discriminate |].
  destruct (indexOf sep s); [discriminate |].
  rewrite (IH eq_refl). reflexivity.
Qed.

Lemma join_cons :
  forall sep x y l, join sep (x :: y :: l) = x +:+ sep +:+ join sep (y :: l).
Proof. reflexivity. Qed.

Lemma join_split : forall sep s, join (str1 sep) (split sep s) = s.
Proof.
  intros sep s. induction s as [| c s IH]; [reflexivity |].
  rewrite split_String. destruct (Ascii.eqb c sep) eqn:E.
  - apply Ascii.eqb_eq in E. subst c.
    pose proof (split_not_nil sep s) as Hne.
    destruct (split sep s) as [| x xs]; [contradiction |].
    rewrite join_cons, IH. reflexivity.
  - pose proof (split_not_nil sep s) as Hne.
    destruct (split sep s) as [| x xs]; [contradiction |].
    destruct xs as [| y ys].
    + cbn [join String.concat] in *. rewrite IH. reflexivity.
    + rewrite join_cons in *. cbn [String.append]. rewrite IH. reflexivity.
Qed.

Lemma split_join :
  forall sep l,
    l <> [] ->
    Forall (fun x => indexOf sep x = None) l ->
    split sep (join (str1 sep) l) = l.
Proof.
  intros sep l Hne Hall. induction Hall as [| x l Hx Hall IH];
    [contradiction |].
  destruct l as [| y l].
  - cbn [join String.concat]. apply split_without_separator. exact Hx.
  - rewrite join_cons. unfold str1 at 1. cbn [String.append].
    rewrite split_app, (split_without_separator sep x Hx), IH;
      [reflexivity | discriminate].
Qed.

(** ** The Clash rule filter on whole texts *)

Lemma is_prefix_nil_r : forall p, is_prefix p "" = true -> p = "".
Proof. intros [| c p]; [reflexivity | discriminate]. Qed.

(** X9.  A text made only of comment lines (lines that start with [#]) and
    blank lines comes out of [clashFilter] unchanged, when no unsupported
    rule prefix is empty or starts with [#]. *)
Theorem clashFilter_comments_and_blank_lines :
  forall str : string,
    Forall (fun s => s <> "" /\ startsWith s "#" = false)
      CLASH_UNSUPPORTED_RULE ->
    Forall (fun line => startsWith line "#" = true \/ trim line = "")
      (split LF str) ->
    clashFilter str = str.
Proof.
  intros str Hrules Hlines. unfold clashFilter.
  assert (Hkeep : forall line,
             startsWith line "#" = true \/ trim line = "" ->
             clashKeep line = true).
  { intros line Hline. unfold clashKeep. apply forallb_forall.
    intros s Hs. rewrite Forall_forall in Hrules.
    destruct (Hrules s Hs) as [Hne Hhash].
    apply negb_true_iff. unfold startsWith in *.
    destruct (is_prefix s (testString line)) eqn:E; [| reflexivity].
    exfalso. unfold testString in E.
    destruct Hline as [Hline | Hline].
    - destruct line as [| c line]; [discriminate |].
      cbn [is_prefix] in Hline. apply andb_true_iff in Hline.
      destruct Hline as [Hc _]. apply Ascii.eqb_eq in Hc. subst c.
      destruct (negb (String.eqb (String "#" line) "")
                && negb (String.eqb (trim (String "#" line)) ""));
        [| apply is_prefix_nil_r in E; contradiction].
      destruct s as [| x s]; [contradiction |].
      cbn [toUpperCase map_string is_prefix] in E, Hhash.
      change (upper_char "#") with "#"%char in E.
      apply andb_true_iff in E. destruct E as [E _].
      apply Ascii.eqb_eq in E. subst x. discriminate.
    - rewrite Hline in E. rewrite andb_false_r in E.
      apply is_prefix_nil_r in E. contradiction. }
  assert (Hfilter : List.filter clashKeep (split LF str) = split LF str).
  { induction Hlines as [| line l Hline Hl IH]; [reflexivity |].
    cbn [List.filter]. rewrite (Hkeep line Hline), IH. reflexivity. }
  rewrite Hfilter. clear Hfilter.
  assert (Hmap : map clashLine (split LF str) = split LF str).
  { induction Hlines as [| line l Hline Hl IH]; [reflexivity |].
    cbn [map]. rewrite IH. f_equal.
    unfold clashLine. destruct Hline as [-> | ->]; [reflexivity |].
    rewrite orb_true_r. reflexivity. }
  rewrite Hmap. apply join_split.
Qed.

(** X10.  A line whose upper-cased text starts with an unsupported rule
    prefix leaves no trace: [clashFilter] gives the same text with and
    without it. *)
Theorem clashFilter_unsupported_line_dropped :
  forall (before line after prefix : string),
    In prefix CLASH_UNSUPPORTED_RULE ->
    indexOf LF line = None ->
    trim line <> "" ->
    startsWith (toUpperCase line) prefix = true ->
    clashFilter (before +:+ NL +:+ line +:+ NL +:+ after)
    = clashFilter (before +:+ NL +:+ after).
Proof.
  intros before line after prefix Hin Hlf Hblank Hprefix.
  assert (Hdrop : clashKeep line = false).
  { unfold clashKeep. apply not_true_is_false. intros H.
    rewrite forallb_forall in H. specialize (H prefix Hin).
    apply negb_true_iff in H. unfold testString in H.
    destruct line as [| c line]; [contradiction Hblank; reflexivity |].
    apply String.eqb_neq in Hblank. rewrite Hblank in H.
    cbn [String.eqb negb andb] in H. rewrite Hprefix in H. discriminate. }
  unfold clashFilter, NL, str1. cbn [String.append].
  rewrite !split_app, (split_without_separator LF line Hlf).
  rewrite !filter_app. cbn [List.filter]. rewrite Hdrop. reflexivity.
Qed.

(** ** Filters in sequence, and the groups of a proxy group modifier *)

(** X11.  Two predicate filters applied one after the other select what
    their conjunction selects. *)
Theorem applyFilter_predicates_compose :
  forall (nodeList : list NodeConfig) (p q : NodeConfig -> bool),
    validateFilter (FFunction p) = true ->
    validateFilter (FFunction q) = true ->
    validateFilter (FFunction (fun n => p n && q n)) = true ->
    (nodes <- applyFilter nodeList (FFunction p) ;;
     applyFilter nodes (FFunction q))
    = applyFilter nodeList (FFunction (fun n => p n && q n)).
Proof.
  intros nodeList p q Hp Hq Hpq. unfold applyFilter.
  rewrite Hp, Hpq. cbn [filter_truthy negb andb].
  rewrite bind_ret_l, Hq. cbn [negb andb].
  rewrite filter_filter_andb. unfold ret. f_equal. f_equal.
  apply filter_ext. intros n.
  destruct (p n), (q n), (disabled n); reflexivity.
Qed.

Lemma applyFilter_returns :
  forall nodeList filter,
    filter_truthy filter && negb (validateFilter filter) = false ->
    exists nodes, applyFilter nodeList filter = ret nodes.
Proof.
  intros nodeList filter H. unfold applyFilter. rewrite H.
  eexists. reflexivity.
Qed.

Lemma mapM_ret :
  forall {A B} (f : A -> M B) (g : A -> B) (l : list A),
    (forall x, In x l -> f x = ret (g x)) ->
    mapM f l = ret (map g l).
Proof.
  intros A B f g l. induction l as [| x l IH]; intros H; [reflexivity |].
  cbn [mapM map]. rewrite (H x (or_introl eq_refl)), bind_ret_l.
  rewrite IH by (intros y Hy; apply H; right; exact Hy).
  rewrite bind_ret_l. reflexivity.
Qed.

(** X12.  When every [filter] property of the entries a proxy group
    modifier returns is a filter that [validateFilter] accepts,
    [normalizeClashProxyGroupConfig] prints nothing and returns one group per
    entry, in the order of the entries, each with the name and the type of
    its entry. *)
Theorem normalizeClashProxyGroupConfig_one_group_per_entry :
  forall nodeList customFilters proxyGroupModifier proxyTestUrl
         proxyTestInterval,
    (forall item filter,
        In item (proxyGroupModifier nodeList customFilters) ->
        item_filter item = Some filter ->
        filter_truthy filter = true /\ validateFilter filter = true) ->
    exists groups : list Obj,
      normalizeClashProxyGroupConfig nodeList customFilters proxyGroupModifier
        proxyTestUrl proxyTestInterval
      = ret groups
      /\ map (fun group => (get group "name", get group "type")) groups
         = map (fun item => (JStr (item_name item), JStr (item_type item)))
             (proxyGroupModifier nodeList customFilters).
Proof.
  intros nodeList customFilters proxyGroupModifier proxyTestUrl
    proxyTestInterval Hvalid.
  unfold normalizeClashProxyGroupConfig.
  set (items := proxyGroupModifier nodeList customFilters) in *.
  assert (Hgroup : forall name type options,
             filter_truthy (opt_filter options)
             && negb (validateFilter (opt_filter options)) = false ->
             exists group,
               generateClashProxyGroup name type nodeList (Some options)
               = ret group
               /\ get group "name" = JStr name
               /\ get group "type" = JStr type).
  { intros name type options Hok. unfold generateClashProxyGroup.
    destruct (applyFilter_returns nodeList (opt_filter options) Hok)
      as [nodes Hnodes].
    destruct (opt_existingProxies options) as [existing |];
      [destruct (filter_truthy (opt_filter options)) |];
      rewrite ?Hnodes, ?bind_ret_l;
      destruct (includes ["url-test"; "fallback"; "load-balance"] (JStr type));
      (eexists; split; [reflexivity | split; reflexivity]). }
  assert (Hitem : forall item,
             In item items ->
             exists group,
               match item_filter item with
               | Some filter =>
                   if negb (filter_truthy filter) || negb (validateFilter filter)
                   then throw ("过滤器 " +:+ filter_toString filter
                                 +:+ " 无效，请检查 proxyGroupModifier")
                   else
                     generateClashProxyGroup (item_name item) (item_type item)
                       nodeList
                       (Some (mkGroupOptions filter (item_proxies item)
                                proxyTestUrl proxyTestInterval))
               | None =>
                   generateClashProxyGroup (item_name item) (item_type item)
                     nodeList
                     (Some (mkGroupOptions (FValue JUndefined)
                              (item_proxies item) proxyTestUrl
                              proxyTestInterval))
               end = ret group
               /\ get group "name" = JStr (item_name item)
               /\ get group "type" = JStr (item_type item)).
  { intros item Hin. destruct (item_filter item) as [filter |] eqn:Hf.
    - destruct (Hvalid item filter Hin Hf) as [Ht Hv]. rewrite Ht, Hv.
      cbn [negb orb]. apply Hgroup. cbn [opt_filter]. rewrite Hv.
      apply andb_false_r.
    - apply Hgroup. reflexivity. }
  clearbody items. clear Hvalid.
  induction items as [| item items IH].
  - exists []. split; reflexivity.
  - destruct (Hitem item (or_introl eq_refl)) as [group [Hrun [Hname Htype]]].
    destruct IH as [groups [Hruns Hmap]];
      [intros x Hx; apply Hitem; right; exact Hx |].
    exists (group :: groups). split.
    + cbn [mapM]. rewrite Hrun, bind_ret_l, Hruns, bind_ret_l. reflexivity.
    + cbn [map]. rewrite Hname, Htype, Hmap. reflexivity.
Qed.

(** ** External programs in the Surge output *)

(** X13.  [getSurgeNodes] fails, with no text returned, as soon as one of
    the nodes it is to write is a ShadowsocksR node, or a VMess node that is
    not written in the native form, without [binPath]. *)
Theorem getSurgeNodes_requires_binPath :
  forall (nodeList : list NodeConfig) (filter : Filter)
         (nodes : list NodeConfig) (n : NodeConfig),
    applyFilter nodeList filter = ret nodes ->
    In n nodes ->
    type n = Shadowsocksr
    \/ (type n = Vmess
        /\ is_str (getv (field n "surgeConfig") "v2ray") "native" = false) ->
    truthy (field n "binPath") = false ->
    exists es err, getSurgeNodes nodeList filter = (es, Thrown err).
Proof.
  intros nodeList filter nodes n Hfilter Hin Htype Hbin.
  unfold getSurgeNodes. rewrite Hfilter, bind_ret_l.
  assert (Hn : exists err,
             (segs <- surgeSegs n ;; ret (option_map (surge_line n) segs))
             = ([], Thrown err)).
  { unfold surgeSegs.
    destruct Htype as [-> | [-> Hnative]]; [| rewrite Hnative];
      rewrite Hbin; eexists; reflexivity. }
  destruct Hn as [err Hn].
  destruct (mapM_throws
              (fun nodeConfig =>
                 segs <- surgeSegs nodeConfig ;;
                 ret (option_map (surge_line nodeConfig) segs))
              nodes n [] err Hin Hn) as [es' [err' Hmap]].
  rewrite Hmap. exists es', err'. reflexivity.
Qed.

(** ** File writes of [getSurgeNodes] *)

Lemma events_bind_Forall :
  forall {A B} (P : Event -> Prop) (m : M A) (k : A -> M B),
    Forall P (events m) ->
    (forall a, Forall P (events (k a))) ->
    Forall P (events (bind m k)).
Proof.
  intros A B P [es [a | err]] k Hm Hk; unfold bind, events in *; simpl in *.
  - specialize (Hk a). destruct (k a) as [es' r]. simpl in *.
    apply Forall_app. split; assumption.
  - exact Hm.
Qed.

Lemma events_mapM_Forall :
  forall {A B} (P : Event -> Prop) (f : A -> M B) (l : list A),
    (forall x, Forall P (events (f x))) ->
    Forall P (events (mapM f l)).
Proof.
  intros A B P f l Hf. induction l as [| x l IH]; [constructor |].
  cbn [mapM]. apply events_bind_Forall; [apply Hf |].
  intros y. apply events_bind_Forall; [exact IH |].
  intros ys. constructor.
Qed.

Ltac events_step :=
  first
    [ apply events_bind_Forall; [| intros ?]
    | apply events_mapM_Forall; intros ?
    | match goal with
      | |- Forall _ (events (if ?c then _ else _)) => destruct c
      | |- Forall _ (events (match ?v with _ => _ end)) => destruct v
      end
    | (repeat constructor; fail) ].

(** X14.  In the test environment ([NODE_ENV] is [test]) [getSurgeNodes]
    writes no file, whatever the nodes and the filter are. *)
Theorem getSurgeNodes_test_environment_writes_no_file :
  forall (nodeList : list NodeConfig) (filter : Filter),
    NODE_ENV = JStr "test" ->
    Forall (fun e => writes_file e = false)
      (events (getSurgeNodes nodeList filter)).
Proof.
  intros nodeList filter Henv. unfold getSurgeNodes.
  apply events_bind_Forall.
  { unfold applyFilter.
    destruct (filter_truthy filter && negb (validateFilter filter));
      constructor. }
  intros nodes. apply events_bind_Forall; [| intros; constructor].
  apply events_mapM_Forall. intros n.
  apply events_bind_Forall; [| intros; constructor].
  unfold surgeSegs, external_segs, hostnameIp_segs, ensureConfigFolder, warn.
  rewrite Henv. change (is_str (JStr "test") "test") with true. cbv iota.
  destruct (type n); repeat events_step.
Qed.

(** ** String lists *)



Lemma split_key_value :
  forall c k v,
    indexOf c k = None -> indexOf c v = None ->
    split c (k +:+ String c v) = [k; v].
Proof.
  intros c k v Hk Hv.
  rewrite split_app, !split_without_separator by assumption. reflexivity.
Qed.


(** ** Reading back what [getV2rayNNodes] writes *)

Lemma b64_char_not_LF :
  forall n, (n < 64)%nat -> Ascii.eqb (b64_char n) LF = false.
Proof.
  intros n Hn.
  do 64 (destruct n as [| n]; [reflexivity |]).
  lia.
Qed.

Lemma indexOf_String_None :
  forall c d s,
    Ascii.eqb d c = false -> indexOf c s = None ->
    indexOf c (String d s) = None.
Proof. intros c d s Hd Hs. cbn [indexOf]. rewrite Hd, Hs. reflexivity. Qed.

Lemma toBase64_one_line : forall s, indexOf LF (toBase64 s) = None.
Proof.
  induction s as [| a | a b | a b c s IH] using string_ind3.
  - reflexivity.
  - pose proof (byte_bound a).
    cbn [toBase64]. cbv zeta.
    repeat (apply indexOf_String_None; [apply b64_char_not_LF; byte_arith |]).
    reflexivity.
  - pose proof (byte_bound a). pose proof (byte_bound b).
    cbn [toBase64]. cbv zeta.
    repeat (apply indexOf_String_None; [apply b64_char_not_LF; byte_arith |]).
    reflexivity.
  - pose proof (byte_bound a). pose proof (byte_bound b).
    pose proof (byte_bound c).
    cbn [toBase64]. cbv zeta.
    repeat (apply indexOf_String_None; [apply b64_char_not_LF; byte_arith |]).
    exact IH.
Qed.

Lemma keep_truthy_some :
  forall {A} (f : A -> string) (l : list A),
    (forall x, f x <> "") ->
    keep_truthy (map (fun x => Some (f x)) l) = map f l.
Proof.
  intros A f l Hf. induction l as [| x l IH]; [reflexivity |].
  cbn [map]. unfold keep_truthy in *. cbn [flat_map].
  specialize (Hf x). apply String.eqb_neq in Hf. rewrite Hf, IH. reflexivity.
Qed.

Lemma keep_non_null_some :
  forall {A B} (f : A -> B) (l : list A),
    keep_non_null (map (fun x => Some (f x)) l) = map f l.
Proof.
  intros A B f l. induction l as [| x l IH]; [reflexivity |].
  cbn [map]. unfold keep_non_null in *. cbn [flat_map]. rewrite IH.
  reflexivity.
Qed.

Lemma mapM_map :
  forall {A B C} (f : B -> M C) (g : A -> B) (l : list A),
    mapM f (map g l) = mapM (fun x => f (g x)) l.
Proof.
  intros A B C f g l. induction l as [| x l IH]; [reflexivity |].
  cbn [map mapM]. rewrite IH. reflexivity.
Qed.

Lemma filter_all :
  forall {A} (p : A -> bool) (l : list A),
    (forall x, In x l -> p x = true) -> List.filter p l = l.
Proof.
  intros A p l H. induction l as [| x l IH]; [reflexivity |].
  cbn [List.filter]. rewrite (H x (or_introl eq_refl)).
  rewrite IH by (intros y Hy; apply H; right; exact Hy). reflexivity.
Qed.

(** The line [getV2rayNNodes] writes for a node. *)
Lemma v2rayNNode_line :
  forall n,
    type n = Vmess -> disabled n = false ->
    v2rayNNode n
    = ret (Some ("vmess://" +:+ toBase64 (JSON_stringify (v2rayN_payload n)))).
Proof.
  intros n Htype Henabled. unfold v2rayNNode. rewrite Henabled, Htype.
  reflexivity.
Qed.

(** The node [getV2rayNSubscription] reads from that line. *)
Lemma v2rayNLine_read_back :
  forall url n,
    js_Number (JStr "2") = JNum 2 ->
    includes ["kcp"; "http"] (field n "network") = false ->
    json_reads_back (v2rayN_payload n) ->
    v2rayNLine url
      ("vmess://" +:+ toBase64 (JSON_stringify (v2rayN_payload n)))
    = ret (Some (v2rayN_read_back n)).
Proof.
  intros url n Hnum Hnet [json [Hparse Hjson]].
  unfold v2rayNLine. rewrite replace_unfold.
  cbn [is_prefix String.append Ascii.eqb Bool.eqb andb String.length drop].
  rewrite fromBase64_of_toBase64, Hparse.
  assert (Hv : getv json "v" = JStr "2") by (rewrite Hjson; reflexivity).
  destruct json as [| | b | z | | t | elems | o]; try discriminate Hv.
  rewrite !Hjson. unfold v2rayN_payload.
  cbn [getv get String.eqb Ascii.eqb Bool.eqb andb].
  rewrite Hnum, Hnet. cbn [truthy String.eqb negb is_num Z.eqb Pos.eqb orb].
  unfold v2rayN_read_back.
  destruct (truthy (field n "tls")); reflexivity.
Qed.

(** X16.  [getV2rayNSubscription] reads back the subscription
    [getV2rayNNodes] writes (in base64, as a subscription is served) for
    enabled VMess nodes on a supported network: one node per node, in the
    same order, with the name, host, identifier and network unchanged, the
    port as text, the method [auto], [tls] as a boolean and the defaults of
    [alterId], [host] and [path]. *)
Theorem getV2rayNSubscription_reads_getV2rayNNodes :
  forall (url : string) (nodes : list NodeConfig),
    url <> "" ->
    js_Number (JStr "2") = JNum 2 ->
    Forall (fun n =>
              type n = Vmess /\ disabled n = false
              /\ includes ["kcp"; "http"] (field n "network") = false
              /\ json_reads_back (v2rayN_payload n)) nodes ->
    exists text : string,
      getV2rayNNodes nodes = ret text
      /\ getV2rayNSubscription url (toBase64 text)
         = ret (map v2rayN_read_back nodes).
Proof.
  intros url nodes Hurl Hnum Hnodes.
  set (line := fun n => "vmess://"
                          +:+ toBase64 (JSON_stringify (v2rayN_payload n))).
  rewrite Forall_forall in Hnodes.
  exists (join NL (map line nodes)). split.
  - unfold getV2rayNNodes.
    rewrite (mapM_ret v2rayNNode (fun n => Some (line n))).
    + rewrite bind_ret_l, keep_truthy_some; [reflexivity |].
      intros n. discriminate.
    + intros n Hin. destruct (Hnodes n Hin) as [Htype [Henabled _]].
      apply v2rayNNode_line; assumption.
  - unfold getV2rayNSubscription.
    apply String.eqb_neq in Hurl. rewrite Hurl.
    unfold v2rayN_configList. rewrite fromBase64_of_toBase64.
    destruct nodes as [| n0 nodes0]; [reflexivity |].
    remember (n0 :: nodes0) as nodes eqn:Hlist.
    assert (Hsplit : split LF (join NL (map line nodes)) = map line nodes).
    { apply split_join.
      - rewrite Hlist. discriminate.
      - apply Forall_forall. intros x Hx. apply in_map_iff in Hx.
        destruct Hx as [n [<- _]]. unfold line.
        cbn [String.append].
        repeat (apply indexOf_String_None; [reflexivity |]).
        apply toBase64_one_line. }
    assert (Hlines : forall p : string -> bool,
               (forall n, p (line n) = true) ->
               List.filter p (map line nodes) = map line nodes).
    { intros p Hp. apply filter_all. intros x Hx. apply in_map_iff in Hx.
      destruct Hx as [n [<- _]]. apply Hp. }
    rewrite Hsplit.
    rewrite (Hlines (fun item => negb (String.eqb item "")))
      by (intros n; reflexivity).
    rewrite (Hlines (fun item => startsWith item "vmess://"))
      by (intros n; reflexivity).
    rewrite mapM_map.
    rewrite (mapM_ret _ (fun n => Some (v2rayN_read_back n))).
    + rewrite bind_ret_l, keep_non_null_some. reflexivity.
    + intros n Hin.
      destruct (Hnodes n Hin) as [_ [_ [Hnet Hjson]]].
      apply v2rayNLine_read_back; assumption.
Qed.

(** ** Shadowsocks JSON: the writer and the reader *)

(** The entry [getShadowsocksNodesJSON] writes for an enabled Shadowsocks
    node whose name is a text. *)
Lemma shadowsocksJSONNode_entry :
  forall n name,
    type n = Shadowsocks -> disabled n = false ->
    field n "nodeName" = JStr name ->
    exists entry : Obj,
      shadowsocksJSONNode n = ret (Some (JObj entry))
      /\ get entry "remarks" = field n "nodeName"
      /\ get entry "server" = field n "hostname"
      /\ get entry "server_port" = field n "port"
      /\ get entry "method" = field n "method"
      /\ get entry "password" = field n "password"
      /\ get entry "plugin"
         = (if useObfs n then JStr "obfs-local" else JUndefined)
      /\ get entry "plugin_opts" = JUndefined.
Proof.
  intros n name Htype Henabled Hname. unfold shadowsocksJSONNode.
  rewrite Henabled, Htype, Hname. cbn [toUrlSafeBase64_of].
  rewrite bind_ret_l. fold (useObfs n).
  eexists. split; [reflexivity |].
  destruct (useObfs n); repeat split; try reflexivity; symmetry; exact Hname.
Qed.

Lemma shadowsocksJSONItem_entry :
  forall udpRelay n (entry : Obj),
    get entry "remarks" = field n "nodeName" ->
    get entry "server" = field n "hostname" ->
    get entry "server_port" = field n "port" ->
    get entry "method" = field n "method" ->
    get entry "password" = field n "password" ->
    get entry "plugin" = (if useObfs n then JStr "obfs-local" else JUndefined) ->
    get entry "plugin_opts" = JUndefined ->
    shadowsocksJSONItem udpRelay (JObj entry)
    = if useObfs n
      then throw "TypeError: Cannot read property 'match' of undefined"
      else ret (shadowsocksJSON_read_back udpRelay n).
Proof.
  intros udpRelay n entry H1 H2 H3 H4 H5 H6 H7.
  unfold shadowsocksJSONItem. cbn [getv].
  rewrite H1, H2, H3, H4, H5, H6, H7.
  unfold shadowsocksJSON_read_back.
  destruct (useObfs n); destruct (is_boolean udpRelay); reflexivity.
Qed.

(** X17.  [getShadowsocksJSONConfig] reads back the entries
    [getShadowsocksNodesJSON] writes for enabled Shadowsocks nodes without
    plugin: when [JSON.parse] gives an object whose [configs] are these
    entries, the decoder returns one node per node, with the name, host,
    port, method and password of the node, and [udp-relay] when the
    [udpRelay] argument is a boolean. *)
Theorem getShadowsocksJSONConfig_reads_written_entries :
  forall (nodes : list NodeConfig),
    Forall (fun n => type n = Shadowsocks /\ disabled n = false
                     /\ is_string (field n "nodeName") = true
                     /\ useObfs n = false) nodes ->
    exists entries : list JsVal,
      mapM shadowsocksJSONNode nodes = ret (map Some entries)
      /\ forall (url response : string) (udpRelay r : JsVal),
           url <> "" ->
           JSON_parse response = Some r ->
           getv r "configs" = JArr entries ->
           getShadowsocksJSONConfig url udpRelay response
           = ret (map (shadowsocksJSON_read_back udpRelay) nodes).
Proof.
  intros nodes Hnodes.
  assert (Hentries :
            exists entries : list JsVal,
              mapM shadowsocksJSONNode nodes = ret (map Some entries)
              /\ forall udpRelay,
                   mapM (shadowsocksJSONItem udpRelay) entries
                   = ret (map (shadowsocksJSON_read_back udpRelay) nodes)).
  { induction Hnodes as [| n nodes [Htype [Henabled [Hname Hobfs]]] _ IH].
    - exists []. split; [reflexivity | intros; reflexivity].
    - destruct IH as [entries [Hwrite Hread]].
      destruct (field n "nodeName") as [| | | | | name | |] eqn:Hn;
        try discriminate Hname.
      destruct (shadowsocksJSONNode_entry n name Htype Henabled Hn)
        as [entry [Hentry [H1 [H2 [H3 [H4 [H5 [H6 H7]]]]]]]].
      exists (JObj entry :: entries). split.
      + cbn [mapM map]. rewrite Hentry, bind_ret_l, Hwrite, bind_ret_l.
        reflexivity.
      + intros udpRelay. cbn [mapM map].
        rewrite (shadowsocksJSONItem_entry udpRelay n entry H1 H2 H3 H4 H5 H6 H7).
        rewrite Hobfs, bind_ret_l, Hread, bind_ret_l. reflexivity. }
  destruct Hentries as [entries [Hwrite Hread]].
  exists entries. split; [exact Hwrite |].
  intros url response udpRelay r Hurl Hparse Hconfigs.
  unfold getShadowsocksJSONConfig.
  apply String.eqb_neq in Hurl. rewrite Hurl, Hparse.
  destruct r as [| | b | z | | t | elems | o]; try discriminate Hconfigs.
  rewrite Hconfigs. apply Hread.
Qed.

(** X18.  [getShadowsocksJSONConfig] cannot read the entry
    [getShadowsocksNodesJSON] writes for a node with [obfs] and [obfs-host]:
    the writer puts the options under [plugin-opts], the reader looks for
    them under [plugin_opts], and the whole decode fails. *)
Theorem getShadowsocksJSONConfig_rejects_written_plugin :
  forall (n : NodeConfig) (entry : JsVal) (entries : list JsVal)
         (url response : string) (udpRelay r : JsVal),
    type n = Shadowsocks ->
    disabled n = false ->
    is_string (field n "nodeName") = true ->
    useObfs n = true ->
    shadowsocksJSONNode n = ret (Some entry) ->
    In entry entries ->
    JSON_parse response = Some r ->
    getv r "configs" = JArr entries ->
    exists es err,
      getShadowsocksJSONConfig url udpRelay response = (es, Thrown err).
Proof.
  intros n entry entries url response udpRelay r Htype Henabled Hname Hobfs
    Hentry Hin Hparse Hconfigs.
  unfold getShadowsocksJSONConfig.
  destruct (String.eqb url ""); [eexists; eexists; reflexivity |].
  rewrite Hparse.
  destruct r as [| | b | z | | t | elems | o]; try discriminate Hconfigs.
  rewrite Hconfigs.
  destruct (field n "nodeName") as [| | | | | name | |] eqn:Hn;
    try discriminate Hname.
  destruct (shadowsocksJSONNode_entry n name Htype Henabled Hn)
    as [o' [Hentry' [H1 [H2 [H3 [H4 [H5 [H6 H7]]]]]]]].
  rewrite Hentry in Hentry'. injection Hentry' as ->.
  apply (mapM_throws (shadowsocksJSONItem udpRelay) entries (JObj o') []
           "TypeError: Cannot read property 'match' of undefined" Hin).
  rewrite (shadowsocksJSONItem_entry udpRelay n o' H1 H2 H3 H4 H5 H6 H7).
  rewrite Hobfs. reflexivity.
Qed.

(** ** The plugin options of a Shadowsocks JSON entry *)

Lemma word_char_cases :
  forall c, word_char c = true ->
    Ascii.eqb "-" c = false /\ Ascii.eqb ";" c = false
    /\ Ascii.eqb "=" c = false.
Proof.
  intros c H.
  assert (Hall : negb (Ascii.eqb "-" c) && negb (Ascii.eqb ";" c)
                 && negb (Ascii.eqb "=" c) = true).
  { revert c H.
    all_bytes word_char
      (fun c => negb (Ascii.eqb "-" c) && negb (Ascii.eqb ";" c)
                && negb (Ascii.eqb "=" c)). }
  apply andb_true_iff in Hall. destruct Hall as [Hall H3].
  apply andb_true_iff in Hall. destruct Hall as [H1 H2].
  apply negb_true_iff in H1, H2, H3. repeat split; assumption.
Qed.

Lemma take_while_word :
  forall w t,
    all_chars word_char w = true ->
    t = "" \/ (exists t', t = String ";" t') ->
    take_while word_char (w +:+ t) = w.
Proof.
  induction w as [| c w IH]; intros t Hw Ht.
  - destruct Ht as [-> | [t' ->]]; reflexivity.
  - cbn [all_chars] in Hw. apply andb_true_iff in Hw. destruct Hw as [Hc Hw].
    cbn [String.append take_while]. rewrite Hc, (IH t Hw Ht). reflexivity.
Qed.

(** No match of [obfs-host=] starts inside a word. *)
Lemma obfs_host_not_in_word :
  forall w t,
    all_chars word_char w = true ->
    t = "" \/ (exists t', t = String ";" t') ->
    is_prefix "obfs-host=" (w +:+ t) = false.
Proof.
  intros w t Hw Ht.
  assert (Hsep : is_prefix "obfs-host=" t = false
                 /\ is_prefix "bfs-host=" t = false
                 /\ is_prefix "fs-host=" t = false
                 /\ is_prefix "s-host=" t = false
                 /\ is_prefix "-host=" t = false).
  { destruct Ht as [-> | [t' ->]]; repeat split; reflexivity. }
  destruct Hsep as [S0 [S1 [S2 [S3 S4]]]].
  destruct w as [| c1 w]; [exact S0 |].
  cbn [String.append is_prefix]. destruct (Ascii.eqb "o" c1); [| reflexivity].
  cbn [andb]. destruct w as [| c2 w]; [exact S1 |].
  cbn [String.append is_prefix]. destruct (Ascii.eqb "b" c2); [| reflexivity].
  cbn [andb]. destruct w as [| c3 w]; [exact S2 |].
  cbn [String.append is_prefix]. destruct (Ascii.eqb "f" c3); [| reflexivity].
  cbn [andb]. destruct w as [| c4 w]; [exact S3 |].
  cbn [String.append is_prefix]. destruct (Ascii.eqb "s" c4); [| reflexivity].
  cbn [andb]. destruct w as [| c5 w]; [exact S4 |].
  cbn [String.append is_prefix].
  cbn [all_chars] in Hw.
  repeat (apply andb_true_iff in Hw; destruct Hw as [? Hw]).
  match goal with
  | H : word_char c5 = true |- _ =>
      destruct (word_char_cases c5 H) as [-> _]
  end.
  reflexivity.
Qed.

Lemma match_obfs_host_skip :
  forall a b,
    unmatched "obfs-host=" a b = true ->
    match_obfs_host (a +:+ b) = match_obfs_host b.
Proof.
  induction a as [| c a IH]; intros b H; [reflexivity |].
  cbn [unmatched] in H. apply andb_true_iff in H. destruct H as [Hp H].
  apply negb_true_iff in Hp.
  cbn [String.append match_obfs_host]. cbn [String.append] in Hp.
  rewrite Hp. cbn [andb]. apply IH. exact H.
Qed.

Lemma unmatched_word :
  forall w t,
    all_chars word_char w = true ->
    t = "" \/ (exists t', t = String ";" t') ->
    unmatched "obfs-host=" w t = true.
Proof.
  induction w as [| c w IH]; intros t Hw Ht; [reflexivity |].
  cbn [unmatched].
  rewrite (obfs_host_not_in_word (String c w) t Hw Ht).
  cbn [all_chars] in Hw. apply andb_true_iff in Hw. destruct Hw as [_ Hw].
  rewrite (IH t Hw Ht). reflexivity.
Qed.

(** X19.  From an entry whose [plugin] is [obfs-local] and whose
    [plugin_opts] is [obfs=<mode>], or [obfs=<mode>;obfs-host=<host>], the
    decoder reads [obfs] as the mode and [obfs-host] as the host, with
    [www.bing.com] when no host is given; the mode is a word, the host is
    not empty and holds no line terminator. *)
Theorem shadowsocksJSONItem_plugin_options :
  forall (udpRelay : JsVal) (entry : Obj) (mode : string)
         (host : option string),
    get entry "plugin" = JStr "obfs-local" ->
    get entry "plugin_opts"
    = JStr ("obfs=" +:+ mode
              +:+ match host with
                  | Some h => ";obfs-host=" +:+ h
                  | None => ""
                  end) ->
    mode <> "" ->
    all_chars word_char mode = true ->
    (forall h, host = Some h -> h <> "" /\ has_line_terminator h = false) ->
    exists node : NodeConfig,
      shadowsocksJSONItem udpRelay (JObj entry) = ret node
      /\ type node = Shadowsocks
      /\ field node "obfs" = JStr mode
      /\ field node "obfs-host"
         = JStr (match host with
                 | Some h => h
                 | None => "www.bing.com"
                 end).
Proof.
  intros udpRelay entry mode host Hplugin Hopts Hne Hword Hhost.
  set (tail := match host with
               | Some h => ";obfs-host=" +:+ h
               | None => ""
               end) in *.
  assert (Htail : tail = "" \/ (exists t', tail = String ";" t')).
  { unfold tail. destruct host; [right; eexists; reflexivity | left; reflexivity]. }
  assert (Hmode : match_obfs ("obfs=" +:+ mode +:+ tail) = Some mode).
  { cbn [String.append match_obfs is_prefix Ascii.eqb Bool.eqb andb drop].
    rewrite (take_while_word mode tail Hword Htail).
    apply String.eqb_neq in Hne. rewrite Hne. reflexivity. }
  assert (Hhostname :
            match_obfs_host ("obfs=" +:+ mode +:+ tail)
            = match host with Some h => Some h | None => None end).
  { change ("obfs=" +:+ mode +:+ tail)
      with (String "o" (String "b" (String "f" (String "s" (String "="
              (mode +:+ tail)))))).
    assert (Hw : is_prefix "obfs-host=" (mode +:+ tail) = false)
      by (apply obfs_host_not_in_word; assumption).
    assert (Hskip : forall s,
               match_obfs_host
                 (String "o" (String "b" (String "f" (String "s" (String "=" s)))))
               = match_obfs_host s).
    { intros s. cbn [match_obfs_host is_prefix Ascii.eqb Bool.eqb andb].
      reflexivity. }
    rewrite Hskip.
    unfold tail. destruct host as [h |].
    - destruct (Hhost h eq_refl) as [Hh Hlt].
      change (";obfs-host=" +:+ h) with (String ";" ("obfs-host=" +:+ h)).
      rewrite (match_obfs_host_skip mode (String ";" ("obfs-host=" +:+ h)))
        by (apply unmatched_word; [exact Hword | right; eexists; reflexivity]).
      cbn [match_obfs_host is_prefix String.append Ascii.eqb Bool.eqb andb drop].
      apply String.eqb_neq in Hh. rewrite Hh, Hlt.
      destruct h; [discriminate Hh | reflexivity].
    - rewrite (match_obfs_host_skip mode "")
        by (apply unmatched_word; [exact Hword | left; reflexivity]).
      reflexivity. }
  unfold shadowsocksJSONItem. cbn [getv].
  rewrite Hplugin, Hopts. cbn [is_str String.eqb Ascii.eqb Bool.eqb andb].
  fold tail. rewrite Hmode, Hhostname.
  eexists. split; [reflexivity |].
  destruct (is_boolean udpRelay); destruct host; repeat split; reflexivity.
Qed.

(** ** The URL rewrite filters *)

Lemma token_no_char :
  forall t c, token t -> is_ws c = true -> indexOf c t = None.
Proof.
  intros t c [_ Ht] Hc. induction t as [| d t IH]; [reflexivity |].
  cbn [all_chars] in Ht. apply andb_true_iff in Ht. destruct Ht as [Hd Ht].
  cbn [indexOf]. destruct (Ascii.eqb d c) eqn:E.
  - apply Ascii.eqb_eq in E. subst d. rewrite Hc in Hd. discriminate.
  - rewrite (IH Ht). reflexivity.
Qed.

Lemma trimEnd_token : forall t, token t -> trimEnd t = t.
Proof.
  intros t [Hne Ht]. induction t as [| c t IH]; [contradiction |].
  cbn [all_chars] in Ht. apply andb_true_iff in Ht. destruct Ht as [Hc Ht].
  apply negb_true_iff in Hc.
  destruct t as [| d t].
  - cbn [trimEnd]. rewrite Hc. reflexivity.
  - rewrite trimEnd_cons; rewrite IH; try discriminate; try exact Ht.
    reflexivity.
Qed.

Lemma trimEnd_app_token :
  forall a t, token t -> trimEnd (a +:+ t) = a +:+ t.
Proof.
  intros a t Ht. induction a as [| c a IH].
  - apply trimEnd_token. exact Ht.
  - cbn [String.append]. rewrite trimEnd_cons; rewrite IH; [reflexivity |].
    destruct Ht as [Hne _]. destruct a; destruct t; try discriminate.
    contradiction.
Qed.

Lemma append_assoc :
  forall x y z : string, (x +:+ y) +:+ z = x +:+ y +:+ z.
Proof.
  induction x as [| d x IH]; intros y z; [reflexivity |].
  cbn [String.append]. rewrite IH. reflexivity.
Qed.

Lemma trim_tokens :
  forall t a u, token t -> token u -> trim (t +:+ a +:+ u) = t +:+ a +:+ u.
Proof.
  intros t a u Ht Hu. unfold trim.
  destruct Ht as [Hne Ht]. destruct t as [| c t]; [contradiction |].
  cbn [all_chars] in Ht. apply andb_true_iff in Ht. destruct Ht as [Hc _].
  apply negb_true_iff in Hc.
  cbn [String.append trimStart]. rewrite Hc.
  rewrite <- (append_assoc t a u).
  change (String c ((t +:+ a) +:+ u)) with (String c (t +:+ a) +:+ u).
  apply trimEnd_app_token. exact Hu.
Qed.

Lemma trim_token : forall t, token t -> trim t = t.
Proof.
  intros t Ht. unfold trim. destruct Ht as [Hne Ht'].
  destruct t as [| c t]; [contradiction |].
  pose proof Ht' as Hall.
  cbn [all_chars] in Ht'. apply andb_true_iff in Ht'. destruct Ht' as [Hc _].
  apply negb_true_iff in Hc. cbn [trimStart]. rewrite Hc.
  apply trimEnd_token. split; [discriminate | exact Hall].
Qed.

Lemma split_parts_without_separator :
  forall sep s x, In x (split sep s) -> indexOf sep x = None.
Proof.
  intros sep s. induction s as [| c s IH]; intros x Hx.
  - destruct Hx as [<- | []]. reflexivity.
  - rewrite split_String in Hx. destruct (Ascii.eqb c sep) eqn:E.
    + destruct Hx as [<- | Hx]; [reflexivity | apply IH; exact Hx].
    + pose proof (split_not_nil sep s) as Hne.
      destruct (split sep s) as [| y ys]; [contradiction |].
      destruct Hx as [<- | Hx].
      * cbn [indexOf]. rewrite E.
        rewrite (IH y (or_introl eq_refl)). reflexivity.
      * apply IH. right. exact Hx.
Qed.

(** X20.  No entry [convertUrlRewriteSnippet] returns holds an empty or
    blank part, or a part with a space in it. *)
Theorem convertUrlRewriteSnippet_parts :
  forall (str : string) (parts : list string) (part : string),
    In parts (convertUrlRewriteSnippet str) ->
    In part parts ->
    part <> "" /\ trim part <> "" /\ indexOf " " part = None.
Proof.
  intros str parts part Hparts Hpart. unfold convertUrlRewriteSnippet in Hparts.
  apply in_map_iff in Hparts. destruct Hparts as [item [<- _]].
  apply filter_In in Hpart. destruct Hpart as [Hin Hkeep].
  apply andb_true_iff in Hkeep. destruct Hkeep as [H1 H2].
  apply negb_true_iff in H1, H2. apply String.eqb_neq in H1, H2.
  repeat split; try assumption.
  apply (split_parts_without_separator " " (trim item)). exact Hin.
Qed.

Lemma is_prefix_app_token :
  forall q t rest,
    all_chars (fun y => negb (Ascii.eqb y " ")) q = true ->
    is_prefix q t = false ->
    is_prefix q (t +:+ String " " rest) = false.
Proof.
  intros q t rest Hq Ht.
  destruct (is_prefix q (t +:+ String " " rest)) eqn:E; [| reflexivity].
  apply (prefix_app_stop q t " " rest Hq) in E. rewrite E in Ht.
  discriminate.
Qed.

(** X21.  The filter [surgeUrlRewrite] turns the Quantumult X line
    [<pattern> url <action> <target>], whose three parts are ASCII texts
    that are not empty and hold no white space, into the Surge line
    [<pattern> <target> <action>] when the action is [302] or [307], and
    drops the line for any other action. *)
Theorem surgeUrlRewrite_redirect :
  forall (pattern action target : string),
    token pattern -> token action -> token target ->
    ascii_text pattern = true -> ascii_text action = true ->
    ascii_text target = true ->
    startsWith pattern "hostname" = false ->
    surgeUrlRewrite (pattern +:+ " url " +:+ action +:+ " " +:+ target)
    = if String.eqb action "302" || String.eqb action "307"
      then pattern +:+ " " +:+ target +:+ " " +:+ action
      else "".
Proof.
  intros pattern action target Hp Ha Ht _ _ _ Hhost.
  set (line := pattern +:+ " url " +:+ action +:+ " " +:+ target).
  assert (Hsp : forall t, token t -> indexOf " " t = None)
    by (intros t H; apply token_no_char; [exact H | reflexivity]).
  assert (Hlf : forall t, token t -> indexOf LF t = None)
    by (intros t H; apply token_no_char; [exact H | reflexivity]).
  assert (Hlines : split LF line = [line]).
  { apply split_without_separator. unfold line.
    assert (Happ : forall a b, indexOf LF a = None -> indexOf LF b = None ->
                               indexOf LF (a +:+ b) = None).
    { induction a as [| c a IH]; intros b Ha' Hb; [exact Hb |].
      cbn [String.append indexOf] in *. destruct (Ascii.eqb c LF);
        [discriminate |].
      destruct (indexOf LF a); [discriminate |]. rewrite (IH b eq_refl Hb).
      reflexivity. }
    repeat (apply Happ; [first [apply Hlf; assumption | reflexivity] |]).
    apply Hlf. exact Ht. }
  assert (Htrim : trim line = line).
  { unfold line.
    replace (pattern +:+ " url " +:+ action +:+ " " +:+ target)
      with (pattern +:+ (" url " +:+ action +:+ " ") +:+ target)
      by (rewrite !append_assoc; reflexivity).
    apply trim_tokens; assumption. }
  assert (Hne : line <> "").
  { unfold line. destruct Hp as [Hp _]. destruct pattern; [contradiction |].
    discriminate. }
  assert (Hparts : split " " line = [pattern; "url"; action; target]).
  { unfold line.
    change (" url " +:+ action +:+ " " +:+ target)
      with (String " " ("url" +:+ String " " (action +:+ String " " target))).
    rewrite !split_app.
    rewrite (split_without_separator " " pattern (Hsp _ Hp)).
    rewrite (split_without_separator " " action (Hsp _ Ha)).
    rewrite (split_without_separator " " target (Hsp _ Ht)).
    reflexivity. }
  assert (Hkeep : forall t, token t ->
                    negb (String.eqb t "") && negb (String.eqb (trim t) "")
                    = true).
  { intros t H. rewrite (trim_token t H). destruct H as [H _].
    apply String.eqb_neq in H. rewrite H. reflexivity. }
  unfold surgeUrlRewrite, convertUrlRewriteSnippet.
  rewrite Hlines. cbn [List.filter].
  assert (Htest : startsWith (testString_plain line) "hostname" = false).
  { unfold testString_plain. rewrite Htrim.
    apply String.eqb_neq in Hne. rewrite Hne. cbn [negb andb].
    unfold startsWith, line in *. apply is_prefix_app_token;
      [reflexivity | exact Hhost]. }
  rewrite Htest. cbn [negb map]. rewrite Htrim, Hparts.
  assert (Hfilter :
            List.filter
              (fun part => negb (String.eqb part "")
                           && negb (String.eqb (trim part) ""))
              [pattern; "url"; action; target]
            = [pattern; "url"; action; target]).
  { cbn [List.filter]. rewrite (Hkeep _ Hp), (Hkeep _ Ha), (Hkeep _ Ht).
    change (negb (String.eqb "url" "") && negb (String.eqb (trim "url") ""))
      with true.
    reflexivity. }
  rewrite Hfilter.
  cbn [List.filter List.length Nat.eqb nth andb String.eqb Ascii.eqb Bool.eqb].
  destruct (String.eqb action "302" || String.eqb action "307");
    reflexivity.
Qed.

(** X22.  The filter [hostname] returns the first line that starts with
    [hostname]; the lines before it do not. *)
Theorem hostnameFilter_first_line :
  forall (before line after : string),
    Forall (fun l => startsWith l "hostname" = false) (split LF before) ->
    indexOf LF line = None ->
    startsWith line "hostname" = true ->
    hostnameFilter (before +:+ NL +:+ line +:+ NL +:+ after) = Some line.
Proof.
  intros before line after Hbefore Hlf Hline.
  unfold hostnameFilter, NL, str1. cbn [String.append].
  rewrite !split_app, (split_without_separator LF line Hlf).
  rewrite !filter_app.
  assert (Hnone : List.filter
                    (fun item => startsWith (testString_plain item) "hostname")
                    (split LF before) = []).
  { induction Hbefore as [| l ls Hl _ IH]; [reflexivity |].
    cbn [List.filter]. unfold testString_plain at 1.
    destruct (negb (String.eqb l "") && negb (String.eqb (trim l) ""));
      [rewrite Hl | ]; exact IH. }
  rewrite Hnone. cbn [app List.filter].
  assert (Htest : testString_plain line = line).
  { unfold testString_plain. destruct line as [| c line]; [discriminate |].
    unfold startsWith in Hline. cbn [is_prefix] in Hline.
    apply andb_true_iff in Hline. destruct Hline as [Hc _].
    apply Ascii.eqb_eq in Hc. subst c.
    unfold trim. cbn [trimStart]. change (is_ws "h") with false. cbv iota.
    pose proof (trimEnd_head "h" line eq_refl) as Hne.
    destruct (trimEnd (String "h" line)); [contradiction | reflexivity]. }
  rewrite Htest, Hline. reflexivity.
Qed.

(** ** The filter [quantumultx] *)

(** X23.  The filter [quantumultx] removes an empty line: the text with an
    empty line between two parts gives what the two parts give. *)
Theorem quantumultxFilter_drops_empty_lines :
  forall (publicUrl before after : string),
    quantumultxFilter publicUrl (before +:+ NL +:+ NL +:+ after)
    = quantumultxFilter publicUrl (before +:+ NL +:+ after).
Proof.
  intros publicUrl before after.
  unfold quantumultxFilter, NL, str1. cbn [String.append].
  rewrite !split_app. cbn [split app].
  rewrite !filter_app. cbn [List.filter].
  reflexivity.
Qed.

Lemma indexOf_app_None :
  forall c a b,
    indexOf c a = None -> indexOf c b = None -> indexOf c (a +:+ b) = None.
Proof.
  intros c a b. induction a as [| d a IH]; intros Ha Hb; [exact Hb |].
  cbn [String.append indexOf] in *. destruct (Ascii.eqb d c); [discriminate |].
  destruct (indexOf c a); [discriminate |]. rewrite (IH eq_refl Hb).
  reflexivity.
Qed.

Lemma join_cons_not_empty :
  forall sep a b (l : list string),
    String.eqb (join sep ((a +:+ "=" +:+ b) :: l)) "" = false.
Proof.
  intros sep a b l. unfold join. cbn [String.concat].
  destruct l as [| x l]; destruct a; reflexivity.
Qed.

Lemma URLSearchParams_set_cons :
  forall name value l,
    exists p r, URLSearchParams_set name value l = p :: r.
Proof.
  intros name value l. destruct l as [| [k v] l]; cbn [URLSearchParams_set].
  - eexists. eexists. reflexivity.
  - destruct (String.eqb k name); eexists; eexists; reflexivity.
Qed.

(** The query after [searchParams.set] is never empty. *)
Lemma urlencoded_serialize_set :
  forall name value l,
    String.eqb (urlencoded_serialize (URLSearchParams_set name value l)) ""
    = false.
Proof.
  intros name value l.
  destruct (URLSearchParams_set_cons name value l) as [p [r ->]].
  unfold urlencoded_serialize. cbn [map]. apply join_cons_not_empty.
Qed.

(** X24.  [convertSurgeScriptRuleToQuantumultXRewriteRule] turns the Surge
    line [http-response <pattern> script-path=<path>] into the Quantumult X
    line [<pattern> url script-response-body <endpoint>].  It throws when
    [new URL] rejects the public URL.  Otherwise, for a public URL that can
    be a base, the endpoint is the public URL up to its path (scheme,
    credentials, host and port), the path [/qx-script], the search
    parameters of the public URL with [url] set to the script path, as
    [searchParams] prints them, and the fragment of the public URL; for a
    public URL without search parameters this is [?url=] and the script
    path, its bytes other than letters, digits, [*], [-], [.] and [_]
    escaped. *)
Theorem convertSurgeScriptRule_script_path :
  forall (publicUrl pattern path : string),
    token pattern -> token path ->
    indexOf "," path = None ->
    indexOf "=" path = None ->
    (new_URL publicUrl = None ->
     convertSurgeScriptRuleToQuantumultXRewriteRule
       ("http-response " +:+ pattern +:+ " script-path=" +:+ path) publicUrl
     = throw "TypeError [ERR_INVALID_URL]: Invalid URL")
    /\ (forall u : URLObject,
           new_URL publicUrl = Some u ->
           URL_cannot_be_a_base u = false ->
           convertSurgeScriptRuleToQuantumultXRewriteRule
             ("http-response " +:+ pattern +:+ " script-path=" +:+ path)
             publicUrl
           = ret (pattern +:+ " url script-response-body "
                    +:+ URL_before_path u +:+ "/qx-script" +:+ "?"
                    +:+ urlencoded_serialize
                          (URLSearchParams_set "url" path (URL_searchParams u))
                    +:+ match URL_fragment u with
                        | Some f => "#" +:+ f
                        | None => ""
                        end)
             /\ (URL_searchParams u = [] ->
                 urlencoded_serialize
                   (URLSearchParams_set "url" path (URL_searchParams u))
                 = "url=" +:+ urlencoded_text path)).
Proof.
  intros publicUrl pattern path Hp Hpath Hcomma Heq.
  assert (Hsp : forall t, token t -> indexOf " " t = None)
    by (intros t H; apply token_no_char; [exact H | reflexivity]).
  assert (Hparts :
            split " " ("http-response " +:+ pattern +:+ " script-path=" +:+ path)
            = ["http-response"; pattern; "script-path=" +:+ path]).
  { change ("http-response " +:+ pattern +:+ " script-path=" +:+ path)
      with ("http-response"
              +:+ String " " (pattern +:+ String " " ("script-path=" +:+ path))).
    rewrite !split_app.
    rewrite (split_without_separator " " pattern (Hsp _ Hp)).
    rewrite (split_without_separator " " ("script-path=" +:+ path))
      by (apply indexOf_app_None; [reflexivity | apply Hsp; exact Hpath]).
    reflexivity. }
  assert (Hscript :
            get (decodeStringList
                   (split "," (join "" (skipn 2 ["http-response"; pattern;
                                                 "script-path=" +:+ path]))))
              "script-path"
            = JStr path).
  { cbn [skipn join String.concat].
    rewrite (split_without_separator "," ("script-path=" +:+ path))
      by (apply indexOf_app_None; [reflexivity | exact Hcomma]).
    unfold decodeStringList. cbn [fold_left].
    change ("script-path=" +:+ path)
      with ("script-path" +:+ String (chr 61) path).
    rewrite (split_key_value (chr 61) "script-path" path eq_refl Heq).
    cbn [nth nth_error set get].
    change (String.eqb "script-path" "script-path") with true.
    cbv iota. unfold js_or. cbn [truthy].
    destruct Hpath as [Hne _]. apply String.eqb_neq in Hne. rewrite Hne.
    reflexivity. }
  unfold convertSurgeScriptRuleToQuantumultXRewriteRule.
  rewrite Hparts. cbn [nth nth_error].
  change (String.eqb "http-response" "http-response") with true. cbv iota.
  cbv zeta. rewrite Hscript. cbn [toString].
  split.
  - intros Hurl. rewrite Hurl. reflexivity.
  - intros u Hurl Hbase. rewrite Hurl. split.
    + unfold URL_set_pathname. rewrite Hbase.
      unfold URL_searchParams_set, URL_toString.
      cbn [URL_scheme URL_username URL_password URL_host URL_port URL_path
           URL_cannot_be_a_base URL_query URL_fragment URL_searchParams].
      rewrite urlencoded_serialize_set.
      unfold URL_before_path.
      cbn [URL_scheme URL_username URL_password URL_host URL_port].
      cbn [map String.concat]. unfold join_vals. cbn [map toString join
        String.concat].
      rewrite !append_assoc. reflexivity.
    + intros ->. reflexivity.
Qed.

(** ** URI components *)

Lemma hex_val_upper_hex_digit :
  forall k, (k < 16)%nat -> hex_val (upper_hex_digit k) = Some k.
Proof.
  intros k H. do 16 (destruct k as [| k]; [reflexivity |]). lia.
Qed.

Lemma pct_escape_pct :
  forall n r, (n < 256)%nat -> pct_escape (pct n r) = Some (n, r).
Proof.
  intros n r Hn. unfold pct. cbn [pct_escape]. rewrite Ascii.eqb_refl.
  rewrite !hex_val_upper_hex_digit by byte_arith.
  replace (16 * (n / 16) + n mod 16)%nat with n by byte_arith. reflexivity.
Qed.

Lemma decode_unfold :
  forall fuel c r,
    decodeURIComponent_fuel (S fuel) (String c r)
    = if Ascii.eqb c (chr 37) then
        match pct_escape (String c r) with
        | None => None
        | Some (b, r1) =>
            if (b <? 128)%nat then
              option_map (String (chr b)) (decodeURIComponent_fuel fuel r1)
            else
              let len := if (b <? 192)%nat then 0%nat
                         else if (b <? 224)%nat then 2%nat
                         else if (b <? 240)%nat then 3%nat
                         else if (b <? 248)%nat then 4%nat
                         else 0%nat in
              let lead := match len with
                          | 2%nat => (b - 192)%nat
                          | 3%nat => (b - 224)%nat
                          | _ => (b - 240)%nat
                          end in
              match len with
              | O => None
              | S k =>
                  match continuation k (N.of_nat lead) r1 with
                  | Some (bs, cp, r2) =>
                      if valid_code_point len cp then
                        option_map (fun t => String (chr b) (bs +:+ t))
                          (decodeURIComponent_fuel fuel r2)
                      else None
                  | None => None
                  end
              end
        end
      else option_map (String c) (decodeURIComponent_fuel fuel r).
Proof. reflexivity. Qed.

Lemma decode_plain :
  forall fuel c r,
    Ascii.eqb c (chr 37) = false ->
    decodeURIComponent_fuel (S fuel) (String c r)
    = option_map (String c) (decodeURIComponent_fuel fuel r).
Proof. intros fuel c r H. rewrite decode_unfold, H. reflexivity. Qed.

Lemma continuation_unfold :
  forall k acc s,
    continuation (S k) acc s
    = match pct_escape s with
      | Some (b, r) =>
          if ((128 <=? b) && (b <=? 191))%nat then
            match continuation k (acc * 64 + N.of_nat (b - 128))%N r with
            | Some (bs, cp, r') => Some (String (chr b) bs, cp, r')
            | None => None
            end
          else None
      | None => None
      end.
Proof. reflexivity. Qed.

Lemma continuation_pct :
  forall k acc y r,
    (128 <= y <= 191)%nat ->
    continuation (S k) acc (pct y r)
    = match continuation k (acc * 64 + N.of_nat (y - 128))%N r with
      | Some (bs, cp, r') => Some (String (chr y) bs, cp, r')
      | None => None
      end.
Proof.
  intros k acc y r Hy. rewrite continuation_unfold, pct_escape_pct by lia.
  replace ((128 <=? y) && (y <=? 191))%nat with true; [reflexivity |].
  symmetry. apply andb_true_iff. split; apply Nat.leb_le; lia.
Qed.

Lemma decode_pct_ascii :
  forall fuel n r,
    (n < 128)%nat ->
    decodeURIComponent_fuel (S fuel) (pct n r)
    = option_map (String (chr n)) (decodeURIComponent_fuel fuel r).
Proof.
  intros fuel n r Hn. unfold pct at 1. rewrite decode_unfold, Ascii.eqb_refl.
  fold (pct n r). rewrite pct_escape_pct by lia.
  replace (n <? 128)%nat with true by (symmetry; apply Nat.ltb_lt; lia).
  reflexivity.
Qed.

Ltac ltb_false := symmetry; apply Nat.ltb_ge; lia.
Ltac ltb_true := symmetry; apply Nat.ltb_lt; lia.

Lemma decode_pct2 :
  forall fuel x y r,
    (194 <= x <= 223)%nat -> (128 <= y <= 191)%nat ->
    decodeURIComponent_fuel (S fuel) (pct x (pct y r))
    = option_map (fun t => String (chr x) (String (chr y) t))
        (decodeURIComponent_fuel fuel r).
Proof.
  intros fuel x y r Hx Hy. unfold pct at 1. rewrite decode_unfold, Ascii.eqb_refl.
  fold (pct x (pct y r)). rewrite pct_escape_pct by lia.
  replace (x <? 128)%nat with false by ltb_false.
  replace (x <? 192)%nat with false by ltb_false.
  replace (x <? 224)%nat with true by ltb_true.
  cbv zeta. cbv iota.
  rewrite continuation_pct by lia. cbn [continuation].
  replace (valid_code_point 2 (N.of_nat (x - 192) * 64 + N.of_nat (y - 128)))
    with true.
  - reflexivity.
  - symmetry. cbn [valid_code_point]. apply N.leb_le. lia.
Qed.

Lemma decode_pct3 :
  forall fuel x y z r,
    (224 <= x <= 239)%nat -> (128 <= y <= 191)%nat -> (128 <= z <= 191)%nat ->
    (x = 224 -> 160 <= y)%nat -> (x = 237 -> y <= 159)%nat ->
    decodeURIComponent_fuel (S fuel) (pct x (pct y (pct z r)))
    = option_map (fun t => String (chr x) (String (chr y) (String (chr z) t)))
        (decodeURIComponent_fuel fuel r).
Proof.
  intros fuel x y z r Hx Hy Hz H224 H237.
  unfold pct at 1. rewrite decode_unfold, Ascii.eqb_refl.
  fold (pct x (pct y (pct z r))). rewrite pct_escape_pct by lia.
  replace (x <? 128)%nat with false by ltb_false.
  replace (x <? 192)%nat with false by ltb_false.
  replace (x <? 224)%nat with false by ltb_false.
  replace (x <? 240)%nat with true by ltb_true.
  cbv zeta. cbv iota.
  rewrite !continuation_pct by lia. cbn [continuation].
  match goal with
  | |- context [valid_code_point 3 ?cp] =>
      replace (valid_code_point 3 cp) with true
  end.
  - reflexivity.
  - symmetry. cbn [valid_code_point]. apply andb_true_iff. split.
    + apply N.leb_le. lia.
    + apply negb_true_iff. apply andb_false_iff.
      destruct (Nat.le_gt_cases x 237) as [Hle | Hgt].
      * left. apply N.leb_gt. lia.
      * right. apply N.leb_gt. lia.
Qed.

Lemma decode_pct4 :
  forall fuel x y z w r,
    (240 <= x <= 244)%nat -> (128 <= y <= 191)%nat -> (128 <= z <= 191)%nat ->
    (128 <= w <= 191)%nat ->
    (x = 240 -> 144 <= y)%nat -> (x = 244 -> y <= 143)%nat ->
    decodeURIComponent_fuel (S fuel) (pct x (pct y (pct z (pct w r))))
    = option_map
        (fun t => String (chr x) (String (chr y) (String (chr z) (String (chr w) t))))
        (decodeURIComponent_fuel fuel r).
Proof.
  intros fuel x y z w r Hx Hy Hz Hw H240 H244.
  unfold pct at 1. rewrite decode_unfold, Ascii.eqb_refl.
  fold (pct x (pct y (pct z (pct w r)))). rewrite pct_escape_pct by lia.
  replace (x <? 128)%nat with false by ltb_false.
  replace (x <? 192)%nat with false by ltb_false.
  replace (x <? 224)%nat with false by ltb_false.
  replace (x <? 240)%nat with false by ltb_false.
  replace (x <? 248)%nat with true by ltb_true.
  cbv zeta. cbv iota.
  rewrite !continuation_pct by lia. cbn [continuation].
  match goal with
  | |- context [valid_code_point 4 ?cp] =>
      replace (valid_code_point 4 cp) with true
  end.
  - reflexivity.
  - symmetry. cbn [valid_code_point]. apply andb_true_iff.
    split; apply N.leb_le; lia.
Qed.

Lemma decode_nil : forall fuel, decodeURIComponent_fuel fuel "" = Some "".
Proof. intros [| fuel]; reflexivity. Qed.

Lemma length_pct : forall n r, String.length (pct n r) = S (S (S (String.length r))).
Proof. reflexivity. Qed.

Lemma percent_encode_String :
  forall keep c s,
    percent_encode keep (String c s)
    = if keep c then String c (percent_encode keep s)
      else pct (nat_of_ascii c) (percent_encode keep s).
Proof. reflexivity. Qed.

Lemma utf8_valid_unfold :
  forall a r,
    utf8_valid (String a r)
    = let x := nat_of_ascii a in
      if (x <? 128)%nat then utf8_valid r
      else
        match r with
        | "" => false
        | String b r2 =>
            let y := nat_of_ascii b in
            if ((194 <=? x) && (x <=? 223))%nat then utf8_tail b && utf8_valid r2
            else
              match r2 with
              | "" => false
              | String c r3 =>
                  if ((224 <=? x) && (x <=? 239))%nat then
                    (if (x =? 224)%nat then ((160 <=? y) && (y <=? 191))%nat
                     else if (x =? 237)%nat then ((128 <=? y) && (y <=? 159))%nat
                     else utf8_tail b)
                    && utf8_tail c && utf8_valid r3
                  else
                    match r3 with
                    | "" => false
                    | String d r4 =>
                        if ((240 <=? x) && (x <=? 244))%nat then
                          (if (x =? 240)%nat then ((144 <=? y) && (y <=? 191))%nat
                           else if (x =? 244)%nat then ((128 <=? y) && (y <=? 143))%nat
                           else utf8_tail b)
                          && utf8_tail c && utf8_tail d && utf8_valid r4
                        else false
                    end
              end
        end.
Proof. reflexivity. Qed.

Ltac bool_to_prop :=
  repeat match goal with
         | H : _ && _ = true |- _ =>
             apply andb_true_iff in H; destruct H
         | H : (_ <=? _)%nat = true |- _ => apply Nat.leb_le in H
         | H : (_ <=? _)%nat = false |- _ => apply Nat.leb_gt in H
         | H : (_ <? _)%nat = true |- _ => apply Nat.ltb_lt in H
         | H : (_ <? _)%nat = false |- _ => apply Nat.ltb_ge in H
         | H : (_ =? _)%nat = true |- _ => apply Nat.eqb_eq in H
         | H : (_ =? _)%nat = false |- _ => apply Nat.eqb_neq in H
         | H : utf8_tail _ = true |- _ => unfold utf8_tail in H
         end.

(** Decoding the percent-encoding of a well-formed text gives the text
    back, whatever ASCII characters other than [%] the encoding keeps. *)
Lemma decode_percent_encode :
  forall keep,
    (forall c, keep c = true ->
               (nat_of_ascii c < 128)%nat /\ Ascii.eqb c (chr 37) = false) ->
    forall n s,
      (String.length s <= n)%nat ->
      utf8_valid s = true ->
      forall fuel,
        (String.length (percent_encode keep s) <= fuel)%nat ->
        decodeURIComponent_fuel fuel (percent_encode keep s) = Some s.
Proof.
  intros keep Hkeep.
  assert (Hhigh : forall c, (128 <= nat_of_ascii c)%nat -> keep c = false).
  { intros c Hc. destruct (keep c) eqn:E; [| reflexivity].
    destruct (Hkeep c E) as [Hlt _]. lia. }
  induction n as [| n IH]; intros s Hlen Hvalid fuel Hfuel.
  - destruct s; [apply decode_nil | simpl in Hlen; lia].
  - destruct s as [| a r]; [apply decode_nil |].
    rewrite utf8_valid_unfold in Hvalid. cbv zeta in Hvalid.
    cbn [String.length] in Hlen.
    destruct (nat_of_ascii a <? 128)%nat eqn:E1.
    + (* one byte *)
      rewrite percent_encode_String in *. bool_to_prop.
      destruct (keep a) eqn:Ek.
      * destruct (Hkeep a Ek) as [_ Hpct].
        cbn [String.length] in Hfuel.
        destruct fuel as [| fuel]; [lia |].
        rewrite decode_plain by exact Hpct.
        rewrite (IH r) by (assumption || lia). reflexivity.
      * rewrite length_pct in Hfuel.
        destruct fuel as [| fuel]; [lia |].
        rewrite decode_pct_ascii by lia.
        rewrite (IH r) by (assumption || lia).
        cbn [option_map]. rewrite chr_nat_of_ascii. reflexivity.
    + destruct r as [| b r2]; [discriminate |].
      cbn [String.length] in Hlen.
      destruct ((194 <=? nat_of_ascii a) && (nat_of_ascii a <=? 223))%nat eqn:E2.
      * (* two bytes *)
        bool_to_prop.
        rewrite !percent_encode_String in *.
        rewrite (Hhigh a), (Hhigh b) in * by lia.
        rewrite !length_pct in Hfuel.
        destruct fuel as [| fuel]; [lia |].
        rewrite decode_pct2 by lia.
        rewrite (IH r2) by (assumption || lia).
        cbn [option_map]. rewrite !chr_nat_of_ascii. reflexivity.
      * destruct r2 as [| c r3]; [discriminate |].
        cbn [String.length] in Hlen.
        destruct ((224 <=? nat_of_ascii a) && (nat_of_ascii a <=? 239))%nat eqn:E3.
        -- (* three bytes *)
           assert (Hy : (128 <= nat_of_ascii b <= 191)%nat
                        /\ (nat_of_ascii a = 224 -> 160 <= nat_of_ascii b)%nat
                        /\ (nat_of_ascii a = 237 -> nat_of_ascii b <= 159)%nat).
           { destruct (nat_of_ascii a =? 224)%nat eqn:E224;
               [| destruct (nat_of_ascii a =? 237)%nat eqn:E237];
               bool_to_prop; lia. }
           destruct Hy as [Hy [H224 H237]].
           apply andb_true_iff in Hvalid. destruct Hvalid as [Hvalid Hr3].
           apply andb_true_iff in Hvalid. destruct Hvalid as [_ Hz].
           bool_to_prop.
           rewrite !percent_encode_String in *.
           rewrite (Hhigh a), (Hhigh b), (Hhigh c) in * by lia.
           rewrite !length_pct in Hfuel.
           destruct fuel as [| fuel]; [lia |].
           rewrite decode_pct3 by (assumption || lia).
           rewrite (IH r3) by (assumption || lia).
           cbn [option_map]. rewrite !chr_nat_of_ascii. reflexivity.
        -- destruct r3 as [| d r4]; [discriminate |].
           cbn [String.length] in Hlen.
           destruct ((240 <=? nat_of_ascii a) && (nat_of_ascii a <=? 244))%nat
             eqn:E4; [| discriminate].
           (* four bytes *)
           assert (Hy : (128 <= nat_of_ascii b <= 191)%nat
                        /\ (nat_of_ascii a = 240 -> 144 <= nat_of_ascii b)%nat
                        /\ (nat_of_ascii a = 244 -> nat_of_ascii b <= 143)%nat).
           { destruct (nat_of_ascii a =? 240)%nat eqn:E240;
               [| destruct (nat_of_ascii a =? 244)%nat eqn:E244];
               bool_to_prop; lia. }
           destruct Hy as [Hy [H240 H244]].
           apply andb_true_iff in Hvalid. destruct Hvalid as [Hvalid Hr4].
           apply andb_true_iff in Hvalid. destruct Hvalid as [Hvalid Hw].
           apply andb_true_iff in Hvalid. destruct Hvalid as [_ Hz].
           bool_to_prop.
           rewrite !percent_encode_String in *.
           rewrite (Hhigh a), (Hhigh b), (Hhigh c), (Hhigh d) in * by lia.
           rewrite !length_pct in Hfuel.
           destruct fuel as [| fuel]; [lia |].
           rewrite decode_pct4 by (assumption || lia).
           rewrite (IH r4) by (assumption || lia).
           cbn [option_map]. rewrite !chr_nat_of_ascii. reflexivity.
Qed.

Lemma encodeURIComponent_percent_encode :
  forall s, encodeURIComponent s = percent_encode uri_unreserved s.
Proof.
  induction s as [| c s IH]; [reflexivity |].
  cbn [encodeURIComponent percent_encode]. rewrite IH. reflexivity.
Qed.

Lemma uri_unreserved_ascii :
  forall c, uri_unreserved c = true ->
    (nat_of_ascii c < 128)%nat /\ Ascii.eqb c (chr 37) = false.
Proof.
  intros c H.
  assert (Hall : (nat_of_ascii c <? 128)%nat && negb (Ascii.eqb c (chr 37))
                 = true).
  { revert c H.
    all_bytes uri_unreserved
      (fun c => (nat_of_ascii c <? 128)%nat && negb (Ascii.eqb c (chr 37))). }
  apply andb_true_iff in Hall. destruct Hall as [H1 H2].
  apply Nat.ltb_lt in H1. apply negb_true_iff in H2. split; assumption.
Qed.

(** [decodeURIComponent] gives back the text [encodeURIComponent]
    was given, for every well-formed text. *)
Lemma decodeURIComponent_encodeURIComponent :
  forall s : string,
    utf8_valid s = true ->
    decodeURIComponent (encodeURIComponent s) = Some s.
Proof.
  intros s Hvalid. unfold decodeURIComponent.
  rewrite encodeURIComponent_percent_encode.
  apply (decode_percent_encode uri_unreserved uri_unreserved_ascii
           (String.length s) s (Nat.le_refl _) Hvalid).
  apply Nat.le_refl.
Qed.

Lemma utf8_valid_app :
  forall a b,
    utf8_valid a = true -> utf8_valid b = true -> utf8_valid (a +:+ b) = true.
Proof.
  intros a b Ha Hb.
  assert (H : forall n a, (String.length a <= n)%nat ->
                          utf8_valid a = true -> utf8_valid (a +:+ b) = true).
  { clear a Ha. induction n as [| n IH]; intros a Hlen Ha.
    - destruct a; [exact Hb | simpl in Hlen; lia].
    - destruct a as [| x r]; [exact Hb |].
      cbn [String.length] in Hlen.
      cbn [String.append]. rewrite utf8_valid_unfold in *. cbv zeta in *.
      destruct (nat_of_ascii x <? 128)%nat.
      + apply IH; [lia | exact Ha].
      + destruct r as [| y r2]; [discriminate |].
        cbn [String.length] in Hlen. cbn [String.append].
        destruct ((194 <=? nat_of_ascii x) && (nat_of_ascii x <=? 223))%nat.
        * apply andb_true_iff in Ha. destruct Ha as [Hy Hr].
          rewrite Hy. apply IH; [lia | exact Hr].
        * destruct r2 as [| z r3]; [discriminate |].
          cbn [String.length] in Hlen. cbn [String.append].
          destruct ((224 <=? nat_of_ascii x) && (nat_of_ascii x <=? 239))%nat.
          -- apply andb_true_iff in Ha. destruct Ha as [Hyz Hr].
             rewrite Hyz. apply IH; [lia | exact Hr].
          -- destruct r3 as [| w r4]; [discriminate |].
             cbn [String.length] in Hlen. cbn [String.append].
             destruct ((240 <=? nat_of_ascii x) && (nat_of_ascii x <=? 244))%nat;
               [| discriminate].
             apply andb_true_iff in Ha. destruct Ha as [Hyzw Hr].
             rewrite Hyzw. apply IH; [lia | exact Hr]. }
  apply (H (String.length a) a (Nat.le_refl _) Ha).
Qed.

(** ** The pieces of a SIP002 URI *)

Lemma all_chars_app :
  forall p a b, all_chars p (a +:+ b) = all_chars p a && all_chars p b.
Proof.
  intros p a b. induction a as [| c a IH]; [reflexivity |].
  cbn [String.append all_chars]. rewrite IH, andb_assoc. reflexivity.
Qed.

Lemma all_chars_impl :
  forall (p q : ascii -> bool) s,
    (forall c, p c = true -> q c = true) ->
    all_chars p s = true -> all_chars q s = true.
Proof.
  intros p q s Hpq. induction s as [| c s IH]; [reflexivity |].
  cbn [all_chars]. intros H. apply andb_true_iff in H. destruct H as [Hc Hs].
  rewrite (Hpq c Hc), (IH Hs). reflexivity.
Qed.

Lemma urlsafe_piece : forall c, urlsafe_char c = true -> uri_piece_char c = true.
Proof. intros c H. unfold uri_piece_char. rewrite H. reflexivity. Qed.
Lemma dns_piece : forall c, dns_char c = true -> uri_piece_char c = true.
Proof. intros c H. unfold uri_piece_char. rewrite H, orb_true_r. reflexivity. Qed.
Lemma enc_piece : forall c, enc_char c = true -> uri_piece_char c = true.
Proof.
  intros c H. unfold uri_piece_char. rewrite H, !orb_true_r. reflexivity.
Qed.
Lemma digit_piece : forall c, is_digit c = true -> uri_piece_char c = true.
Proof. all_bytes is_digit uri_piece_char. Qed.

Lemma piece_char_facts :
  forall c, uri_piece_char c = true ->
    is_ws c = false /\ Ascii.eqb c (chr 92) = false
    /\ Ascii.eqb c LF = false /\ Ascii.eqb c "#" = false.
Proof.
  intros c H.
  assert (Hall : negb (is_ws c) && negb (Ascii.eqb c (chr 92))
                 && negb (Ascii.eqb c LF) && negb (Ascii.eqb c "#") = true).
  { revert c H.
    all_bytes uri_piece_char
      (fun c => negb (is_ws c) && negb (Ascii.eqb c (chr 92))
                && negb (Ascii.eqb c LF) && negb (Ascii.eqb c "#")). }
  apply andb_true_iff in Hall. destruct Hall as [Hall H4].
  apply andb_true_iff in Hall. destruct Hall as [Hall H3].
  apply andb_true_iff in Hall. destruct Hall as [H1 H2].
  apply negb_true_iff in H1, H2, H3, H4. repeat split; assumption.
Qed.

Lemma enc_char_facts :
  forall c, enc_char c = true ->
    Ascii.eqb c "&" = false /\ Ascii.eqb c "=" = false
    /\ Ascii.eqb c "+" = false /\ Ascii.eqb c ";" = false.
Proof.
  intros c H.
  assert (Hall : negb (Ascii.eqb c "&") && negb (Ascii.eqb c "=")
                 && negb (Ascii.eqb c "+") && negb (Ascii.eqb c ";") = true).
  { revert c H.
    all_bytes enc_char
      (fun c => negb (Ascii.eqb c "&") && negb (Ascii.eqb c "=")
                && negb (Ascii.eqb c "+") && negb (Ascii.eqb c ";")). }
  apply andb_true_iff in Hall. destruct Hall as [Hall H4].
  apply andb_true_iff in Hall. destruct Hall as [Hall H3].
  apply andb_true_iff in Hall. destruct Hall as [H1 H2].
  apply negb_true_iff in H1, H2, H3, H4. repeat split; assumption.
Qed.

Lemma length_app :
  forall a b, String.length (a +:+ b) = (String.length a + String.length b)%nat.
Proof.
  intros a b. induction a as [| c a IH]; [reflexivity |].
  cbn [String.append String.length]. rewrite IH. reflexivity.
Qed.

Lemma take_app : forall a b, take (String.length a) (a +:+ b) = a.
Proof.
  intros a b. induction a as [| c a IH]; [destruct b; reflexivity |].
  cbn [String.append String.length take]. rewrite IH. reflexivity.
Qed.

Lemma drop_app : forall a b, drop (String.length a) (a +:+ b) = b.
Proof.
  intros a b. induction a as [| c a IH]; [reflexivity |].
  cbn [String.append String.length drop]. exact IH.
Qed.

Lemma drop_app_S :
  forall a c b, drop (S (String.length a)) (a +:+ String c b) = b.
Proof.
  intros a c b. induction a as [| d a IH]; [reflexivity |].
  cbn [String.append String.length drop]. exact IH.
Qed.

Lemma take_app_S :
  forall a c b, take (String.length a) (a +:+ String c b) = a.
Proof. intros a c b. apply take_app. Qed.

Lemma indexOf_app_Some :
  forall c a b,
    indexOf c a = None ->
    indexOf c (a +:+ String c b) = Some (String.length a).
Proof.
  intros c a b. induction a as [| d a IH]; intros H.
  - cbn [String.append indexOf]. rewrite Ascii.eqb_refl. reflexivity.
  - cbn [String.append indexOf String.length] in *.
    destruct (Ascii.eqb d c); [discriminate |].
    destruct (indexOf c a); [discriminate |].
    rewrite (IH eq_refl). reflexivity.
Qed.

Lemma cut_app :
  forall c a b, indexOf c a = None -> cut c (a +:+ String c b) = (a, Some b).
Proof.
  intros c a b H. unfold cut. rewrite (indexOf_app_Some c a b H).
  rewrite take_app_S, drop_app_S. reflexivity.
Qed.

Lemma indexOf_all_chars :
  forall p c s,
    (forall d, p d = true -> Ascii.eqb d c = false) ->
    all_chars p s = true -> indexOf c s = None.
Proof.
  intros p c s Hp. induction s as [| d s IH]; [reflexivity |].
  cbn [all_chars indexOf]. intros H. apply andb_true_iff in H.
  destruct H as [Hd Hs]. rewrite (Hp d Hd), (IH Hs). reflexivity.
Qed.

Lemma lastIndexOf_all_chars :
  forall p c s,
    (forall d, p d = true -> Ascii.eqb d c = false) ->
    all_chars p s = true -> lastIndexOf c s = None.
Proof.
  intros p c s Hp. induction s as [| d s IH]; [reflexivity |].
  cbn [all_chars lastIndexOf]. intros H. apply andb_true_iff in H.
  destruct H as [Hd Hs]. rewrite (IH Hs), (Hp d Hd). reflexivity.
Qed.

Lemma lastIndexOf_app :
  forall c a b,
    lastIndexOf c b = None ->
    lastIndexOf c (a +:+ String c b) = Some (String.length a).
Proof.
  intros c a b Hb. induction a as [| d a IH].
  - cbn [String.append lastIndexOf]. rewrite Hb, Ascii.eqb_refl. reflexivity.
  - cbn [String.append lastIndexOf String.length]. rewrite IH. reflexivity.
Qed.

(** *** The legacy parser on the pieces of a SIP002 URI *)

Lemma trim_no_white_space :
  forall s, all_chars (fun c => negb (is_ws c)) s = true -> trim s = s.
Proof.
  intros s H. destruct s as [| c s]; [reflexivity |].
  apply trim_token. split; [discriminate | exact H].
Qed.

Lemma convert_backslashes_none :
  forall s,
    all_chars (fun c => negb (Ascii.eqb c (chr 92))) s = true ->
    convert_backslashes s = s.
Proof.
  induction s as [| c s IH]; [reflexivity |].
  cbn [all_chars convert_backslashes]. intros H.
  apply andb_true_iff in H. destruct H as [Hc Hs].
  apply negb_true_iff in Hc. rewrite Hc, (IH Hs).
  destruct (Ascii.eqb c (chr 63) || Ascii.eqb c (chr 35)); reflexivity.
Qed.

Lemma host_scan_plain :
  forall a r i atSign nonHost,
    all_chars scan_plain a = true ->
    host_scan (a +:+ r) i atSign nonHost
    = host_scan r (i + String.length a) atSign nonHost.
Proof.
  induction a as [| c a IH]; intros r i atSign nonHost H.
  - cbn [String.append String.length]. rewrite Nat.add_0_r. reflexivity.
  - cbn [all_chars] in H. apply andb_true_iff in H. destruct H as [Hc Ha].
    unfold scan_plain in Hc.
    apply andb_true_iff in Hc. destruct Hc as [Hc H3].
    apply andb_true_iff in Hc. destruct Hc as [H1 H2].
    apply negb_true_iff in H1, H2, H3.
    cbn [String.append host_scan String.length]. rewrite H1, H2, H3.
    rewrite (IH r (S i) atSign nonHost Ha). f_equal. lia.
Qed.

Lemma urlsafe_scan_plain : forall c, urlsafe_char c = true -> scan_plain c = true.
Proof. all_bytes urlsafe_char scan_plain. Qed.

Lemma dns_scan_plain : forall c, dns_char c = true -> scan_plain c = true.
Proof. all_bytes dns_char scan_plain. Qed.

Lemma digit_scan_plain : forall c, is_digit c = true -> scan_plain c = true.
Proof. all_bytes is_digit scan_plain. Qed.

Lemma dns_hostname_char : forall c, dns_char c = true -> hostname_char c = true.
Proof. all_bytes dns_char hostname_char. Qed.

Lemma dns_lower_char : forall c, dns_char c = true -> lower_char c = c.
Proof.
  intros c H. apply Ascii.eqb_eq. revert c H.
  all_bytes dns_char (fun c => Ascii.eqb (lower_char c) c).
Qed.

Lemma dns_not_bracket : forall c, dns_char c = true -> Ascii.eqb "[" c = false.
Proof.
  intros c H. apply negb_true_iff. revert c H.
  all_bytes dns_char (fun c => negb (Ascii.eqb "[" c)).
Qed.

Lemma digit_not_colon : forall c, is_digit c = true -> Ascii.eqb c ":" = false.
Proof.
  intros c H. apply negb_true_iff. revert c H.
  all_bytes is_digit (fun c => negb (Ascii.eqb c ":")).
Qed.

Lemma urlsafe_not_percent :
  forall c, urlsafe_char c = true -> Ascii.eqb c (chr 37) = false.
Proof.
  intros c H. apply negb_true_iff. revert c H.
  all_bytes urlsafe_char (fun c => negb (Ascii.eqb c (chr 37))).
Qed.

Lemma valid_hostname_plain :
  forall h, all_chars dns_char h = true -> valid_hostname h = (h, "").
Proof.
  induction h as [| c h IH]; [reflexivity |].
  cbn [all_chars valid_hostname]. intros H.
  apply andb_true_iff in H. destruct H as [Hc Hh].
  rewrite (dns_hostname_char c Hc), (IH Hh). reflexivity.
Qed.

Lemma toLowerCase_plain :
  forall h, all_chars dns_char h = true -> toLowerCase h = h.
Proof.
  induction h as [| c h IH]; [reflexivity |].
  cbn [all_chars]. intros H. apply andb_true_iff in H. destruct H as [Hc Hh].
  unfold toLowerCase in *. cbn [map_string].
  rewrite (dns_lower_char c Hc), (IH Hh). reflexivity.
Qed.

Lemma parseHost_plain :
  forall host port,
    all_chars dns_char host = true -> plain_port port = true ->
    parseHost (host +:+ String ":" port) = (host, Some port).
Proof.
  intros host port Hhost Hport. unfold plain_port in Hport.
  apply andb_true_iff in Hport. destruct Hport as [Hdigits Hne].
  unfold parseHost. change (chr 58) with ":"%char.
  rewrite (lastIndexOf_app ":" host port)
    by (apply (lastIndexOf_all_chars is_digit);
        [apply digit_not_colon | exact Hdigits]).
  rewrite drop_app_S, take_app_S, Hdigits.
  apply negb_true_iff in Hne. rewrite Hne. reflexivity.
Qed.

Lemma decodeURIComponent_plain :
  forall s,
    all_chars (fun c => negb (Ascii.eqb c (chr 37))) s = true ->
    decodeURIComponent s = Some s.
Proof.
  intros s H. unfold decodeURIComponent.
  induction s as [| c s IH]; [reflexivity |].
  cbn [all_chars] in H. apply andb_true_iff in H. destruct H as [Hc Hs].
  apply negb_true_iff in Hc.
  cbn [String.length]. rewrite decode_plain by exact Hc.
  rewrite (IH Hs). reflexivity.
Qed.

(** *** Escaping by the legacy parser *)

Lemma autoEscapeStr_String :
  forall c r,
    autoEscapeStr (String c r)
    = (if Ascii.eqb c (chr 39) then "%27" else auto_escape_char c)
        +:+ autoEscapeStr r.
Proof. reflexivity. Qed.

Lemma autoEscapeStr_app :
  forall a b, autoEscapeStr (a +:+ b) = autoEscapeStr a +:+ autoEscapeStr b.
Proof.
  intros a b. induction a as [| c a IH]; [reflexivity |].
  cbn [String.append]. rewrite !autoEscapeStr_String, IH, append_assoc.
  reflexivity.
Qed.

Lemma auto_escape_unreserved :
  forall c, uri_unreserved c = true ->
    (if Ascii.eqb c (chr 39) then "%27" else auto_escape_char c)
    = if kept_by_parser c then str1 c else pct (nat_of_ascii c) "".
Proof.
  intros c H. apply String.eqb_eq. revert c H.
  all_bytes uri_unreserved
    (fun c => String.eqb
                (if Ascii.eqb c (chr 39) then "%27" else auto_escape_char c)
                (if kept_by_parser c then str1 c else pct (nat_of_ascii c) "")).
Qed.

Lemma auto_escape_hex :
  forall k, (k < 16)%nat ->
    (if Ascii.eqb (upper_hex_digit k) (chr 39) then "%27"
     else auto_escape_char (upper_hex_digit k))
    = str1 (upper_hex_digit k).
Proof.
  intros k H. do 16 (destruct k as [| k]; [reflexivity |]). lia.
Qed.

Lemma autoEscapeStr_encodeURIComponent :
  forall s,
    autoEscapeStr (encodeURIComponent s) = percent_encode kept_by_parser s.
Proof.
  induction s as [| c s IH]; [reflexivity |].
  pose proof (byte_bound c) as Hc.
  cbn [encodeURIComponent]. rewrite percent_encode_String.
  destruct (uri_unreserved c) eqn:E.
  - rewrite autoEscapeStr_String, (auto_escape_unreserved c E), IH.
    destruct (kept_by_parser c); reflexivity.
  - unfold kept_by_parser. rewrite E. cbn [andb]. cbv zeta.
    rewrite !autoEscapeStr_String, IH.
    rewrite !auto_escape_hex by byte_arith.
    reflexivity.
Qed.

Lemma kept_by_parser_ascii :
  forall c, kept_by_parser c = true ->
    (nat_of_ascii c < 128)%nat /\ Ascii.eqb c (chr 37) = false.
Proof.
  intros c H. apply uri_unreserved_ascii. unfold kept_by_parser in H.
  apply andb_true_iff in H. destruct H as [H _]. exact H.
Qed.

Lemma upper_hex_digit_enc :
  forall k, (k < 16)%nat -> enc_char (upper_hex_digit k) = true.
Proof.
  intros k H. do 16 (destruct k as [| k]; [reflexivity |]). lia.
Qed.

Lemma percent_encode_pieces :
  forall keep s,
    (forall c, keep c = true -> uri_unreserved c = true) ->
    all_chars enc_char (percent_encode keep s) = true.
Proof.
  intros keep s Hkeep. induction s as [| c s IH]; [reflexivity |].
  pose proof (byte_bound c) as Hc.
  rewrite percent_encode_String. destruct (keep c) eqn:E.
  - cbn [all_chars]. unfold enc_char at 1. rewrite (Hkeep c E), IH.
    reflexivity.
  - unfold pct. cbn [all_chars].
    rewrite !upper_hex_digit_enc by byte_arith. rewrite IH. reflexivity.
Qed.

Lemma kept_by_parser_unreserved :
  forall c, kept_by_parser c = true -> uri_unreserved c = true.
Proof.
  intros c H. unfold kept_by_parser in H. apply andb_true_iff in H.
  destruct H as [H _]. exact H.
Qed.

Lemma auto_escape_piece :
  forall c, uri_piece_char c = true ->
    all_chars uri_piece_char
      (if Ascii.eqb c (chr 39) then "%27" else auto_escape_char c) = true.
Proof.
  all_bytes uri_piece_char
    (fun c => all_chars uri_piece_char
                (if Ascii.eqb c (chr 39) then "%27" else auto_escape_char c)).
Qed.

Lemma autoEscapeStr_pieces :
  forall s,
    all_chars uri_piece_char s = true ->
    all_chars uri_piece_char (autoEscapeStr s) = true.
Proof.
  induction s as [| c s IH]; [reflexivity |].
  cbn [all_chars]. intros H. apply andb_true_iff in H. destruct H as [Hc Hs].
  rewrite autoEscapeStr_String, all_chars_app.
  rewrite (auto_escape_piece c Hc), (IH Hs). reflexivity.
Qed.

Lemma pieces_not_ws :
  forall s, all_chars uri_piece_char s = true ->
    all_chars (fun c => negb (is_ws c)) s = true.
Proof.
  intros s. apply all_chars_impl. intros c H.
  destruct (piece_char_facts c H) as [-> _]. reflexivity.
Qed.

Lemma pieces_not_backslash :
  forall s, all_chars uri_piece_char s = true ->
    all_chars (fun c => negb (Ascii.eqb c (chr 92))) s = true.
Proof.
  intros s. apply all_chars_impl. intros c H.
  destruct (piece_char_facts c H) as [_ [-> _]]. reflexivity.
Qed.

Lemma pieces_not_hash :
  forall s, all_chars uri_piece_char s = true -> indexOf "#" s = None.
Proof.
  intros s. apply indexOf_all_chars. intros c H.
  destruct (piece_char_facts c H) as [_ [_ [_ H4]]]. exact H4.
Qed.

Lemma pieces_not_LF :
  forall s, all_chars uri_piece_char s = true -> indexOf LF s = None.
Proof.
  intros s. apply indexOf_all_chars. intros c H.
  destruct (piece_char_facts c H) as [_ [_ [H3 _]]]. exact H3.
Qed.

Lemma url_parse_sip002 :
  forall userinfo host port query fragment,
    all_chars urlsafe_char userinfo = true ->
    plain_host host = true ->
    plain_port port = true ->
    all_chars uri_piece_char query = true ->
    all_chars uri_piece_char fragment = true ->
    url_parse ("ss://" +:+ userinfo +:+ "@" +:+ host +:+ ":" +:+ port +:+ "/?"
                 +:+ query +:+ "#" +:+ fragment)
    = Some (mkUrl (Some "ss:") (Some userinfo) (Some host) (Some port)
              (querystring_parse (autoEscapeStr query))
              (Some ("#" +:+ autoEscapeStr fragment))).
Proof.
  intros userinfo host port query fragment Huser Hhost Hport Hquery Hfragment.
  unfold plain_host in Hhost. apply andb_true_iff in Hhost.
  destruct Hhost as [Hhost Hlen].
  pose proof Hport as Hport'. unfold plain_port in Hport'.
  apply andb_true_iff in Hport'. destruct Hport' as [Hdigits _].
  pose proof (all_chars_impl _ _ _ urlsafe_piece Huser) as Puser.
  pose proof (all_chars_impl _ _ _ dns_piece Hhost) as Phost.
  pose proof (all_chars_impl _ _ _ digit_piece Hdigits) as Pport.
  remember ("ss://" +:+ userinfo +:+ "@" +:+ host +:+ ":" +:+ port +:+ "/?"
              +:+ query +:+ "#" +:+ fragment) as uri eqn:Huri.
  pose (tail := "/?" +:+ query +:+ "#" +:+ fragment).
  pose (hostport := host +:+ String ":" port).
  pose (authority := userinfo +:+ String "@" hostport).
  assert (Hrest : uri = "ss://" +:+ authority +:+ tail).
  { subst uri. unfold authority, hostport, tail. cbn [String.append].
    rewrite !append_assoc. cbn [String.append]. rewrite !append_assoc.
    reflexivity. }
  assert (Hws : all_chars (fun c => negb (is_ws c)) uri = true).
  { subst uri. rewrite !all_chars_app.
    rewrite (pieces_not_ws _ Puser), (pieces_not_ws _ Phost),
      (pieces_not_ws _ Pport), (pieces_not_ws _ Hquery),
      (pieces_not_ws _ Hfragment).
    reflexivity. }
  assert (Hbs : all_chars (fun c => negb (Ascii.eqb c (chr 92))) uri = true).
  { subst uri. rewrite !all_chars_app.
    rewrite (pieces_not_backslash _ Puser), (pieces_not_backslash _ Phost),
      (pieces_not_backslash _ Pport), (pieces_not_backslash _ Hquery),
      (pieces_not_backslash _ Hfragment).
    reflexivity. }
  assert (Hscan : host_scan (authority +:+ tail) 0 None None
                  = (Some (String.length userinfo),
                     Some (String.length authority))).
  { unfold authority.
    rewrite append_assoc.
    rewrite (host_scan_plain userinfo)
      by (exact (all_chars_impl _ _ _ urlsafe_scan_plain Huser)).
    cbn [String.append host_scan].
    change (non_host_char "@") with false.
    change (host_ending_char "@") with false.
    change (Ascii.eqb "@" (chr 64)) with true. cbv iota.
    rewrite (host_scan_plain hostport).
    - unfold tail. cbn [String.append host_scan].
      change (non_host_char "/") with false.
      change (host_ending_char "/") with true. cbv iota.
      f_equal. f_equal. rewrite length_app. cbn [String.length]. lia.
    - unfold hostport. rewrite all_chars_app. cbn [all_chars].
      rewrite (all_chars_impl _ _ _ dns_scan_plain Hhost).
      rewrite (all_chars_impl _ _ _ digit_scan_plain Hdigits).
      reflexivity. }
  clear Huri. subst uri.
  unfold url_parse.
  rewrite (trim_no_white_space _ Hws), (convert_backslashes_none _ Hbs).
  change (protocol_length ("ss://" +:+ authority +:+ tail)) with (Some 3%nat).
  cbv beta iota.
  change (take 3 ("ss://" +:+ authority +:+ tail)) with "ss:".
  change (drop 3 ("ss://" +:+ authority +:+ tail))
    with ("//" +:+ authority +:+ tail).
  change (toLowerCase "ss:") with "ss:".
  change (hostlessProtocol "ss:") with false.
  change (slashedProtocol "ss:") with false.
  change (is_prefix "//" ("//" +:+ authority +:+ tail)) with true.
  cbn [negb andb orb]. cbv iota.
  change (drop 2 ("//" +:+ authority +:+ tail)) with (authority +:+ tail).
  rewrite Hscan. cbv beta iota.
  rewrite take_app, drop_app.
  replace (take (String.length userinfo) (authority +:+ tail)) with userinfo
    by (unfold authority; rewrite append_assoc, take_app; reflexivity).
  replace (drop (S (String.length userinfo)) authority) with hostport
    by (unfold authority; rewrite drop_app_S; reflexivity).
  unfold hostport. rewrite (parseHost_plain host port Hhost Hport).
  cbv beta iota.
  assert (Hbracket : is_prefix "[" host = false).
  { destruct host as [| c h]; [reflexivity |].
    cbn [all_chars] in Hhost. apply andb_true_iff in Hhost.
    destruct Hhost as [Hc _]. cbn [is_prefix].
    rewrite (dns_not_bracket c Hc). reflexivity. }
  rewrite Hbracket. cbn [andb]. cbv iota.
  rewrite (valid_hostname_plain host Hhost). cbv beta iota.
  change (String.eqb "" "") with true. cbv iota.
  replace (255 <? String.length host)%nat with false
    by (symmetry; apply Nat.ltb_ge; apply Nat.leb_le; exact Hlen).
  rewrite (toLowerCase_plain host Hhost).
  rewrite (decodeURIComponent_plain userinfo)
    by (exact (all_chars_impl _ _ _
                 (fun c H => f_equal negb (urlsafe_not_percent c H)) Huser)).
  cbn [option_map]. cbv iota.
  change (String.eqb "ss:" "javascript:") with false. cbv iota.
  assert (Htail : autoEscapeStr tail
                  = ("/?" +:+ autoEscapeStr query)
                      +:+ String "#" (autoEscapeStr fragment)).
  { unfold tail. rewrite !autoEscapeStr_app.
    change (autoEscapeStr "/?") with "/?".
    change (autoEscapeStr "#") with "#".
    rewrite append_assoc. reflexivity. }
  rewrite Htail. change (chr 35) with "#"%char.
  rewrite cut_app.
  - change ("/?" +:+ autoEscapeStr query)
      with ("/" +:+ String (chr 63) (autoEscapeStr query)).
    rewrite cut_app by reflexivity. reflexivity.
  - apply indexOf_app_None; [reflexivity |].
    apply pieces_not_hash. apply autoEscapeStr_pieces. exact Hquery.
Qed.

(** ** Reading back what [getShadowsocksNodes] writes *)

(** The URI [getShadowsocksNodes] writes for a node. *)
Lemma shadowsocksNode_uri :
  forall groupName n name host method password,
    type n = Shadowsocks -> disabled n = false ->
    field n "nodeName" = JStr name ->
    field n "hostname" = JStr host ->
    (is_string (field n "port") = true \/ exists z, field n "port" = JNum z) ->
    field n "method" = JStr method ->
    field n "password" = JStr password ->
    shadowsocksNode groupName n
    = ret (Some ("ss://" +:+ toUrlSafeBase64 (method +:+ ":" +:+ password)
                   +:+ "@" +:+ host +:+ ":" +:+ toString (field n "port")
                   +:+ "/?" +:+ sip002_query groupName n
                   +:+ "#" +:+ encodeURIComponent name)).
Proof.
  intros groupName n name host method password Htype Henabled Hname
    Hhost Hport Hmethod Hpassword.
  unfold shadowsocksNode. rewrite Henabled, Htype.
  unfold sip002_query. fold (sip002_plugin n).
  rewrite Hname, Hhost, Hmethod, Hpassword. cbn [toString].
  assert (Hp : match field n "port" with
               | JUndefined | JNull => ""
               | _ => toString (field n "port")
               end = toString (field n "port")).
  { destruct Hport as [Hs | [z Hz]]; [| rewrite Hz; reflexivity].
    destruct (field n "port"); try discriminate Hs; reflexivity. }
  unfold join_vals. cbn [map join String.concat].
  rewrite Hp.
  destruct (truthy (field n "obfs")); destruct (String.eqb groupName "");
    reflexivity.
Qed.

Lemma replaceAllChar_absent :
  forall c rep s, indexOf c s = None -> replaceAllChar c rep s = s.
Proof.
  intros c rep s. induction s as [| d s IH]; [reflexivity |].
  cbn [indexOf]. rewrite replaceAllChar_String.
  destruct (Ascii.eqb d c); [discriminate |].
  destruct (indexOf c s); [discriminate |]. intros _.
  rewrite (IH eq_refl). reflexivity.
Qed.

(** The legacy parser and [querystring] unescape what
    [encodeURIComponent] wrote. *)
Lemma qs_unescape_encoded :
  forall s,
    utf8_valid s = true ->
    qs_unescape (percent_encode kept_by_parser s) = s.
Proof.
  intros s Hs. unfold qs_unescape.
  rewrite replaceAllChar_absent.
  - unfold decodeURIComponent.
    rewrite (decode_percent_encode kept_by_parser kept_by_parser_ascii
               (String.length s) s (Nat.le_refl _) Hs _ (Nat.le_refl _)).
    reflexivity.
  - apply (indexOf_all_chars enc_char).
    + intros c Hc. destruct (enc_char_facts c Hc) as [_ [_ [H _]]]. exact H.
    + apply percent_encode_pieces. apply kept_by_parser_unreserved.
Qed.

Lemma encoded_no_char :
  forall c s,
    (forall d, enc_char d = true -> Ascii.eqb d c = false) ->
    indexOf c (percent_encode kept_by_parser s) = None.
Proof.
  intros c s Hc. apply (indexOf_all_chars enc_char); [exact Hc |].
  apply percent_encode_pieces. apply kept_by_parser_unreserved.
Qed.

Lemma encoded_no_amp :
  forall s, indexOf "&" (percent_encode kept_by_parser s) = None.
Proof.
  intros s. apply encoded_no_char. intros d Hd.
  destruct (enc_char_facts d Hd) as [H _]. exact H.
Qed.

Lemma encoded_no_eq :
  forall s, indexOf "=" (percent_encode kept_by_parser s) = None.
Proof.
  intros s. apply encoded_no_char. intros d Hd.
  destruct (enc_char_facts d Hd) as [_ [H _]]. exact H.
Qed.

(** One [key=value] segment of a query, as [querystring.parse] adds it. *)
Lemma querystring_parse_segment :
  forall (o : Obj) (key value : string) (rest : list string),
    indexOf "=" key = None ->
    fold_left
      (fun o seg =>
         if String.eqb seg "" then o
         else
           let '(k, v) := cut (chr 61) seg in
           qs_add o (qs_unescape k)
             (qs_unescape (match v with Some t => t | None => "" end)))
      ((key +:+ "=" +:+ value) :: rest) o
    = fold_left
        (fun o seg =>
           if String.eqb seg "" then o
           else
             let '(k, v) := cut (chr 61) seg in
             qs_add o (qs_unescape k)
               (qs_unescape (match v with Some t => t | None => "" end)))
        rest (qs_add o (qs_unescape key) (qs_unescape value)).
Proof.
  intros o key value rest Hkey.
  assert (Hcut : cut (chr 61) (key +:+ "=" +:+ value) = (key, Some value)).
  { change (key +:+ "=" +:+ value) with (key +:+ String (chr 61) value).
    apply cut_app. exact Hkey. }
  assert (Hne : String.eqb (key +:+ "=" +:+ value) "" = false).
  { destruct key; reflexivity. }
  remember (key +:+ "=" +:+ value) as seg eqn:Eseg.
  cbn [fold_left]. rewrite Hne, Hcut. reflexivity.
Qed.

(** The [plugin] parameter the legacy parser reads from the query written
    for a node. *)
Lemma sip002_query_plugin :
  forall groupName n,
    (truthy (field n "obfs") = true -> utf8_valid (sip002_plugin n) = true) ->
    get (querystring_parse (autoEscapeStr (sip002_query groupName n))) "plugin"
    = if truthy (field n "obfs") then JStr (sip002_plugin n) else JUndefined.
Proof.
  intros groupName n Hvalid. unfold sip002_query.
  remember (percent_encode kept_by_parser (sip002_plugin n)) as plugin
    eqn:Eplugin.
  remember (percent_encode kept_by_parser groupName) as group eqn:Egroup.
  assert (Hplugin : indexOf "&" ("plugin" +:+ "=" +:+ plugin) = None)
    by (repeat (apply indexOf_app_None; [reflexivity |]);
        rewrite Eplugin; apply encoded_no_amp).
  assert (Hgroup : indexOf "&" ("group" +:+ "=" +:+ group) = None)
    by (repeat (apply indexOf_app_None; [reflexivity |]);
        rewrite Egroup; apply encoded_no_amp).
  assert (Ekey1 : qs_unescape "plugin" = "plugin") by (vm_compute; reflexivity).
  assert (Ekey2 : qs_unescape "group" = "group") by (vm_compute; reflexivity).
  assert (Eesc1 : autoEscapeStr "plugin=" = "plugin" +:+ "=")
    by (vm_compute; reflexivity).
  assert (Eesc2 : autoEscapeStr "&group=" = String "&" ("group" +:+ "="))
    by (vm_compute; reflexivity).
  assert (Eesc3 : autoEscapeStr "group=" = "group" +:+ "=")
    by (vm_compute; reflexivity).
  assert (Hvalue : truthy (field n "obfs") = true
                   -> qs_unescape plugin = sip002_plugin n).
  { intros Hobfs. rewrite Eplugin.
    apply qs_unescape_encoded, Hvalid, Hobfs. }
  unfold querystring_parse. change (chr 38) with "&"%char.
  destruct (truthy (field n "obfs")); destruct (String.eqb groupName "").
  - rewrite autoEscapeStr_app, autoEscapeStr_encodeURIComponent.
    rewrite Eesc1, <- Eplugin, append_assoc.
    rewrite (split_without_separator "&" _ Hplugin).
    rewrite (querystring_parse_segment [] "plugin" plugin [] eq_refl).
    rewrite Ekey1, (Hvalue eq_refl). reflexivity.
  - rewrite !autoEscapeStr_app, !autoEscapeStr_encodeURIComponent.
    rewrite Eesc1, Eesc2, <- Eplugin, <- Egroup.
    replace (("plugin" +:+ "=") +:+ plugin
               +:+ String "&" ("group" +:+ "=") +:+ group)
      with (("plugin" +:+ "=" +:+ plugin)
              +:+ String "&" ("group" +:+ "=" +:+ group))
      by (rewrite !append_assoc; reflexivity).
    rewrite split_app.
    rewrite (split_without_separator "&" _ Hplugin).
    rewrite (split_without_separator "&" _ Hgroup). cbn [app].
    rewrite (querystring_parse_segment [] "plugin" plugin _ eq_refl).
    rewrite (querystring_parse_segment _ "group" group [] eq_refl).
    rewrite Ekey1, Ekey2, (Hvalue eq_refl). reflexivity.
  - reflexivity.
  - rewrite autoEscapeStr_app, autoEscapeStr_encodeURIComponent.
    rewrite Eesc3, <- Egroup, append_assoc.
    rewrite (split_without_separator "&" _ Hgroup).
    rewrite (querystring_parse_segment [] "group" group [] eq_refl).
    rewrite Ekey2. reflexivity.
Qed.

(** The plugin options the decoder reads back. *)
Lemma decodeStringList_plugin :
  forall obfs obfsHost,
    plugin_value obfs -> plugin_value obfsHost ->
    decodeStringList
      (split ";" ("obfs-local;obfs=" +:+ obfs +:+ ";obfs-host=" +:+ obfsHost))
    = [("obfs-local", JBool true); ("obfs", JStr obfs);
       ("obfs-host", JStr obfsHost)].
Proof.
  intros obfs obfsHost [Ho [_ [Hsemi Heq]]] [Hh [_ [Hsemi' Heq']]].
  replace ("obfs-local;obfs=" +:+ obfs +:+ ";obfs-host=" +:+ obfsHost)
    with ("obfs-local"
            +:+ String ";" (("obfs=" +:+ obfs)
                              +:+ String ";" ("obfs-host=" +:+ obfsHost)))
    by reflexivity.
  rewrite !split_app.
  rewrite (split_without_separator ";" "obfs-local") by reflexivity.
  rewrite (split_without_separator ";" ("obfs=" +:+ obfs))
    by (apply indexOf_app_None; [reflexivity | exact Hsemi]).
  rewrite (split_without_separator ";" ("obfs-host=" +:+ obfsHost))
    by (apply indexOf_app_None; [reflexivity | exact Hsemi']).
  unfold decodeStringList. cbn [app fold_left].
  change ("obfs=" +:+ obfs) with ("obfs" +:+ String (chr 61) obfs).
  change ("obfs-host=" +:+ obfsHost)
    with ("obfs-host" +:+ String (chr 61) obfsHost).
  rewrite (split_key_value (chr 61) "obfs" obfs eq_refl Heq).
  rewrite (split_key_value (chr 61) "obfs-host" obfsHost eq_refl Heq').
  change (split (chr 61) "obfs-local") with ["obfs-local"].
  cbn [nth nth_error]. unfold js_or. cbn [truthy].
  apply String.eqb_neq in Ho, Hh. rewrite Ho, Hh. reflexivity.
Qed.

Lemma sip002_plugin_valid :
  forall n obfs obfsHost,
    field n "obfs" = JStr obfs -> field n "obfs-host" = JStr obfsHost ->
    utf8_valid obfs = true -> utf8_valid obfsHost = true ->
    utf8_valid (sip002_plugin n) = true.
Proof.
  intros n obfs obfsHost Ho Hh Vo Vh. unfold sip002_plugin.
  rewrite Ho, Hh. cbn [toString].
  repeat (apply utf8_valid_app; [first [reflexivity | assumption] |]).
  exact Vh.
Qed.

(** The node read from the URI written for a node: the password is read
    up to its first [:]. *)
Lemma shadowsocksLine_of_shadowsocksNode :
  forall udpRelay groupName n password,
    sip002_shape n ->
    field n "password" = JStr password ->
    exists uri,
      shadowsocksNode groupName n = ret (Some uri)
      /\ is_prefix "ss://" uri = true
      /\ indexOf LF uri = None
      /\ shadowsocksLine udpRelay uri
         = ret (mkNode Shadowsocks
                  ([("nodeName", field n "nodeName");
                    ("hostname", field n "hostname");
                    ("port", JStr (toString (field n "port")));
                    ("method", field n "method");
                    ("password", JStr (nth 0 (split ":" password) ""))]
                     ++ (if is_boolean udpRelay
                         then [("udp-relay", udpRelay)] else [])
                     ++ (if truthy (field n "obfs")
                         then [("obfs", field n "obfs");
                               ("obfs-host", field n "obfs-host")]
                         else []))).
Proof.
  intros udpRelay groupName n password
    [Htype [Henabled [Hobfs [[name [Hname Hutf8]] [[host [Hhost Hplain]]
      [Hport [Hdigits [[method [Hmethod Hm]] _]]]]]]]] Hpassword.
  eexists. split.
  { apply (shadowsocksNode_uri groupName n name host method password);
      assumption. }
  set (userinfo := toUrlSafeBase64 (method +:+ ":" +:+ password)).
  set (port := toString (field n "port")) in *.
  set (query := sip002_query groupName n).
  set (fragment := encodeURIComponent name).
  assert (Huser : all_chars urlsafe_char userinfo = true)
    by apply toUrlSafeBase64_chars.
  assert (Henc : forall s, all_chars uri_piece_char (encodeURIComponent s) = true).
  { intros s. apply (all_chars_impl _ _ _ enc_piece).
    rewrite encodeURIComponent_percent_encode.
    apply percent_encode_pieces. intros c Hc. exact Hc. }
  assert (Hquery : all_chars uri_piece_char query = true).
  { unfold query, sip002_query.
    destruct (truthy (field n "obfs")); destruct (String.eqb groupName "");
      rewrite ?all_chars_app, ?Henc; reflexivity. }
  assert (Hfragment : all_chars uri_piece_char fragment = true) by apply Henc.
  split; [reflexivity |]. split.
  { pose proof Hplain as Hplain'. unfold plain_host in Hplain'.
    apply andb_true_iff in Hplain'. destruct Hplain' as [Hh _].
    pose proof Hdigits as Hdigits'. unfold plain_port in Hdigits'.
    apply andb_true_iff in Hdigits'. destruct Hdigits' as [Hd _].
    repeat (apply indexOf_app_None;
            [first [ reflexivity
                   | apply pieces_not_LF;
                     first [ exact Hquery
                           | exact (all_chars_impl _ _ _ urlsafe_piece Huser)
                           | exact (all_chars_impl _ _ _ dns_piece Hh)
                           | exact (all_chars_impl _ _ _ digit_piece Hd) ] ] |]).
    apply pieces_not_LF. exact Hfragment. }
  assert (Hvalid : truthy (field n "obfs") = true
                   -> utf8_valid (sip002_plugin n) = true).
  { destruct Hobfs as [Hno | [obfs [obfsHost [Ho [Hh [[_ [Vo _]] [_ [Vh _]]]]]]]];
      [rewrite Hno; discriminate | intros _].
    apply (sip002_plugin_valid n obfs obfsHost); assumption. }
  assert (Hplugin :
            match get (querystring_parse (autoEscapeStr query)) "plugin"
              return Obj with
            | JStr plugin => decodeStringList (split (chr 59) plugin)
            | _ => []
            end
            = if truthy (field n "obfs")
              then [("obfs-local", JBool true); ("obfs", field n "obfs");
                    ("obfs-host", field n "obfs-host")]
              else []).
  { unfold query. rewrite (sip002_query_plugin groupName n Hvalid).
    destruct Hobfs as [Hno | [obfs [obfsHost [Ho [Hh [Po Ph]]]]]];
      [rewrite Hno; reflexivity |].
    rewrite Ho. cbn [truthy].
    destruct Po as [Hne Po']. pose proof Hne as Hne'.
    apply String.eqb_neq in Hne'. rewrite Hne'. cbn [negb].
    unfold sip002_plugin. rewrite Ho, Hh. cbn [toString].
    change (chr 59) with ";"%char.
    apply decodeStringList_plugin; [split; assumption | exact Ph]. }
  unfold shadowsocksLine.
  rewrite (url_parse_sip002 userinfo host port query fragment
             Huser Hplain Hdigits Hquery Hfragment).
  cbn [url_auth url_query url_hash url_hostname url_port].
  unfold userinfo. rewrite fromUrlSafeBase64_of_toUrlSafeBase64.
  change (method +:+ ":" +:+ password)
    with (method +:+ String (chr 58) password).
  rewrite split_app, (split_without_separator (chr 58) method Hm).
  rewrite Hplugin.
  rewrite replace_unfold.
  cbn [is_prefix String.append Ascii.eqb Bool.eqb andb String.length drop].
  unfold fragment. rewrite autoEscapeStr_encodeURIComponent.
  unfold decodeURIComponent.
  rewrite (decode_percent_encode kept_by_parser kept_by_parser_ascii
             (String.length name) name (Nat.le_refl _) Hutf8 _ (Nat.le_refl _)).
  change (chr 58) with ":"%char.
  pose proof (split_not_nil ":" password) as Hsplit.
  destruct (split ":" password) as [| p ps]; [contradiction |].
  cbn [app nth nth_error].
  rewrite Hname, Hhost, Hmethod. fold port.
  destruct (truthy (field n "obfs"));
    destruct (is_boolean udpRelay); reflexivity.
Qed.



(** X26.  A password with a [:] in it does not survive the round trip:
    from the URI [getShadowsocksNodes] writes, [getShadowsocksSubscription]
    reads the password up to its first [:] only. *)
Theorem shadowsocksLine_cuts_password_at_colon :
  forall (udpRelay : JsVal) (groupName : string) (n : NodeConfig)
         (first rest : string),
    sip002_shape n ->
    field n "password" = JStr (first +:+ ":" +:+ rest) ->
    indexOf ":" first = None ->
    exists (uri : string) (node : NodeConfig),
      shadowsocksNode groupName n = ret (Some uri)
      /\ shadowsocksLine udpRelay uri = ret node
      /\ field node "password" = JStr first.
Proof.
  intros udpRelay groupName n first rest Hshape Hpassword Hfirst.
  destruct (shadowsocksLine_of_shadowsocksNode udpRelay groupName n
              (first +:+ ":" +:+ rest) Hshape Hpassword)
    as [uri [Huri [_ [_ Hline]]]].
  exists uri. eexists. split; [exact Huri |]. split; [exact Hline |].
  change (first +:+ ":" +:+ rest) with (first +:+ String ":" rest).
  rewrite split_app, (split_without_separator ":" first Hfirst).
  reflexivity.
Qed.


(** ** The ShadowsocksR URIs *)

Lemma shadowsocksrNode_uri :
  forall groupName n,
    ssr_node n ->
    shadowsocksrNode groupName n
    = ret (Some ("ssr://" +:+ toUrlSafeBase64 (ssr_payload groupName n))).
Proof.
  intros groupName n [Henabled [Htype [Hpassword [Hobfs [Hproto Hname]]]]].
  unfold shadowsocksrNode, ssr_payload. rewrite Henabled, Htype.
  destruct (field n "password") as [| | | | | password | |];
    try discriminate Hpassword.
  destruct (field n "obfsparam") as [| | | | | obfsparam | |];
    try discriminate Hobfs.
  destruct (field n "protoparam") as [| | | | | protoparam | |];
    try discriminate Hproto.
  destruct (field n "nodeName") as [| | | | | name | |];
    try discriminate Hname.
  cbn [toUrlSafeBase64_of toString]. rewrite !bind_ret_l.
  unfold queryString_stringify.
  cbn [map fst sort_strings fold_right]. 
  change (insert_sorted "obfsparam"
            (insert_sorted "protoparam"
               (insert_sorted "remarks"
                  (insert_sorted "group"
                     (insert_sorted "udpport" (insert_sorted "uot" []))))))
    with ["group"; "obfsparam"; "protoparam"; "remarks"; "udpport"; "uot"].
  cbn [map get String.eqb Ascii.eqb Bool.eqb]. cbn [toString].
  reflexivity.
Qed.

(** X27.  For enabled ShadowsocksR nodes whose password, [obfsparam],
    [protoparam] and name are texts, [getShadowsocksrNodes] writes one line
    per node, in the order of the nodes.  A line is [ssr://] followed by a
    URL-safe base64 text without line feed, and [fromUrlSafeBase64] reads
    from it the server part [host:port:protocol:method:obfs:password]
    (password in URL-safe base64), [/?] and the parameters [group],
    [obfsparam], [protoparam], [remarks] (each in URL-safe base64),
    [udpport=0] and [uot=0], in this alphabetical order. *)
Theorem getShadowsocksrNodes_lines :
  forall (groupName : string) (nodes : list NodeConfig),
    Forall ssr_node nodes ->
    exists lines : list string,
      getShadowsocksrNodes nodes groupName = ret (join NL lines)
      /\ Forall2 (fun n line =>
                    is_prefix "ssr://" line = true
                    /\ indexOf LF line = None
                    /\ fromUrlSafeBase64 (drop 6 line) = ssr_payload groupName n)
           nodes lines.
Proof.
  intros groupName nodes Hnodes.
  exists (map (fun n => "ssr://" +:+ toUrlSafeBase64 (ssr_payload groupName n))
            nodes).
  split.
  - unfold getShadowsocksrNodes.
    rewrite (mapM_ret (shadowsocksrNode groupName)
               (fun n => Some ("ssr://"
                                 +:+ toUrlSafeBase64 (ssr_payload groupName n)))).
    + rewrite bind_ret_l. f_equal. f_equal.
      clear Hnodes. induction nodes as [| n nodes IH]; [reflexivity |].
      cbn [map]. unfold keep_non_null in *. cbn [flat_map app].
      rewrite IH. reflexivity.
    + intros n Hn. rewrite Forall_forall in Hnodes.
      apply shadowsocksrNode_uri, Hnodes, Hn.
  - induction Hnodes as [| n nodes Hn _ IH]; [constructor |].
    cbn [map]. constructor; [| exact IH].
    split; [reflexivity |]. split.
    + apply indexOf_app_None; [reflexivity |].
      apply pieces_not_LF.
      apply (all_chars_impl _ _ _ urlsafe_piece).
      apply toUrlSafeBase64_chars.
    + cbn [String.append drop].
      apply fromUrlSafeBase64_of_toUrlSafeBase64.
Qed.

(** X28.  [getShadowsocksrNodes] fails, with no text returned, as soon as
    one of the nodes is an enabled ShadowsocksR node without [obfsparam] or
    without [protoparam]. *)
Theorem getShadowsocksrNodes_requires_params :
  forall (groupName : string) (nodes : list NodeConfig) (n : NodeConfig),
    In n nodes ->
    disabled n = false ->
    type n = Shadowsocksr ->
    field n "obfsparam" = JUndefined \/ field n "protoparam" = JUndefined ->
    exists es err, getShadowsocksrNodes nodes groupName = (es, Thrown err).
Proof.
  intros groupName nodes n Hin Henabled Htype Hparam.
  assert (Hn : exists err, shadowsocksrNode groupName n = ([], Thrown err)).
  { unfold shadowsocksrNode. rewrite Henabled, Htype.
    destruct (field n "password");
      try (eexists; reflexivity).
    cbn [toUrlSafeBase64_of]. rewrite bind_ret_l.
    destruct Hparam as [-> | Hproto]; [eexists; reflexivity |].
    destruct (field n "obfsparam"); try (eexists; reflexivity).
    cbn [toUrlSafeBase64_of]. rewrite bind_ret_l, Hproto.
    eexists; reflexivity. }
  destruct Hn as [err Hn].
  destruct (mapM_throws (shadowsocksrNode groupName) nodes n [] err Hin Hn)
    as [es' [err' Hmap]].
  unfold getShadowsocksrNodes. rewrite Hmap. exists es', err'. reflexivity.
Qed.

End Utils.

(** * The properties at concrete inputs

    [validateFilter] is instantiated by the reading of the specification,
    [JSON.parse] and [Number] by [JSON_read] and [Number_int]. *)



(** C2 at three nodes and the predicate [only_US]. *)
Lemma applyFilter_predicate_witness :
  applyFilter validateFilter_spec sample_nodes (FFunction only_US)
  = ret (List.filter only_US (List.filter enabled sample_nodes))
  /\ Subseq (List.filter only_US (List.filter enabled sample_nodes))
       sample_nodes.
Proof.
  exact (applyFilter_predicate validateFilter_spec sample_nodes only_US eq_refl).
Defined.

(** C3 at a string given as a filter: the call throws. *)
Lemma applyFilter_invalid_filter_witness :
  applyFilter validateFilter_spec sample_nodes (FValue (JStr "keyword"))
  = ([], Thrown "使用了无效的过滤器 keyword").
Proof.
  exact (applyFilter_invalid_filter validateFilter_spec sample_nodes
           (JStr "keyword") eq_refl).
Defined.

(** C3 fails at [null]: [applyFilter] does not throw, it returns the enabled
    nodes, also when [validateFilter] rejects every value. *)
Lemma applyFilter_null_filter_not_rejected :
  validateFilter_spec (FValue JNull) = false
  /\ applyFilter validateFilter_spec sample_nodes (FValue JNull)
     = ([], Returned [sample_ss; sample_vmess_udp_false])
  /\ applyFilter (fun _ => false) sample_nodes (FValue JNull)
     = ([], Returned [sample_ss; sample_vmess_udp_false]).
Proof. repeat split. Qed.


(** C6 at a payload of three lines, the second over [kcp]: two nodes, one
    warning. *)
Lemma getV2rayNSubscription_witness :
  exists nodes : list NodeConfig,
    getV2rayNSubscription JSON_read Number_int sample_url sample_v2rayN_response
    = ([ConsoleLog "";
        ConsoleLog "不支持读取 network 类型为 kcp 的 Vmess 节点，节点 B 会被省略"],
       Returned nodes)
    /\ List.length (v2rayN_configList sample_v2rayN_response) = 3%nat
    /\ List.length nodes = 2%nat.
Proof.
  destruct (getV2rayNSubscription_drops_unsupported_networks
              JSON_read Number_int sample_url sample_v2rayN_response)
    as [nodes [Hrun [_ [Hlen _]]]].
  - discriminate.
  - intros item Hin. vm_compute in Hin.
    destruct Hin as [<- | [<- | [<- | []]]]; vm_compute; reflexivity.
  - exists nodes. split; [| split].
    + rewrite Hrun. reflexivity.
    + reflexivity.
    + assert (Hdropped :
                List.length
                  (List.filter (v2rayN_unsupported JSON_read)
                     (v2rayN_configList sample_v2rayN_response)) = 1%nat)
        by (vm_compute; reflexivity).
      assert (Hlines :
                List.length (v2rayN_configList sample_v2rayN_response) = 3%nat)
        by (vm_compute; reflexivity).
      rewrite Hdropped, Hlines in Hlen. lia.
Defined.

(** C7 at a [select] group with two existing proxies and a filter. *)
Lemma generateClashProxyGroup_witness :
  exists group : Obj,
    generateClashProxyGroup "http://www.qualcomm.cn/generate_204" 1200
      validateFilter_spec "G" "select" sample_nodes (Some sample_group_options)
    = ret group
    /\ get group "proxies" = JArr [JStr "A"; JStr "B"; JStr "US"]
    /\ has group "url" = false
    /\ has group "interval" = false.
Proof.
  destruct (generateClashProxyGroup_members_and_health_check
              "http://www.qualcomm.cn/generate_204" 1200 validateFilter_spec
              "G" "select" sample_nodes (Some sample_group_options)
              [sample_vmess_udp_false] eq_refl)
    as [group [Hrun [_ [_ [Hproxies [Hurl [Hinterval _]]]]]]].
  exists group. repeat split; assumption.
Defined.

(** C10 at a line that leaves out [aid], [host] and [path]. *)
Lemma v2rayNLine_defaults_witness :
  exists node : NodeConfig,
    v2rayNLine JSON_read Number_int sample_url (sample_vmess_uri "A" "ws")
    = ret (Some node)
    /\ field node "alterId" = JStr "0"
    /\ field node "host" = JStr ""
    /\ field node "path" = JStr "/"
    /\ field node "tls" = JBool true.
Proof.
  destruct (v2rayNLine_defaults JSON_read Number_int sample_url
              (sample_vmess_uri "A" "ws") (sample_vmess_json "A" "ws")
              eq_refl eq_refl eq_refl)
    as [node [Hrun [_ [_ [_ [_ [Haid [Hhost [Hpath [Htls _]]]]]]]]]].
  exists node. repeat split.
  - exact Hrun.
  - apply Haid. reflexivity.
  - apply Hhost. reflexivity.
  - apply Hpath. reflexivity.
  - apply Htls. reflexivity.
Defined.

(** C9 at rule text with a carriage return after a comment and with a
    domain that starts with [no-resolve]: the comment of the second line is
    still there, and the third line has lost a part of its domain. *)
Theorem clashFilter_misses_comment_and_cuts_domain :
  clashFilter sample_unsupported_rules sample_rules
  = join NL
      ["# rules" +:+ str1 CR;
       "- DOMAIN,a.com,Proxy // note";
       "- DOMAIN-SUFFIX.example.com,Proxy";
       "- IP-CIDR,1.1.1.1/32,DIRECT"].
Proof. vm_compute. reflexivity. Qed.


(** X1 at the composite filter that reverses the node sequence. *)
Lemma applyFilter_all_enabled_witness :
  Forall (fun n => disabled n = false) [sample_vmess_udp_false; sample_ss]
  /\ (forall n, In n [sample_vmess_udp_false; sample_ss] -> In n sample_nodes).
Proof.
  apply (applyFilter_all_enabled validateFilter_spec sample_nodes
           (FSorted (@rev NodeConfig)) []).
  - intros l x H. apply in_rev. exact H.
  - reflexivity.
Defined.

(** X2 at a payload with the version marker [1]. *)
Lemma getV2rayNSubscription_version_witness :
  exists es err,
    getV2rayNSubscription JSON_read Number_int sample_url sample_v1_response
    = (es, Thrown err).
Proof.
  apply (getV2rayNSubscription_version_check_is_fatal
           JSON_read Number_int sample_url sample_v1_response
           (nth 0 (v2rayN_configList sample_v1_response) "")).
  - vm_compute. left. reflexivity.
  - vm_compute. reflexivity.
Defined.

(** X3 at a node with [obfs: 'wss']. *)
Lemma clash_shadowsocks_websocket_witness :
  exists (o opts : Obj),
    clashNode NodeTypeEnum_sample sample_ss_wss = ret (Some o)
    /\ get o "plugin" = JStr "v2ray-plugin"
    /\ get o "plugin-opts" = JObj opts
    /\ get opts "mode" = JStr "websocket"
    /\ get opts "tls" = JBool true.
Proof.
  exact (clash_shadowsocks_websocket_tls NodeTypeEnum_sample sample_ss_wss true
           eq_refl eq_refl eq_refl).
Defined.

(** X5 at a rule with both a [,no-resolve] suffix and a comment. *)
Lemma clashLine_rule_line_witness :
  clashLine "IP-CIDR,1.1.1.1/32,DIRECT,no-resolve // dns"
  = "- IP-CIDR,1.1.1.1/32,DIRECT".
Proof.
  apply (clashLine_rule_line "IP-CIDR,1.1.1.1/32,DIRECT" " dns" true true);
    try reflexivity.
  discriminate.
Defined.

(** A comment line is written as it is. *)
Lemma clashLine_comment_witness : clashLine "# Apple" = "# Apple".
Proof.
  apply clashLine_comment_or_blank. left. reflexivity.
Defined.

(** X4 at a group whose [filter] is [null]. *)
Lemma normalizeClashProxyGroupConfig_witness :
  exists es err,
    normalizeClashProxyGroupConfig "http://www.qualcomm.cn/generate_204" 1200
      validateFilter_spec sample_nodes []
      (fun _ _ => [mkGroupItem "Proxy" "select" (Some (FValue JNull)) None])
      JUndefined JUndefined
    = (es, Thrown err).
Proof.
  apply (normalizeClashProxyGroupConfig_rejects_filter
           "http://www.qualcomm.cn/generate_204" 1200 validateFilter_spec
           sample_nodes []
           (fun _ _ => [mkGroupItem "Proxy" "select" (Some (FValue JNull)) None])
           JUndefined JUndefined
           (mkGroupItem "Proxy" "select" (Some (FValue JNull)) None)
           (FValue JNull)).
  - left. reflexivity.
  - reflexivity.
  - left. reflexivity.
Defined.

(** [clashFilter] at a text of comments and blank lines. *)
Lemma clashFilter_comments_witness :
  clashFilter sample_unsupported_rules sample_comments = sample_comments.
Proof.
  apply clashFilter_comments_and_blank_lines.
  - repeat constructor; discriminate.
  - vm_compute.
    repeat (constructor; [first [left; reflexivity | right; reflexivity] |]).
    constructor.
Defined.

(** [clashFilter] at a [user-agent] rule between two supported rules. *)
Lemma clashFilter_unsupported_line_witness :
  clashFilter sample_unsupported_rules
    ("DOMAIN,a.com,Proxy" +:+ NL +:+ "user-agent,Line*,DIRECT" +:+ NL
       +:+ "FINAL,DIRECT")
  = clashFilter sample_unsupported_rules
      ("DOMAIN,a.com,Proxy" +:+ NL +:+ "FINAL,DIRECT").
Proof.
  apply (clashFilter_unsupported_line_dropped sample_unsupported_rules
           "DOMAIN,a.com,Proxy" "user-agent,Line*,DIRECT" "FINAL,DIRECT"
           "USER-AGENT").
  - left. reflexivity.
  - reflexivity.
  - discriminate.
  - reflexivity.
Defined.

(** Two predicates in sequence at three nodes. *)
Lemma applyFilter_predicates_compose_witness :
  (nodes <- applyFilter validateFilter_spec sample_nodes (FFunction is_vmess) ;;
   applyFilter validateFilter_spec nodes (FFunction only_US))
  = applyFilter validateFilter_spec sample_nodes
      (FFunction (fun n => is_vmess n && only_US n)).
Proof.
  exact (applyFilter_predicates_compose validateFilter_spec sample_nodes
           is_vmess only_US eq_refl eq_refl eq_refl).
Defined.

(** Two groups of a proxy group modifier. *)
Lemma normalizeClashProxyGroupConfig_groups_witness :
  exists groups : list Obj,
    normalizeClashProxyGroupConfig "http://www.qualcomm.cn/generate_204" 1200
      validateFilter_spec sample_nodes [] sample_groups JUndefined JUndefined
    = ret groups
    /\ map (fun group => (get group "name", get group "type")) groups
       = [(JStr "Proxy", JStr "select"); (JStr "Auto", JStr "url-test")].
Proof.
  apply (normalizeClashProxyGroupConfig_one_group_per_entry
           "http://www.qualcomm.cn/generate_204" 1200 validateFilter_spec
           sample_nodes [] sample_groups JUndefined JUndefined).
  intros item filter Hin Hfilter.
  destruct Hin as [<- | [<- | []]]; simpl in Hfilter.
  - injection Hfilter as <-. split; reflexivity.
  - discriminate.
Defined.

(** [getSurgeNodes] at a ShadowsocksR node without [binPath]. *)
Lemma getSurgeNodes_requires_binPath_witness :
  exists es err,
    getSurgeNodes "Mozilla/5.0" Number_int sample_path_join "/home/user" true
      (JStr "production") validateFilter_spec [sample_ss; sample_ssr]
      (FValue JUndefined)
    = (es, Thrown err).
Proof.
  apply (getSurgeNodes_requires_binPath "Mozilla/5.0" Number_int
           sample_path_join "/home/user" true (JStr "production")
           validateFilter_spec [sample_ss; sample_ssr] (FValue JUndefined)
           [sample_ss; sample_ssr] sample_ssr).
  - reflexivity.
  - right. left. reflexivity.
  - left. reflexivity.
  - reflexivity.
Defined.

(** [getSurgeNodes] at an external VMess node, in the test environment. *)
Lemma getSurgeNodes_test_environment_witness :
  Forall (fun e => writes_file e = false)
    (events
       (getSurgeNodes "Mozilla/5.0" Number_int sample_path_join "/home/user"
          true (JStr "test") validateFilter_spec [sample_vmess_external]
          (FValue JUndefined))).
Proof.
  exact (getSurgeNodes_test_environment_writes_no_file "Mozilla/5.0"
           Number_int sample_path_join "/home/user" true (JStr "test")
           validateFilter_spec [sample_vmess_external] (FValue JUndefined)
           eq_refl).
Defined.


(** A subscription of one VMess node, written and read back. *)
Lemma getV2rayNSubscription_reads_witness :
  exists text : string,
    getV2rayNNodes NodeTypeEnum_sample [sample_vmess_udp_false] = ret text
    /\ getV2rayNSubscription JSON_read Number_int sample_url (toBase64 text)
       = ret [v2rayN_read_back sample_vmess_udp_false].
Proof.
  apply (getV2rayNSubscription_reads_getV2rayNNodes NodeTypeEnum_sample
           JSON_read Number_int sample_url [sample_vmess_udp_false]).
  - discriminate.
  - reflexivity.
  - constructor; [| constructor].
    split; [reflexivity | split; [reflexivity | split; [reflexivity |]]].
    exists (v2rayN_payload sample_vmess_udp_false).
    split; [vm_compute; reflexivity | intros k; reflexivity].
Defined.

(** The entry of a Shadowsocks node without plugin, written and read. *)
Lemma getShadowsocksJSONConfig_reads_witness :
  exists entries : list JsVal,
    mapM (shadowsocksJSONNode NodeTypeEnum_sample) [sample_ss]
    = ret (map Some entries)
    /\ forall (url response : string) (udpRelay r : JsVal),
         url <> "" ->
         JSON_read response = Some r ->
         getv r "configs" = JArr entries ->
         getShadowsocksJSONConfig JSON_read url udpRelay response
         = ret [shadowsocksJSON_read_back udpRelay sample_ss].
Proof.
  apply (getShadowsocksJSONConfig_reads_written_entries NodeTypeEnum_sample
           JSON_read [sample_ss]).
  constructor; [| constructor]. repeat split; reflexivity.
Defined.

(** The entry of a Shadowsocks node with the [obfs] plugin cannot be read. *)
Lemma getShadowsocksJSONConfig_rejects_witness :
  exists es err,
    getShadowsocksJSONConfig JSON_read sample_url JUndefined
      sample_ss_obfs_response
    = (es, Thrown err).
Proof.
  apply (getShadowsocksJSONConfig_rejects_written_plugin NodeTypeEnum_sample
           JSON_read sample_ss_obfs sample_ss_obfs_entry [sample_ss_obfs_entry]
           sample_url sample_ss_obfs_response JUndefined
           (JObj [("configs", JArr [sample_ss_obfs_entry])])).
  - reflexivity.
  - reflexivity.
  - reflexivity.
  - reflexivity.
  - vm_compute. reflexivity.
  - left. reflexivity.
  - vm_compute. reflexivity.
  - reflexivity.
Defined.

(** The plugin options of an entry written by a Shadowsocks client. *)
Lemma shadowsocksJSONItem_plugin_witness :
  exists node : NodeConfig,
    shadowsocksJSONItem JUndefined (JObj sample_plugin_entry) = ret node
    /\ type node = Shadowsocks
    /\ field node "obfs" = JStr "http"
    /\ field node "obfs-host" = JStr "example.com".
Proof.
  apply (shadowsocksJSONItem_plugin_options JUndefined sample_plugin_entry
           "http" (Some "example.com")).
  - reflexivity.
  - reflexivity.
  - discriminate.
  - reflexivity.
  - intros h Hh. injection Hh as <-. split; [discriminate | reflexivity].
Defined.

(** The parts of a rewrite line written with several spaces. *)
Lemma convertUrlRewriteSnippet_witness :
  "302" <> "" /\ trim "302" <> "" /\ indexOf " " "302" = None.
Proof.
  apply (convertUrlRewriteSnippet_parts "^http://a   url 302  http://b"
           ["^http://a"; "url"; "302"; "http://b"] "302").
  - left. reflexivity.
  - right. right. left. reflexivity.
Defined.

(** A redirect of Quantumult X as a Surge line. *)
Lemma surgeUrlRewrite_witness :
  surgeUrlRewrite "^http://example.com url 302 https://example.org"
  = "^http://example.com https://example.org 302".
Proof.
  apply (surgeUrlRewrite_redirect "^http://example.com" "302"
           "https://example.org");
    try (split; [discriminate | reflexivity]); reflexivity.
Defined.

(** The [hostname] line after a comment. *)
Lemma hostnameFilter_witness :
  hostnameFilter
    ("# rewrite" +:+ NL +:+ "hostname = example.com" +:+ NL
       +:+ "^http://a url 302 http://b")
  = Some "hostname = example.com".
Proof.
  apply (hostnameFilter_first_line "# rewrite" "hostname = example.com"
           "^http://a url 302 http://b").
  - repeat constructor.
  - reflexivity.
  - reflexivity.
Defined.

(** A script rule of Surge as a rewrite of Quantumult X. *)
Lemma convertSurgeScriptRule_witness :
  convertSurgeScriptRuleToQuantumultXRewriteRule new_URL_https_origin
    "http-response ^https://example.com script-path=https://example.org/a.js"
    "https://surgio.example.com/"
  = ret "^https://example.com url script-response-body https://surgio.example.com/qx-script?url=https%3A%2F%2Fexample.org%2Fa.js".
Proof.
  assert (Hpattern : token "^https://example.com")
    by (split; [discriminate | reflexivity]).
  assert (Hpath : token "https://example.org/a.js")
    by (split; [discriminate | reflexivity]).
  exact (proj1
           (proj2
              (convertSurgeScriptRule_script_path new_URL_https_origin
                 "https://surgio.example.com/" "^https://example.com"
                 "https://example.org/a.js" Hpattern Hpath eq_refl eq_refl)
              (mkURL_object "https" "" "" (Some "surgio.example.com") None
                 [""] false None None [])
              eq_refl eq_refl)).
Defined.

(** A name with characters outside ASCII, escaped and read back. *)
Lemma decodeURIComponent_encodeURIComponent_witness :
  decodeURIComponent (encodeURIComponent "香港 HK 01") = Some "香港 HK 01".
Proof.
  apply (decodeURIComponent_encodeURIComponent "香港 HK 01"). reflexivity.
Defined.


(** The password [pass:word] is read back as [pass]. *)
Lemma shadowsocksLine_cuts_password_at_colon_witness :
  exists (uri : string) (node : NodeConfig),
    shadowsocksNode NodeTypeEnum_sample "Surgio" sample_ss_colon
    = ret (Some uri)
    /\ shadowsocksLine JUndefined uri = ret node
    /\ field node "password" = JStr "pass".
Proof.
  apply (shadowsocksLine_cuts_password_at_colon NodeTypeEnum_sample
           JUndefined "Surgio" sample_ss_colon "pass" "word").
  - split; [reflexivity |]. split; [reflexivity |].
    split; [left; reflexivity |].
    split; [exists "HK"; split; reflexivity |].
    split; [exists "hk.example.com"; split; reflexivity |].
    split; [right; exists 8443%Z; reflexivity |].
    split; [reflexivity |].
    split; [exists "chacha20-ietf-poly1305"; split; reflexivity |].
    reflexivity.
  - reflexivity.
  - reflexivity.
Defined.

(** The line written for a ShadowsocksR node with its parameters. *)
Lemma getShadowsocksrNodes_lines_witness :
  exists lines : list string,
    getShadowsocksrNodes NodeTypeEnum_sample [sample_ssr_params] "Surgio"
    = ret (join NL lines)
    /\ Forall2
         (fun n line =>
            is_prefix "ssr://" line = true
            /\ indexOf LF line = None
            /\ fromUrlSafeBase64 (drop 6 line) = ssr_payload "Surgio" n)
         [sample_ssr_params] lines.
Proof.
  apply (getShadowsocksrNodes_lines NodeTypeEnum_sample "Surgio"
           [sample_ssr_params]).
  constructor; [| constructor]. repeat split.
Defined.

(** A ShadowsocksR node without [obfsparam] after a Shadowsocks node. *)
Lemma getShadowsocksrNodes_requires_params_witness :
  exists es err,
    getShadowsocksrNodes NodeTypeEnum_sample [sample_ss; sample_ssr] "Surgio"
    = (es, Thrown err).
Proof.
  apply (getShadowsocksrNodes_requires_params NodeTypeEnum_sample "Surgio"
           [sample_ss; sample_ssr] sample_ssr).
  - right. left. reflexivity.
  - reflexivity.
  - reflexivity.
  - left. reflexivity.
Defined.
